(** * Med-Search: workflow classification and graph orchestration core

    A shallow embedding of [medical_agent.py]: the message model, the
    history conversion, the LangGraph node functions and the two graph
    topologies built by [WorkflowFactory], the LLM workflow classifier with
    its cache, and the MCP connection manager with its retry wrapper.

    Conventions of the embedding.
    - A Python [str] is a Rocq [string]; the operations of the Python
      runtime whose result depends on Unicode tables or on the interpreter
      ([str.strip], slicing by code points, [hash], [json.loads]) are the
      fields of [PyRuntime]; the general statements hold for every such
      runtime, and the examples use one that is exact on ASCII text.
    - Everything outside the repository (chat models, the tool node of
      LangGraph, the MCP server processes) is an oracle passed as an
      argument, exactly where the source receives the object.
    - [st.session_state] is the record [SessionState], threaded explicitly;
      a Python exception is the [Raise] case of [Result]. *)

From stdpp Require Import gmap strings list fin_maps pretty.
From Stdlib Require Import QArith.

Local Open Scope string_scope.
Local Open Scope nat_scope.
Local Open Scope list_scope.

(** ** Exceptions and results *)

(** [asyncio.TimeoutError] is told apart from every other [Exception]
    because the source has separate handlers for it. *)
Inductive Exn : Type :=
| TimeoutError (msg : string)
| Exception (msg : string).

(** [str(e)] *)
Definition str_exn (e : Exn) : string :=
  match e with
  | TimeoutError msg => msg
  | Exception msg => msg
  end.

Definition is_timeout (e : Exn) : bool :=
  match e with
  | TimeoutError _ => true
  | Exception _ => false
  end.

Inductive Result (A : Type) : Type :=
| Ok (a : A)
| Raise (e : Exn).

Arguments Ok {A} a.
Arguments Raise {A} e.

(** ** Python runtime primitives *)

#[warnings="-register-all"] Inductive JSON : Type :=
| JNull
| JBool (b : bool)
| JNum (q : Q)                 (* an int or a finite float *)
| JNonFinite (literal : string) (* NaN, Infinity, -Infinity: floats too *)
| JStr (s : string)
| JArr (items : list JSON)
| JObj (fields : list (string * JSON)).

(** The part of the interpreter the model does not fix.  [json_loads] is
    only ever applied to a text that starts with an opening brace, so a
    successful parse is an object: it returns the object's fields (one
    entry per key), [None] when [json.loads] raises. *)
Record PyRuntime : Type := {
  py_strip : string -> string;               (* s.strip() *)
  py_take : nat -> string -> string;         (* s[:n] *)
  json_loads : string -> option (list (string * JSON));
  py_hash_names : list string -> Z           (* hash(str(names)) *)
}.

(** [d.get(key)] on a dict given by its items. *)
Fixpoint dict_get {A : Type} (key : string) (d : list (string * A)) : option A :=
  match d with
  | [] => None
  | (k, v) :: rest => if String.eqb k key then Some v else dict_get key rest
  end.

Definition lower_ascii (c : Ascii.ascii) : Ascii.ascii :=
  let n := Ascii.nat_of_ascii c in
  if (65 <=? n) && (n <=? 90) then Ascii.ascii_of_nat (n + 32) else c.

(** [s.lower()] on the ASCII letters; bytes of other characters are kept. *)
Fixpoint str_lower (s : string) : string :=
  match s with
  | EmptyString => EmptyString
  | String c rest => String (lower_ascii c) (str_lower rest)
  end.

(** [pat in s] *)
Fixpoint str_contains (pat s : string) : bool :=
  if String.prefix pat s then true
  else match s with
       | EmptyString => false
       | String _ rest => str_contains pat rest
       end.

(** [sep.join(parts)] *)
Fixpoint str_join (sep : string) (parts : list string) : string :=
  match parts with
  | [] => ""
  | [p] => p
  | p :: rest => p +:+ sep +:+ str_join sep rest
  end.

Definition brace_open : Ascii.ascii := Ascii.ascii_of_nat 123.
Definition brace_close : Ascii.ascii := Ascii.ascii_of_nat 125.

(** The longest prefix of [s] that ends with a closing brace. *)
Fixpoint upto_last_close (s : string) : option string :=
  match s with
  | EmptyString => None
  | String c rest =>
      match upto_last_close rest with
      | Some r => Some (String c r)
      | None => if Ascii.eqb c brace_close then Some (String c EmptyString) else None
      end
  end.

(** [re.search(r'\{.*\}', s, re.DOTALL)]: the match, when there is one,
    runs from the first opening brace to the last closing brace after it
    (the star is greedy and the dot matches newlines). *)
Fixpoint re_search_braces (s : string) : option string :=
  match s with
  | EmptyString => None
  | String c rest =>
      if Ascii.eqb c brace_open then
        match upto_last_close rest with
        | Some r => Some (String c r)
        | None => None
        end
      else re_search_braces rest
  end.

(** [l[-k:]] for an integer [k] of either sign: the last [k] items when
    [k] is positive, the whole list when [k] is zero (the slice is then
    [l[0:]]), and [l[|k|:]] when [k] is negative. *)
Definition py_slice_from_neg {A : Type} (k : Z) (l : list A) : list A :=
  if (0 <? k)%Z then drop (length l - Z.to_nat k) l
  else drop (Z.to_nat (- k)) l.

(** ** Messages and graph state *)

Record ToolCall : Type := {
  tc_name : string;
  tc_args : string;
  tc_id : string
}.

Inductive BaseMessage : Type :=
| SystemMessage (content : string)
| HumanMessage (content : string)
| AIMessage (content : string) (tool_calls : list ToolCall)
| ToolMessage (content : string) (tool_call_id : string).

Definition msg_content (m : BaseMessage) : string :=
  match m with
  | SystemMessage c | HumanMessage c | AIMessage c _ | ToolMessage c _ => c
  end.

Definition is_system (m : BaseMessage) : bool :=
  match m with SystemMessage _ => true | _ => false end.

Definition is_human (m : BaseMessage) : bool :=
  match m with HumanMessage _ => true | _ => false end.

(** [class AgentState(TypedDict)]: one channel, [messages]. *)
Record AgentState : Type := { messages : list BaseMessage }.

(** The reducer annotated on [messages]: [lambda x, y: x + y]. *)
Definition messages_reducer (x y : list BaseMessage) : list BaseMessage := x ++ y.

(** What a node returns: [None], or a dict with the key [messages]. *)
Definition Update : Type := option (list BaseMessage).

(** LangGraph merges a node's return value into the state through the
    channel's reducer; a node that returns [None] writes nothing. *)
Definition apply_update (st : AgentState) (u : Update) : AgentState :=
  match u with
  | None => st
  | Some ms => {| messages := messages_reducer (messages st) ms |}
  end.

(** ** Tools, server configuration and session state *)

Record Tool : Type := {
  tool_name : string;
  tool_description : string;
  tool_parameters : list string
}.

Record ServerConfig : Type := {
  command : string;
  args : list string;
  transport : string
}.

(** [mcp_config]: the items of the dict in iteration order. *)
Definition McpConfig : Type := list (string * ServerConfig).

Record HistoryEntry : Type := { role : string; entry_content : string }.

Record ServerStatus : Type := {
  status : string;
  tools_count : nat;
  error_message : string
}.

(** The fields of [st.session_state] the core reads or writes.  The
    wall-clock [last_updated] stamp of a status record is left out. *)
Record SessionState : Type := {
  session_initialized : bool;
  history : list HistoryEntry;
  server_status : gmap string ServerStatus;
  connection_logs : list string;
  conversation_memory_turns : Z;
  recursion_limit : nat;
  available_tools : list Tool;
  mcp_config : McpConfig
}.

Definition set_server_status (m : gmap string ServerStatus) (s : SessionState)
  : SessionState :=
  {| session_initialized := session_initialized s; history := history s;
     server_status := m; connection_logs := connection_logs s;
     conversation_memory_turns := conversation_memory_turns s;
     recursion_limit := recursion_limit s;
     available_tools := available_tools s; mcp_config := mcp_config s |}.

Definition set_connection_logs (logs : list string) (s : SessionState)
  : SessionState :=
  {| session_initialized := session_initialized s; history := history s;
     server_status := server_status s; connection_logs := logs;
     conversation_memory_turns := conversation_memory_turns s;
     recursion_limit := recursion_limit s;
     available_tools := available_tools s; mcp_config := mcp_config s |}.

(** Truth value of a Python string. *)
Definition str_truthy (s : string) : bool :=
  match s with EmptyString => false | String _ _ => true end.

Definition is_user_or_assistant (e : HistoryEntry) : bool :=
  String.eqb (role e) "user" || String.eqb (role e) "assistant".

Definition system_prompt : string :=
"당신은 의료 관련 질문에 답변하는 전문적이고 도움이 되는 AI 어시스턴트입니다.

주요 역할:
- 의료/과학 논문 검색 및 연구 정보 제공
- 의료 정보에 대한 정확하고 신뢰할 수 있는 답변 제공
- 이전 대화 내용을 기억하고 맥락을 고려한 연속적인 대화
- 복잡한 의학 용어를 이해하기 쉽게 설명
- 필요시 전문의 상담을 권유

사용 가능한 도구들:
- PubMed 검색: 의학/과학 논문 검색 및 분석
- 기타 의료 관련 데이터베이스

중요 사항:
- 진단이나 치료를 직접 제공하지 않고, 일반적인 정보만 제공
- 응급 상황 시 즉시 의료진에게 연락하도록 안내
- 이전 대화 내용을 참고하여 연관성 있는 답변 제공
- 논문 검색 시 영어 번역을 통해 정확한 검색 수행".

Definition history_entry_to_messages (e : HistoryEntry) : list BaseMessage :=
  if String.eqb (role e) "user" then [HumanMessage (entry_content e)]
  else if String.eqb (role e) "assistant" then [AIMessage (entry_content e) []]
  else [].

(** The window kept by both history readers: the last [2 * turns]
    entries when there are more than that, all of them otherwise. *)
Definition recent_entries (turns : Z) (filtered : list HistoryEntry) : list HistoryEntry :=
  if (turns * 2 <? Z.of_nat (length filtered))%Z
  then py_slice_from_neg (turns * 2) filtered
  else filtered.

Definition convert_history_to_messages (history : list HistoryEntry) (max_turns : Z)
  : list BaseMessage :=
  let messages := [SystemMessage system_prompt] in
  let filtered_history := List.filter is_user_or_assistant history in
  let recent_history := recent_entries max_turns filtered_history in
  messages ++ concat (map history_entry_to_messages recent_history).

Definition context_line (py : PyRuntime) (e : HistoryEntry) : list string :=
  if String.eqb (role e) "user"
  then ["사용자: " +:+ py_take py 100 (entry_content e) +:+ "..."]
  else if String.eqb (role e) "assistant"
  then ["AI: " +:+ py_take py 100 (entry_content e) +:+ "..."]
  else [].

Definition newline : string := String (Ascii.ascii_of_nat 10) EmptyString.

Definition get_conversation_context_summary (py : PyRuntime)
    (history : list HistoryEntry) (max_context_turns : Z) : string :=
  match history with
  | [] => ""
  | _ =>
      let filtered_history := List.filter is_user_or_assistant history in
      let recent_turns := recent_entries max_context_turns filtered_history in
      match recent_turns with
      | [] => ""
      | _ => str_join newline (concat (map (context_line py) recent_turns))
      end
  end.

(** ** Prompt templates of the node functions (the f-strings of the source) *)

Definition translation_prompt_with_context (context_summary : string) (content : string) : string :=
  "
        이전 대화 맥락:
        "
  +:+ context_summary
  +:+ "

        현재 질문을 위 맥락을 고려하여 의료/과학 논문 검색에 적합한 영어로 번역해주세요.
        의학 용어는 정확한 영어 용어로 번역하고, 검색 키워드로 적합하도록 간결하게 번역해주세요.
        이전 대화와의 연관성을 고려하여 번역하되, 검색에 필요한 핵심 키워드를 포함해주세요.

        현재 한글 질문: "
  +:+ content
  +:+ "

        영어 번역:".

Definition translation_prompt_plain (content : string) : string :=
  "
        다음 한글 텍스트를 의료/과학 논문 검색에 적합한 영어로 번역해주세요. 
        의학 용어는 정확한 영어 용어로 번역하고, 검색 키워드로 적합하도록 간결하게 번역해주세요.

        한글 텍스트: "
  +:+ content
  +:+ "

        영어 번역:".

Definition korean_translation_prompt (content_to_translate : string) : string :=
  "
    다음 영어 텍스트를 한국어로 번역해주세요. 의료/과학 논문 정보의 경우 다음 규칙을 따라주세요:

    번역 규칙:
    1. PMID, DOI 등의 식별자: 그대로 유지
    2. Title (제목): 영어 이름 그대로 유지
    3. Authors (저자): 영어 이름 그대로 유지 
    4. Journal (저널명): 영어 그대로 유지
    5. Publication Date: 영어 그대로 유지
    6. Abstract (초록): 한국어로 상세히 번역
    7. 기타 메타데이터: 적절히 번역하되 정보 손실 없이 보존

    번역할 텍스트:
    "
  +:+ content_to_translate
  +:+ "

    한국어 번역:".

Definition korean_prompt_with_context (context_summary : string) (content : string) : string :=
  "
        이전 대화 맥락:
        "
  +:+ context_summary
  +:+ "

        위 맥락을 고려하여 다음 질문에 대해 한국어로 답변해주세요. 
        이전 대화와의 연관성을 고려하고, 도구 사용이 필요하지 않은 일반적인 질문이므로 당신의 지식을 바탕으로 정확하고 자세한 답변을 제공해주세요.

        현재 질문: "
  +:+ content
  +:+ "

        한국어 답변:".

Definition korean_prompt_plain (content : string) : string :=
  "
        다음 질문에 대해 한국어로 직접 답변해주세요. 도구 사용이 필요하지 않은 일반적인 질문이므로 당신의 지식을 바탕으로 정확하고 자세한 답변을 제공해주세요.

        질문: "
  +:+ content
  +:+ "

        한국어 답변:".

Definition general_system_prompt : string :=
  "당신은 다양한 정보를 제공하는 전문적이고 도움이 되는 AI 어시스턴트입니다.

                주요 역할:
                - 실시간 정보 검색 및 제공 (뉴스, 날씨, 시간 등)
                - 일반적인 질문에 대한 정확하고 유용한 답변
                - 이전 대화 내용을 기억하고 맥락을 고려한 연속적인 대화
                - 사용자의 요청에 따라 적절한 도구 활용

                사용 가능한 도구들:
                - 웹 검색: 최신 뉴스, 블로그, 커뮤니티 등 다양한 정보 검색
                - 날씨 정보: 현재 날씨 및 예보 정보
                - 시간 조회: 현재 시간 및 시간대 정보
                - 기타 실시간 데이터 조회

                중요 사항:
                - 이전 대화 내용을 참고하여 연관성 있는 답변 제공
                - 실시간 정보가 필요한 경우 적절한 도구 사용
                - 정확하고 최신의 정보 제공에 중점
                - 연결된 도구들의 기능을 최대한 활용".


(** ** The world outside the session

    [World] carries the session state together with a record of the
    external calls made so far: how often the multi-server connect was
    entered, which server was dialled in which of these connects, and the
    arguments of [asyncio.sleep]. *)

Record World : Type := {
  session : SessionState;
  connects : nat;
  dialed : list (nat * string);
  slept : list nat
}.

Definition on_session (f : SessionState -> SessionState) (w : World) : World :=
  {| session := f (session w); connects := connects w;
     dialed := dialed w; slept := slept w |}.

Definition record_dial (epoch : nat) (server_name : string) (w : World) : World :=
  {| session := session w; connects := connects w;
     dialed := dialed w ++ [(epoch, server_name)]; slept := slept w |}.

Definition record_connect (w : World) : World :=
  {| session := session w; connects := S (connects w);
     dialed := dialed w; slept := slept w |}.

(** [await asyncio.sleep(n)] *)
Definition asyncio_sleep (n : nat) (w : World) : World :=
  {| session := session w; connects := connects w;
     dialed := dialed w; slept := slept w ++ [n] |}.

(** ** MCP server management *)

Definition update_server_status (server_name status_ error_message_ : string)
    (tools_count_ : nat) (s : SessionState) : SessionState :=
  let s1 :=
    set_server_status
      (<[server_name := {| status := status_; tools_count := tools_count_;
                           error_message := error_message_ |}]> (server_status s)) s in
  let log_message := "[" +:+ server_name +:+ "] " +:+ status_ in
  let log_message :=
    if str_truthy error_message_ then log_message +:+ ": " +:+ error_message_
    else log_message in
  set_connection_logs (connection_logs s1 ++ [log_message]) s1.

(** What one tool-provider process and the two library contexts around
    it ([stdio_client], [ClientSession]) do during one connection: each
    field is the outcome of one library call of [connect_mcp_server].  An
    exception raised inside a library context leaves it as the context
    hands it on: [session_leave] and [stdio_leave] give the exception that
    comes out of [ClientSession] and of [stdio_client] (their task groups
    re-raise what is raised in their body as an exception group).
    [teardown] is what comes out of the two contexts when they are left
    without an exception in flight. *)
Record ServerBehaviour : Type := {
  stdio_enter : option Exn;         (* entering stdio_client(params) raises *)
  session_enter : option Exn;       (* entering ClientSession(read, write) raises *)
  initialize : option Exn;          (* wait_for(session.initialize(), 30.0) raises *)
  load_mcp_tools : Result (list Tool);
  session_leave : Exn -> Exn;       (* what an exception leaves ClientSession as *)
  stdio_leave : Exn -> Exn;         (* what an exception leaves stdio_client as *)
  teardown : option Exn
}.

(** The providers: their behaviour in the [n]-th multi-server connect. *)
Definition McpServers : Type := nat -> string -> ServerConfig -> ServerBehaviour.

(** The outer handler of [connect_mcp_server]. *)
Definition connection_failed (server_name : string) (e : Exn) (s : SessionState)
  : Exn * SessionState :=
  let error_msg := "서버 연결 실패: " +:+ str_exn e in
  (Exception error_msg, update_server_status server_name "failed" error_msg 0 s).

(** The two inner handlers, around the [yield]: the exception they raise
    leaves [ClientSession], then [stdio_client], and reaches the outer
    handler. *)
Definition session_failed (b : ServerBehaviour) (server_name : string) (e : Exn)
    (s : SessionState) : Exn * SessionState :=
  let error_msg :=
    if is_timeout e then "서버 초기화 타임아웃 (30초 초과)"
    else "세션 초기화 실패: " +:+ str_exn e in
  connection_failed server_name (stdio_leave b (session_leave b (Exception error_msg)))
    (update_server_status server_name "failed" error_msg 0 s).

(** [connect_mcp_server] up to its [yield]: the tools of the server, or
    the exception that leaves the context manager. *)
Definition connect_mcp_server (b : ServerBehaviour) (server_name : string)
    (s : SessionState) : Result (list Tool) * SessionState :=
  let s := update_server_status server_name "connecting" "서버 연결 시도 중..." 0 s in
  match stdio_enter b with
  | Some e => let '(e', s') := connection_failed server_name e s in (Raise e', s')
  | None =>
      let s := update_server_status server_name "connecting"
                 "클라이언트 세션 초기화 중..." 0 s in
      match session_enter b with
      | Some e =>
          let '(e', s') := connection_failed server_name (stdio_leave b e) s in
          (Raise e', s')
      | None =>
          match initialize b with
          | Some e => let '(e', s') := session_failed b server_name e s in (Raise e', s')
          | None =>
              let s := update_server_status server_name "connecting" "도구 로드 중..." 0 s in
              match load_mcp_tools b with
              | Raise e =>
                  let '(e', s') := session_failed b server_name e s in (Raise e', s')
              | Ok tools =>
                  let tool_count := length tools in
                  (Ok tools,
                   update_server_status server_name "connected"
                     (pretty tool_count +:+ "개 도구 연결 성공") tool_count s)
              end
          end
      end
  end.

(** [connect_mcp_server] from its [yield] on, when the enclosing scope is
    left: [pending] is the exception in flight, if any.  An exception is
    thrown into the generator at the [yield], inside the inner [try]. *)
Definition connect_mcp_server_exit (b : ServerBehaviour) (server_name : string)
    (pending : option Exn) (s : SessionState) : option Exn * SessionState :=
  match pending with
  | Some e => let '(e', s') := session_failed b server_name e s in (Some e', s')
  | None =>
      match teardown b with
      | Some e => let '(e', s') := connection_failed server_name e s in (Some e', s')
      | None => (None, s)
      end
  end.

(** The state of [connect_all_mcp_servers] at its [yield]. *)
Record Connected : Type := {
  all_tools : list Tool;
  server_sessions : gmap string (list Tool);
  exit_stack : list (string * ServerBehaviour)   (* most recently entered first *)
}.

(** The [for] loop over [mcp_config.items()]. *)
Fixpoint connect_each (servers : McpServers) (epoch : nat) (items : McpConfig)
    (acc : Connected) (w : World) : Connected * World :=
  match items with
  | [] => (acc, w)
  | (server_id, config) :: rest =>
      let b := servers epoch server_id config in
      let w := record_dial epoch server_id w in
      match connect_mcp_server b server_id (session w) with
      | (Ok tools, s') =>
          connect_each servers epoch rest
            {| all_tools := all_tools acc ++ tools;
               server_sessions := <[server_id := tools]> (server_sessions acc);
               exit_stack := (server_id, b) :: exit_stack acc |}
            (on_session (fun _ => s') w)
      | (Raise _, s') =>
          connect_each servers epoch rest acc (on_session (fun _ => s') w)
      end
  end.

(** [connect_all_mcp_servers] up to its [yield]. *)
Definition connect_all_enter (servers : McpServers) (mcp_config : McpConfig) (w : World)
  : Connected * World :=
  let epoch := connects w in
  let w := record_connect w in
  let w := on_session (set_connection_logs []) w in
  connect_each servers epoch mcp_config
    {| all_tools := []; server_sessions := ∅; exit_stack := [] |} w.

(** Unwinding of the [AsyncExitStack]: the contexts are left in reverse
    order of entry, each receiving the exception then in flight. *)
Fixpoint unwind (stack : list (string * ServerBehaviour)) (pending : option Exn)
    (s : SessionState) : option Exn * SessionState :=
  match stack with
  | [] => (pending, s)
  | (server_id, b) :: rest =>
      let '(pending', s') := connect_mcp_server_exit b server_id pending s in
      unwind rest pending' s'
  end.

(** [async with connect_all_mcp_servers(mcp_config) as (tools, sessions): body] *)
Definition connect_all_mcp_servers {A : Type} (servers : McpServers)
    (mcp_config : McpConfig)
    (body : list Tool -> gmap string (list Tool) -> World -> Result A * World)
    (w : World) : Result A * World :=
  let '(c, w1) := connect_all_enter servers mcp_config w in
  let '(r, w2) := body (all_tools c) (server_sessions c) w1 in
  let pending := match r with Raise e => Some e | Ok _ => None end in
  let '(pending', s3) := unwind (exit_stack c) pending (session w2) in
  let w3 := on_session (fun _ => s3) w2 in
  match pending' with
  | Some e => (Raise e, w3)
  | None => (r, w3)
  end.

(** [ToolManager.get_tools_with_retry]: [remaining] counts the iterations
    of [for attempt in range(max_retries)] still to run, so the last
    attempt is the one with nothing remaining after it. *)
Fixpoint retry_attempts (servers : McpServers) (mcp_config : McpConfig)
    (remaining : nat) (w : World) : Result (list Tool) * World :=
  match remaining with
  | 0 => (Ok [], w)
  | S remaining' =>
      match connect_all_mcp_servers servers mcp_config
              (fun tools _ w' => (Ok tools, w')) w with
      | (Ok tools, w') => (Ok tools, w')
      | (Raise e, w') =>
          match remaining' with
          | 0 => (Raise e, w')
          | S _ => retry_attempts servers mcp_config remaining' (asyncio_sleep 1 w')
          end
      end
  end.

Definition get_tools_with_retry (servers : McpServers) (mcp_config : McpConfig)
    (max_retries : Z) (w : World) : Result (list Tool) * World :=
  retry_attempts servers mcp_config (Z.to_nat max_retries) w.

Definition default_max_retries : Z := 2.

(** ** Chat models and the tool node (external collaborators) *)

(** A chat model answers a message list with the content and the tool-call
    requests of an [AIMessage], or raises; [bind_tools] fixes the tools it
    may request. *)
Record ChatModel : Type := {
  bound : list Tool;
  respond : list Tool -> list BaseMessage -> Result (string * list ToolCall)
}.

Definition bind_tools (m : ChatModel) (tools : list Tool) : ChatModel :=
  {| bound := tools; respond := respond m |}.

Definition ainvoke (m : ChatModel) (input : list BaseMessage)
  : Result (string * list ToolCall) :=
  respond m (bound m) input.

(** [ToolNode(tools).ainvoke(state)] of LangGraph. *)
Definition ToolNode : Type := list Tool -> AgentState -> Result Update.

(** ** LangGraph node functions *)

Definition Node : Type := AgentState -> World -> Result Update * World.

(** [for message in reversed(messages): if isinstance(message, HumanMessage)] *)
Definition last_human (messages : list BaseMessage) : option BaseMessage :=
  List.find is_human (rev messages).

Definition translate_to_english (py : PyRuntime) (translator_model : ChatModel) : Node :=
  fun state w =>
    let messages := messages state in
    match last_human messages with
    | None => (Ok (Some []), w)
    | Some last_human_message =>
        let context_summary :=
          get_conversation_context_summary py (history (session w)) 3 in
        let translation_prompt :=
          if str_truthy context_summary
          then translation_prompt_with_context context_summary
                 (msg_content last_human_message)
          else translation_prompt_plain (msg_content last_human_message) in
        match ainvoke translator_model [HumanMessage translation_prompt] with
        | Raise e => (Raise e, w)
        | Ok (response_content, _) =>
            let translated_text := py_strip py response_content in
            let translated_message := HumanMessage translated_text in
            (* messages[:-1], then the translation *)
            let new_messages : list BaseMessage :=
              (removelast messages ++ [translated_message])%list in
            (Ok (Some new_messages), w)
        end
    end.

Definition call_model (model : ChatModel) : Node :=
  fun state w =>
    match ainvoke model (messages state) with
    | Raise e => (Raise e, w)
    | Ok (response_content, response_tool_calls) =>
        (Ok (Some [AIMessage response_content response_tool_calls]), w)
    end.

Definition is_tool_message (m : BaseMessage) : bool :=
  match m with ToolMessage _ _ => true | _ => false end.

(** [isinstance(message, AIMessage) and not message.tool_calls] *)
Definition is_plain_ai (m : BaseMessage) : bool :=
  match m with AIMessage _ [] => true | _ => false end.

(** [isinstance(message, AIMessage) and message.tool_calls] *)
Definition has_tool_calls (m : BaseMessage) : bool :=
  match m with AIMessage _ (_ :: _) => true | _ => false end.

Definition nonempty_content (o : option BaseMessage) : option string :=
  match o with
  | Some m => if str_truthy (msg_content m) then Some (msg_content m) else None
  | None => None
  end.

Definition translate_to_korean (py : PyRuntime) (translator_model : ChatModel) : Node :=
  fun state w =>
    let messages := messages state in
    let last_tool_message := List.find is_tool_message (rev messages) in
    let last_ai_message := List.find is_plain_ai (rev messages) in
    let content_to_translate :=
      match nonempty_content last_tool_message with
      | Some c => Some c
      | None => nonempty_content last_ai_message
      end in
    match content_to_translate with
    | None =>
        (Ok (Some [AIMessage "죄송합니다. 번역할 내용을 찾을 수 없습니다. 다시 시도해 주세요." []]), w)
    | Some c =>
        match ainvoke translator_model [HumanMessage (korean_translation_prompt c)] with
        | Ok (response_content, _) =>
            let translated_text := py_strip py response_content in
            (Ok (Some [AIMessage translated_text []]), w)
        | Raise e =>
            (Ok (Some [AIMessage ("번역 중 오류가 발생했습니다: " +:+ str_exn e) []]), w)
        end
    end.

Definition korean_direct_answer (py : PyRuntime) (translator_model : ChatModel) : Node :=
  fun state w =>
    let messages := messages state in
    let context_summary :=
      get_conversation_context_summary py (history (session w)) 5 in
    match last_human messages with
    | None => (Ok (Some []), w)
    | Some last_human_message =>
        let korean_prompt :=
          if str_truthy context_summary
          then korean_prompt_with_context context_summary
                 (msg_content last_human_message)
          else korean_prompt_plain (msg_content last_human_message) in
        match ainvoke translator_model [HumanMessage korean_prompt] with
        | Raise e => (Raise e, w)
        | Ok (response_content, _) =>
            let korean_answer := py_strip py response_content in
            (Ok (Some [AIMessage korean_answer []]), w)
        end
    end.

(** The [action] node of the medical graph.  When the fresh catalog is
    empty the [if] has no [else]: control leaves the [with] block and the
    function ends without a [return], which yields [None]. *)
Definition safe_tool_node (servers : McpServers) (tool_node : ToolNode)
    (mcp_config : McpConfig) : Node :=
  fun state w =>
    match connect_all_mcp_servers servers mcp_config
            (fun fresh_tools _ w' =>
               match fresh_tools with
               | [] => (Ok None, w')
               | _ :: _ => (tool_node fresh_tools state, w')
               end) w with
    | (Ok u, w') => (Ok u, w')
    | (Raise e, w') =>
        let error_msg := "도구 실행 중 오류 발생: " +:+ str_exn e in
        (Ok (Some [ToolMessage error_msg "error"]), w')
    end.

(** The [action] node of the general graph (the same text as above). *)
Definition simple_tool_node (servers : McpServers) (tool_node : ToolNode)
    (mcp_config : McpConfig) : Node :=
  fun state w =>
    match connect_all_mcp_servers servers mcp_config
            (fun fresh_tools _ w' =>
               match fresh_tools with
               | [] => (Ok None, w')
               | _ :: _ => (tool_node fresh_tools state, w')
               end) w with
    | (Ok u, w') => (Ok u, w')
    | (Raise e, w') =>
        let error_msg := "도구 실행 중 오류 발생: " +:+ str_exn e in
        (Ok (Some [ToolMessage error_msg "error"]), w')
    end.

(** The message list [korean_agent] hands to the model: the state's
    messages, with the general system prompt put in front when no
    [SystemMessage] is among them. *)
Definition korean_agent_messages (messages : list BaseMessage) : list BaseMessage :=
  let has_system_prompt := existsb is_system messages in
  if negb has_system_prompt
  then [SystemMessage general_system_prompt] ++ messages
  else messages.

Definition korean_agent (tools : list Tool) (model : ChatModel) : Node :=
  fun state w =>
    let state := {| messages := korean_agent_messages (messages state) |} in
    call_model (bind_tools model tools) state w.

(** The content [format_korean_response] picks while walking the messages
    from the newest: the first [ToolMessage] with content or [AIMessage]
    with content and without tool calls. *)
Definition is_final_content (m : BaseMessage) : bool :=
  match m with
  | ToolMessage c _ => str_truthy c
  | AIMessage c [] => str_truthy c
  | _ => false
  end.

Definition format_korean_response : Node :=
  fun state w =>
    let messages := messages state in
    let last_content := option_map msg_content (List.find is_final_content (rev messages)) in
    match last_content with
    | Some formatted_content => (Ok (Some [AIMessage formatted_content []]), w)
    | None => (Ok (Some [AIMessage "죄송합니다. 응답을 생성할 수 없습니다." []]), w)
    end.

(** ** Conditional edges *)

Definition index_error : Exn := Exception "list index out of range".

(** [state["messages"][-1]] raises [IndexError] on an empty list. *)
Definition should_continue_or_answer_medical (state : AgentState) : Result string :=
  match last (messages state) with
  | None => Raise index_error
  | Some last_message =>
      if has_tool_calls last_message then Ok "continue" else Ok "direct_answer"
  end.

Definition should_continue_or_answer_general (state : AgentState) : Result string :=
  match last (messages state) with
  | None => Raise index_error
  | Some last_message =>
      if has_tool_calls last_message then Ok "continue" else Ok "direct_answer"
  end.

Definition after_action_medical (state : AgentState) : Result string := Ok "translate".

(** ** The execution graph (LangGraph's [StateGraph]) *)

Definition END : string := "__end__".

Inductive Edge : Type :=
| EdgeTo (target : string)
| EdgeCond (path : AgentState -> Result string) (path_map : list (string * string)).

Record StateGraph : Type := {
  nodes : list (string * Node);
  entry_point : option string;
  edges : list (string * Edge)
}.

Definition new_state_graph : StateGraph :=
  {| nodes := []; entry_point := None; edges := [] |}.

Definition add_node (name : string) (action : Node) (g : StateGraph) : StateGraph :=
  {| nodes := nodes g ++ [(name, action)]; entry_point := entry_point g;
     edges := edges g |}.

Definition set_entry_point (name : string) (g : StateGraph) : StateGraph :=
  {| nodes := nodes g; entry_point := Some name; edges := edges g |}.

Definition add_edge (source target : string) (g : StateGraph) : StateGraph :=
  {| nodes := nodes g; entry_point := entry_point g;
     edges := edges g ++ [(source, EdgeTo target)] |}.

Definition add_conditional_edges (source : string)
    (path : AgentState -> Result string) (path_map : list (string * string))
    (g : StateGraph) : StateGraph :=
  {| nodes := nodes g; entry_point := entry_point g;
     edges := edges g ++ [(source, EdgeCond path path_map)] |}.

Definition key_error (key : string) : Exn := Exception key.

(** The node that runs after [node] has completed in state [st].  Every
    node of the two topologies has one outgoing edge declaration; a node
    without any ends the run. *)
Definition next_node (g : StateGraph) (node : string) (st : AgentState) : Result string :=
  match dict_get node (edges g) with
  | None => Ok END
  | Some (EdgeTo target) => Ok target
  | Some (EdgeCond path path_map) =>
      match path st with
      | Raise e => Raise e
      | Ok key =>
          match dict_get key path_map with
          | Some target => Ok target
          | None => Raise (key_error key)
          end
      end
  end.

Inductive Outcome : Type :=
| ReachedEnd
| Failed (e : Exn)             (* an exception left a node or a router *)
| GraphRecursionError.         (* the step limit was hit before END *)

Record Run : Type := {
  outcome : Outcome;
  executed : list string;      (* the nodes started, in order *)
  final_state : AgentState;
  final_world : World
}.

(** The nodes of one run: they execute one after the other, each update is
    merged into the state before the outgoing edge is evaluated; [limit]
    is the number of steps the configuration still allows. *)
Fixpoint run_from (g : StateGraph) (limit : nat) (node : string) (st : AgentState)
    (w : World) (done : list string) : Run :=
  if String.eqb node END then
    {| outcome := ReachedEnd; executed := done; final_state := st; final_world := w |}
  else
    match limit with
    | 0 => {| outcome := GraphRecursionError; executed := done;
              final_state := st; final_world := w |}
    | S limit' =>
        match dict_get node (nodes g) with
        | None => {| outcome := Failed (key_error node); executed := done;
                     final_state := st; final_world := w |}
        | Some action =>
            match action st w with
            | (Raise e, w') =>
                {| outcome := Failed e; executed := done ++ [node];
                   final_state := st; final_world := w' |}
            | (Ok u, w') =>
                let st' := apply_update st u in
                match next_node g node st' with
                | Raise e =>
                    {| outcome := Failed e; executed := done ++ [node];
                       final_state := st'; final_world := w' |}
                | Ok node' => run_from g limit' node' st' w' (done ++ [node])
                end
            end
        end
    end.

Definition recursion_limit_error : Exn :=
  Exception "recursion_limit must be at least 1".

(** [graph.astream(inputs, config)] run to its end: the input is written
    to the empty [messages] channel, then the entry point runs.  The
    recursion limit of the configuration counts the steps of the run, and
    the first of them is spent on [__start__], which writes the input: with
    the limit [limit] the nodes of the graph have [limit - 1] executions.
    A limit below 1 is refused before the run.  (Every turn compiles its
    graph with a new [MemorySaver], so no state of an earlier turn is
    restored.) *)
Definition run_graph (g : StateGraph) (limit : nat) (inputs : list BaseMessage)
    (w : World) : Run :=
  let st := apply_update {| messages := [] |} (Some inputs) in
  match entry_point g with
  | None => {| outcome := Failed (key_error "__start__"); executed := [];
               final_state := st; final_world := w |}
  | Some node =>
      match limit with
      | 0 => {| outcome := Failed recursion_limit_error; executed := [];
                final_state := st; final_world := w |}
      | S steps_left => run_from g steps_left node st w []
      end
  end.

(** ** WorkflowFactory *)

Definition create_medical_workflow (py : PyRuntime) (servers : McpServers)
    (tool_node : ToolNode) (tools : list Tool) (model translator_model : ChatModel)
    (mcp_config : McpConfig) : StateGraph :=
  let workflow := new_state_graph in
  let workflow :=
    add_node "translate_to_english" (translate_to_english py translator_model) workflow in
  let workflow := add_node "agent" (call_model (bind_tools model tools)) workflow in
  let workflow := add_node "action" (safe_tool_node servers tool_node mcp_config) workflow in
  let workflow :=
    add_node "translate_to_korean" (translate_to_korean py translator_model) workflow in
  let workflow :=
    add_node "direct_answer" (korean_direct_answer py translator_model) workflow in
  let workflow := set_entry_point "translate_to_english" workflow in
  let workflow := add_edge "translate_to_english" "agent" workflow in
  let workflow :=
    add_conditional_edges "agent" should_continue_or_answer_medical
      [("continue", "action"); ("direct_answer", "direct_answer")] workflow in
  let workflow :=
    add_conditional_edges "action" after_action_medical
      [("agent", "agent"); ("translate", "translate_to_korean")] workflow in
  let workflow := add_edge "translate_to_korean" END workflow in
  let workflow := add_edge "direct_answer" END workflow in
  workflow.

Definition create_general_workflow (py : PyRuntime) (servers : McpServers)
    (tool_node : ToolNode) (tools : list Tool) (model translator_model : ChatModel)
    (mcp_config : McpConfig) : StateGraph :=
  let workflow := new_state_graph in
  let workflow := add_node "agent" (korean_agent tools model) workflow in
  let workflow := add_node "action" (simple_tool_node servers tool_node mcp_config) workflow in
  let workflow := add_node "format_response" format_korean_response workflow in
  let workflow :=
    add_node "direct_answer" (korean_direct_answer py translator_model) workflow in
  let workflow := set_entry_point "agent" workflow in
  let workflow :=
    add_conditional_edges "agent" should_continue_or_answer_general
      [("continue", "action"); ("direct_answer", "direct_answer")] workflow in
  let workflow := add_edge "action" "format_response" workflow in
  let workflow := add_edge "format_response" END workflow in
  let workflow := add_edge "direct_answer" END workflow in
  workflow.

(** ** The LLM workflow classifier *)

Record ClassificationResult : Type := {
  workflow : string;
  confidence : JSON;
  reason : JSON;
  method : string
}.

(** The classifier's model: the answer ([response.content]) to the
    [n]-th invocation with a given prompt.  [asyncio.wait_for] turns an
    answer later than 15 seconds into [TimeoutError]. *)
Definition ClassifierLLM : Type := nat -> string -> Result string.

(** [self.llm], [self.cache], and the number of invocations the model has
    served for this classifier. *)
Record LLMWorkflowClassifier : Type := {
  llm : ClassifierLLM;
  cache : gmap string ClassificationResult;
  invocations : nat
}.

(** [LLMWorkflowClassifier(llm_model)] *)
Definition new_classifier (llm_model : ClassifierLLM) : LLMWorkflowClassifier :=
  {| llm := llm_model; cache := ∅; invocations := 0 |}.

Record ToolInfo : Type := {
  info_name : string;
  info_description : string;
  info_parameters : list string     (* empty: no [parameters] entry *)
}.

Definition extract_tool_descriptions (tools : list Tool) : list ToolInfo :=
  map (fun tool => {| info_name := tool_name tool;
                      info_description := tool_description tool;
                      info_parameters := tool_parameters tool |}) tools.

Definition format_tool (i : nat) (tool : ToolInfo) : string :=
  let tool_desc := pretty i +:+ ". **" +:+ info_name tool +:+ "**" in
  let tool_desc := tool_desc +:+ newline +:+ "   - 설명: " +:+ info_description tool in
  match info_parameters tool with
  | [] => tool_desc
  | _ :: _ =>
      tool_desc +:+ newline +:+ "   - 매개변수: " +:+ str_join ", " (info_parameters tool)
  end.

Definition format_tools_for_llm (tool_info : list ToolInfo) : string :=
  str_join (newline +:+ newline) (imap (fun i tool => format_tool (S i) tool) tool_info).

Definition decimal (n d : Z) : JSON := JNum (Qmake n (Z.to_pos d)).

Definition text_parse_result (response_content : string) : ClassificationResult :=
  if str_contains "medical" (str_lower response_content)
  then {| workflow := "medical"; confidence := decimal 7 10;
          reason := JStr "텍스트 파싱"; method := "fallback" |}
  else {| workflow := "general"; confidence := decimal 7 10;
          reason := JStr "텍스트 파싱"; method := "fallback" |}.

Definition parse_failure_result : ClassificationResult :=
  {| workflow := "general"; confidence := decimal 5 10;
     reason := JStr "파싱 실패"; method := "error" |}.

Definition json_get_default (key : string) (default : JSON)
    (d : list (string * JSON)) : JSON :=
  match dict_get key d with
  | Some v => v
  | None => default
  end.

(** The field check on the parsed object:
    ["workflow" in result and result["workflow"] in ["medical", "general"]]. *)
Definition accepted_workflow (result : list (string * JSON)) : option string :=
  match dict_get "workflow" result with
  | Some (JStr wf) =>
      if String.eqb wf "medical" || String.eqb wf "general" then Some wf else None
  | _ => None
  end.

Definition parse_llm_response (py : PyRuntime) (response_content : string)
  : ClassificationResult :=
  match re_search_braces response_content with
  | Some json_str =>
      match json_loads py json_str with
      | None => parse_failure_result
      | Some result =>
          match accepted_workflow result with
          | Some wf =>
              {| workflow := wf;
                 confidence := json_get_default "confidence" (decimal 8 10) result;
                 reason := json_get_default "reason" (JStr "LLM 분류") result;
                 method := "llm" |}
          | None => text_parse_result response_content
          end
      end
  | None => text_parse_result response_content
  end.

Definition get_fallback_classification (query : string) (tool_info : list ToolInfo)
  : ClassificationResult :=
  {| workflow := "general"; confidence := decimal 5 10;
     reason := JStr "LLM 분류 실패로 기본값 사용"; method := "fallback" |}.

Definition cache_key (py : PyRuntime) (query : string) (tools : list Tool) : string :=
  query +:+ "_" +:+ pretty (length tools) +:+ "_"
        +:+ pretty (py_hash_names py (map tool_name tools)).

Definition served (self : LLMWorkflowClassifier) : LLMWorkflowClassifier :=
  {| llm := llm self; cache := cache self; invocations := S (invocations self) |}.

Definition cache_store (key : string) (r : ClassificationResult)
    (self : LLMWorkflowClassifier) : LLMWorkflowClassifier :=
  {| llm := llm self; cache := <[key := r]> (cache self);
     invocations := invocations self |}.

(** [classify_workflow]; [prompt query formatted_tools] is the text of the
    classification prompt. *)
Definition classify_workflow (py : PyRuntime) (prompt : string -> string -> string)
    (self : LLMWorkflowClassifier) (query : string) (tools : list Tool)
  : ClassificationResult * LLMWorkflowClassifier :=
  let key := cache_key py query tools in
  match cache self !! key with
  | Some cached_result => (cached_result, self)
  | None =>
      let tool_info := extract_tool_descriptions tools in
      let formatted_tools := format_tools_for_llm tool_info in
      let classification_prompt := prompt query formatted_tools in
      match llm self (invocations self) classification_prompt with
      | Ok response_content =>
          let result := parse_llm_response py response_content in
          (result, cache_store key result (served self))
      | Raise (TimeoutError _) =>
          (get_fallback_classification query tool_info, served self)
      | Raise (Exception _) =>
          (get_fallback_classification query tool_info, served self)
      end
  end.

(** The least magnitude of an [int] that [float()] refuses: halfway
    between the largest float and [2 ^ 1024]. *)
Definition float_overflow_bound : Z := (2 ^ 1024 - 2 ^ 970)%Z.

(** [f"{x:.2f}"] is defined for numbers (and booleans) only, and raises
    [OverflowError] for an [int] too large for a float; no float is that
    large. *)
Definition formats_as_float (v : JSON) : bool :=
  match v with
  | JNum q => (Z.abs (Qnum q) <? float_overflow_bound * Z.pos (Qden q))%Z
  | JNonFinite _ | JBool _ => true
  | _ => false
  end.

(** [WorkflowClassifier.select_workflow_type]: the log line formats the
    confidence, and a failure there is caught by the same handler. *)
Definition select_workflow_type (py : PyRuntime) (prompt : string -> string -> string)
    (self : LLMWorkflowClassifier) (query : string) (tools : list Tool)
  : string * LLMWorkflowClassifier :=
  let '(result, self') := classify_workflow py prompt self query tools in
  if formats_as_float (confidence result) then (workflow result, self')
  else ("general", self').

(** ** One turn: [process_query_smart] up to the end of the graph run *)

Definition process_query_smart_inputs (s : SessionState) (query : string)
  : list BaseMessage :=
  let max_turns := conversation_memory_turns s in
  let messages := convert_history_to_messages (history s) max_turns in
  (messages ++ [HumanMessage query])%list.

Definition select_agent (py : PyRuntime) (servers : McpServers) (tool_node : ToolNode)
    (main_model translator_model : ChatModel) (s : SessionState)
    (selected_workflow : string) : StateGraph :=
  if String.eqb selected_workflow "medical"
  then create_medical_workflow py servers tool_node (available_tools s)
         main_model translator_model (mcp_config s)
  else create_general_workflow py servers tool_node (available_tools s)
         main_model translator_model (mcp_config s).

Definition process_query_smart (py : PyRuntime) (prompt : string -> string -> string)
    (servers : McpServers) (tool_node : ToolNode)
    (main_model translator_model : ChatModel)
    (classifier : LLMWorkflowClassifier) (query : string) (w : World)
  : option Run * LLMWorkflowClassifier :=
  let s := session w in
  if negb (session_initialized s) then (None, classifier)
  else
    let tools := available_tools s in
    let '(selected_workflow, classifier') :=
      select_workflow_type py prompt classifier query tools in
    let agent := select_agent py servers tool_node main_model translator_model s
                   selected_workflow in
    let inputs := process_query_smart_inputs s query in
    (Some (run_graph agent (recursion_limit s) inputs w), classifier').

(** ** A concrete environment for the examples

    The runtime below is exact on ASCII text.  Its [json_loads] accepts no
    text; the examples only use model answers without braces, for which
    [parse_llm_response] never reaches [json.loads]. *)

Definition is_ascii_space (c : Ascii.ascii) : bool :=
  let n := Ascii.nat_of_ascii c in
  ((9 <=? n) && (n <=? 13)) || ((28 <=? n) && (n <=? 32)).

Fixpoint ascii_lstrip (s : string) : string :=
  match s with
  | EmptyString => EmptyString
  | String c rest => if is_ascii_space c then ascii_lstrip rest else s
  end.

Fixpoint ascii_rstrip (s : string) : string :=
  match s with
  | EmptyString => EmptyString
  | String c rest =>
      match ascii_rstrip rest with
      | EmptyString => if is_ascii_space c then EmptyString else String c EmptyString
      | r => String c r
      end
  end.

Definition ascii_runtime : PyRuntime :=
  {| py_strip := fun s => ascii_rstrip (ascii_lstrip s);
     py_take := fun n s => String.substring 0 n s;
     json_loads := fun _ => None;
     py_hash_names := fun names => Z.of_nat (String.length (str_join "," names)) |}.

Definition sample_prompt (query formatted_tools : string) : string :=
  query +:+ newline +:+ formatted_tools.

Definition pubmed_config : ServerConfig :=
  {| command := "npx"; args := ["-y"; "pubmed-mcp-server"]; transport := "stdio" |}.

Definition search_tool : Tool :=
  {| tool_name := "search_pubmed"; tool_description := "Search PubMed";
     tool_parameters := ["query"] |}.

Definition task_group_text : string :=
  "unhandled errors in a TaskGroup (1 sub-exception)".

(** The task group of a library context re-raises what is raised in its
    body as an exception group. *)
Definition task_group_leave (e : Exn) : Exn := Exception task_group_text.

Definition healthy (tools : list Tool) : ServerBehaviour :=
  {| stdio_enter := None; session_enter := None; initialize := None;
     load_mcp_tools := Ok tools;
     session_leave := task_group_leave; stdio_leave := task_group_leave;
     teardown := None |}.

Definition handshake_fails (e : Exn) : ServerBehaviour :=
  {| stdio_enter := None; session_enter := None; initialize := Some e;
     load_mcp_tools := Ok [];
     session_leave := task_group_leave; stdio_leave := task_group_leave;
     teardown := None |}.

Definition empty_session : SessionState :=
  {| session_initialized := true; history := []; server_status := ∅;
     connection_logs := []; conversation_memory_turns := 8; recursion_limit := 100;
     available_tools := [search_tool]; mcp_config := [("pubmed", pubmed_config)] |}.

Definition fresh_world : World :=
  {| session := empty_session; connects := 0; dialed := []; slept := [] |}.

(** A translator that answers every prompt with the same text. *)
Definition constant_model (answer : string) (calls : list ToolCall) : ChatModel :=
  {| bound := []; respond := fun _ _ => Ok (answer, calls) |}.

Definition failing_model (e : Exn) : ChatModel :=
  {| bound := []; respond := fun _ _ => Raise e |}.

Definition search_call : ToolCall :=
  {| tc_name := "search_pubmed"; tc_args := "diabetes"; tc_id := "call_1" |}.

(** A tool node that answers the pending call of the examples. *)
Definition sample_tool_node : ToolNode :=
  fun _ _ => Ok (Some [ToolMessage "PMID: 12345" "call_1"]).

(** ** Vocabulary of the statements *)

(** An Assistant message carrying one or more pending tool-call requests. *)
Definition pending_tool_calls (m : BaseMessage) : Prop :=
  exists c tc tcs, m = AIMessage c (tc :: tcs).

(** [routes g n n']: some state sends a run that has completed node [n]
    on to [n'] (nothing runs after END). *)
Definition routes (g : StateGraph) (n n' : string) : Prop :=
  n <> END /\ exists st, next_node g n st = Ok n'.

(** A sequence of nodes linked by edges the routing can take. *)
Inductive edge_path (g : StateGraph) : list string -> Prop :=
| edge_path_nil : edge_path g []
| edge_path_one (n : string) : edge_path g [n]
| edge_path_cons (n n' : string) (p : list string) :
    routes g n n' -> edge_path g (n' :: p) -> edge_path g (n :: n' :: p).

(** Topological ranks of the two topologies (END comes last). *)
Definition medical_rank (n : string) : nat :=
  if String.eqb n "translate_to_english" then 0
  else if String.eqb n "agent" then 1
  else if String.eqb n "action" then 2
  else if String.eqb n "direct_answer" then 2
  else if String.eqb n "translate_to_korean" then 3
  else if String.eqb n END then 5
  else 4.

Definition general_rank (n : string) : nat :=
  if String.eqb n "agent" then 0
  else if String.eqb n "action" then 1
  else if String.eqb n "direct_answer" then 1
  else if String.eqb n "format_response" then 2
  else if String.eqb n END then 4
  else 3.

(** A chat model that answers every invocation. *)
Definition answers (m : ChatModel) : Prop :=
  forall tools input, exists r, respond m tools input = Ok r.

(** A provider whose connection comes up, and the tools it then offers. *)
Definition comes_up (b : ServerBehaviour) : bool :=
  match stdio_enter b, session_enter b, initialize b, load_mcp_tools b with
  | None, None, None, Ok _ => true
  | _, _, _, _ => false
  end.

Definition offered_tools (b : ServerBehaviour) : list Tool :=
  match load_mcp_tools b with
  | Ok tools => if comes_up b then tools else []
  | Raise _ => []
  end.

(** Where a connection dies: while the transport is set up, while the
    session object is set up (inside [stdio_client]), or during session
    initialisation and tool loading (inside [ClientSession]). *)
Inductive Stage : Type := AtTransport | AtSessionSetup | InSession.

(** The exception a provider's connection dies of, with the stage. *)
Definition failure_cause (b : ServerBehaviour) : option (Stage * Exn) :=
  match stdio_enter b with
  | Some e => Some (AtTransport, e)
  | None =>
      match session_enter b with
      | Some e => Some (AtSessionSetup, e)
      | None =>
          match initialize b with
          | Some e => Some (InSession, e)
          | None =>
              match load_mcp_tools b with
              | Raise e => Some (InSession, e)
              | Ok _ => None
              end
          end
      end
  end.

(** The message the inner handlers give a cause. *)
Definition session_error_text (e : Exn) : string :=
  if is_timeout e then "서버 초기화 타임아웃 (30초 초과)"
  else "세션 초기화 실패: " +:+ str_exn e.

(** The exception that reaches the outer handler for a cause: the cause
    itself, or what the library contexts it leaves make of it. *)
Definition reaches_outer_handler (b : ServerBehaviour) (stage_and_cause : Stage * Exn)
  : Exn :=
  match stage_and_cause with
  | (AtTransport, e) => e
  | (AtSessionSetup, e) => stdio_leave b e
  | (InSession, e) => stdio_leave b (session_leave b (Exception (session_error_text e)))
  end.

(** The text left in the record of a failed server. *)
Definition recorded_message (b : ServerBehaviour) (stage_and_cause : Stage * Exn)
  : string :=
  "서버 연결 실패: " +:+ str_exn (reaches_outer_handler b stage_and_cause).

(** The text the record would hold if it named the cause: the cause's own
    message, wrapped by each handler it passes. *)
Definition causal_message (stage_and_cause : Stage * Exn) : string :=
  match stage_and_cause with
  | (InSession, e) => "서버 연결 실패: " +:+ session_error_text e
  | (_, e) => "서버 연결 실패: " +:+ str_exn e
  end.

(** Library contexts that re-raise as an exception group. *)
Definition wraps_in_task_group (b : ServerBehaviour) : Prop :=
  forall e, str_exn (stdio_leave b e) = task_group_text.

Definition is_failed (s : SessionState) (server_id : string) : bool :=
  match server_status s !! server_id with
  | Some r => String.eqb (status r) "failed"
  | None => false
  end.

(** One attempt of the retry wrapper: the [with] block that returns the
    catalog. *)
Definition connect_attempt (servers : McpServers) (mcp_config : McpConfig) (w : World)
  : Result (list Tool) * World :=
  connect_all_mcp_servers servers mcp_config (fun tools _ w' => (Ok tools, w')) w.

(** The dial log of [k] full connects over [mcp_config], the first of
    them being connect number [first]. *)
Definition full_connects (mcp_config : McpConfig) (first k : nat) : list (nat * string) :=
  flat_map (fun epoch => map (fun item => (epoch, fst item)) mcp_config) (seq first k).

(** The model answered, and no JSON object with a workflow field in
    [medical], [general] can be extracted from the answer. *)
Definition no_accepted_json (py : PyRuntime) (response_content : string) : Prop :=
  match re_search_braces response_content with
  | Some json_str =>
      match json_loads py json_str with
      | Some result => accepted_workflow result = None
      | None => True
      end
  | None => True
  end.

(** The two fallback tags as the code spells them. *)
Definition fallback_tag (m : string) : Prop := m = "fallback" \/ m = "error".

(** The two topologies with their node functions left open: what
    [create_medical_workflow] and [create_general_workflow] build, as a
    function of the five (four) callables they register. *)
Definition medical_topology (f_english f_agent f_action f_korean f_direct : Node)
  : StateGraph :=
  {| nodes := [("translate_to_english", f_english); ("agent", f_agent);
               ("action", f_action); ("translate_to_korean", f_korean);
               ("direct_answer", f_direct)];
     entry_point := Some "translate_to_english";
     edges := [("translate_to_english", EdgeTo "agent");
               ("agent", EdgeCond should_continue_or_answer_medical
                           [("continue", "action"); ("direct_answer", "direct_answer")]);
               ("action", EdgeCond after_action_medical
                            [("agent", "agent"); ("translate", "translate_to_korean")]);
               ("translate_to_korean", EdgeTo END);
               ("direct_answer", EdgeTo END)] |}.

Definition general_topology (f_agent f_action f_format f_direct : Node) : StateGraph :=
  {| nodes := [("agent", f_agent); ("action", f_action);
               ("format_response", f_format); ("direct_answer", f_direct)];
     entry_point := Some "agent";
     edges := [("agent", EdgeCond should_continue_or_answer_general
                           [("continue", "action"); ("direct_answer", "direct_answer")]);
               ("action", EdgeTo "format_response");
               ("format_response", EdgeTo END);
               ("direct_answer", EdgeTo END)] |}.

(** A node function that returns for every state. *)
Definition never_raises (f : Node) : Prop :=
  forall st w, exists u w', f st w = (Ok u, w').

(** A node function that, when it returns, appends exactly one message. *)
Definition appends_one (f : Node) : Prop :=
  forall st w u w', f st w = (Ok u, w') -> exists m, u = Some [m].

Definition medical_traces : list (list string) :=
  [ [];
    ["translate_to_english"];
    ["translate_to_english"; "agent"];
    ["translate_to_english"; "agent"; "action"];
    ["translate_to_english"; "agent"; "action"; "translate_to_korean"];
    ["translate_to_english"; "agent"; "direct_answer"] ].

Definition general_traces : list (list string) :=
  [ [];
    ["agent"];
    ["agent"; "action"];
    ["agent"; "action"; "format_response"];
    ["agent"; "direct_answer"] ].

(** ** The scenario of the examples *)

Definition korean_query : string := "당뇨병 최신 논문 검색".

Definition healthy_servers : McpServers := fun _ _ _ => healthy [search_tool].

Definition sample_config : McpConfig := [("pubmed", pubmed_config)].

(** The medical graph of the scenario: the agent asks for one search. *)
Definition sample_medical_graph (translator : ChatModel) : StateGraph :=
  create_medical_workflow ascii_runtime healthy_servers sample_tool_node [search_tool]
    (constant_model "" [search_call]) translator sample_config.

Definition sample_inputs : list BaseMessage :=
  process_query_smart_inputs empty_session korean_query.

(** The state a run is in once node function [f] has completed in state
    [st]: the node's update merged by the reducer ([None] when it raises). *)
Definition state_after (f : Node) (st : AgentState) (w : World) : option AgentState :=
  match f st w with
  | (Ok u, _) => Some (apply_update st u)
  | (Raise _, _) => None
  end.

(** The graph input of one turn, as the state the entry node starts in. *)
Definition initial_state (inputs : list BaseMessage) : AgentState :=
  apply_update {| messages := [] |} (Some inputs).

(** The status record a provider is left with when its connection has
    been attempted. *)
Definition status_after_connect (b : ServerBehaviour) : ServerStatus :=
  match failure_cause b with
  | Some cause =>
      {| status := "failed"; tools_count := 0; error_message := recorded_message b cause |}
  | None =>
      {| status := "connected"; tools_count := length (offered_tools b);
         error_message := pretty (length (offered_tools b)) +:+ "개 도구 연결 성공" |}
  end.

(** The session entry a provider gets: none unless it comes up. *)
Definition session_after_connect (b : ServerBehaviour) : option (list Tool) :=
  if comes_up b then Some (offered_tools b) else None.

(** One step of filling a dict from the configured servers. *)
Definition insert_some {V : Type} (f : string * ServerConfig -> option V)
    (m : gmap string V) (item : string * ServerConfig) : gmap string V :=
  match f item with
  | Some v => <[item.1 := v]> m
  | None => m
  end.

(** Three configured servers of which the second fails its handshake. *)
Definition weather_tool : Tool :=
  {| tool_name := "get_weather"; tool_description := "Current weather";
     tool_parameters := ["city"] |}.

Definition news_tool : Tool :=
  {| tool_name := "search_news"; tool_description := ""; tool_parameters := [] |}.

Definition three_servers : McpConfig :=
  [("pubmed", pubmed_config); ("weather", pubmed_config); ("news", pubmed_config)].

Definition weather_times_out : McpServers :=
  fun _ server_id _ =>
    if String.eqb server_id "pubmed" then healthy [search_tool]
    else if String.eqb server_id "weather" then handshake_fails (TimeoutError "")
    else healthy [news_tool].

(** Providers that all fail their handshake, in every connect. *)
Definition unreachable_servers : McpServers :=
  fun _ _ _ => handshake_fails (Exception "Connection closed").

(** A provider whose session comes up but whose teardown raises in the
    first connect, and which is in order from the second connect on. *)
Definition flaky_servers : McpServers :=
  fun epoch _ _ =>
    match epoch with
    | 0 => {| stdio_enter := None; session_enter := None; initialize := None;
              load_mcp_tools := Ok [search_tool];
              session_leave := task_group_leave; stdio_leave := task_group_leave;
              teardown := Some (Exception "Broken pipe") |}
    | S _ => healthy [search_tool]
    end.

(** The answer has a brace-delimited part on which [json.loads] raises. *)
Definition json_text_rejected (py : PyRuntime) (response_content : string) : bool :=
  match re_search_braces response_content with
  | Some json_str =>
      match json_loads py json_str with
      | None => true
      | Some _ => false
      end
  | None => false
  end.

(** The prompt the classifier sends for a query and a catalog. *)
Definition classification_prompt (prompt : string -> string -> string)
    (query : string) (tools : list Tool) : string :=
  prompt query (format_tools_for_llm (extract_tool_descriptions tools)).

(** A model answer without any JSON object. *)
Definition undecided_answer : string :=
  "This looks like a medical question, but I am not sure.".

Definition undecided_llm : ClassifierLLM := fun _ _ => Ok undecided_answer.

(** A model that fails its first invocation and answers afterwards. *)
Definition recovering_llm : ClassifierLLM :=
  fun n _ =>
    match n with
    | 0 => Raise (Exception "Rate limit exceeded")
    | S _ => Ok "medical"
    end.

(** ** Further functions of the source *)

(** *** Tool descriptions for the settings panel *)

(** [tool.description and tool.description.strip()] *)
Definition documented (py : PyRuntime) (tool : Tool) : bool :=
  str_truthy (tool_description tool) && str_truthy (py_strip py (tool_description tool)).

(** [tool.name.lower() == tool_name.lower() or tool_name.lower() in tool.name.lower()];
    [lower] is [str.lower]. *)
Definition name_matches (lower : string -> string) (name : string) (tool : Tool) : bool :=
  String.eqb (lower (tool_name tool)) (lower name)
  || str_contains (lower name) (lower (tool_name tool)).

(** The [for] loop of [get_tool_description_from_available_tools]. *)
Fixpoint first_description (py : PyRuntime) (lower : string -> string) (name : string)
    (tools : list Tool) : option string :=
  match tools with
  | [] => None
  | tool :: rest =>
      if name_matches lower name tool && documented py tool
      then Some (py_strip py (tool_description tool))
      else first_description py lower name rest
  end.

Definition get_tool_description_from_available_tools (py : PyRuntime)
    (lower : string -> string) (s : SessionState) (name : string) : option string :=
  match available_tools s with
  | [] => None
  | _ :: _ => first_description py lower name (available_tools s)
  end.

(** *** Rendering the chat history *)

(** What [print_message] puts on the screen: a user bubble, or an
    assistant bubble with the tool information shown under it. *)
Inductive ChatBubble : Type :=
| UserBubble (content : string)
| AssistantBubble (content : string) (tool_info : option string).

(** The [while] loop of [print_message] over [st.session_state.history]:
    an assistant entry takes the [assistant_tool] entry that directly
    follows it; entries of any other role are skipped. *)
Fixpoint print_message (history : list HistoryEntry) : list ChatBubble :=
  match history with
  | [] => []
  | message :: rest =>
      if String.eqb (role message) "user"
      then UserBubble (entry_content message) :: print_message rest
      else if String.eqb (role message) "assistant"
      then
        match rest with
        | next :: rest' =>
            if String.eqb (role next) "assistant_tool"
            then AssistantBubble (entry_content message) (Some (entry_content next))
                   :: print_message rest'
            else AssistantBubble (entry_content message) None :: print_message rest
        | [] => [AssistantBubble (entry_content message) None]
        end
      else print_message rest
  end.

(** *** Keeping a finished turn *)

Definition user_entry (content : string) : HistoryEntry :=
  {| role := "user"; entry_content := content |}.

Definition assistant_entry (content : string) : HistoryEntry :=
  {| role := "assistant"; entry_content := content |}.

Definition assistant_tool_entry (content : string) : HistoryEntry :=
  {| role := "assistant_tool"; entry_content := content |}.

(** The main script after [process_query]: nothing is kept when the
    response carries an error; otherwise the query and the answer are
    appended, and the tool transcript when it is not blank. *)
Definition keep_agent_turn (py : PyRuntime) (has_error : bool)
    (user_query final_text final_tool : string) (history : list HistoryEntry)
  : list HistoryEntry :=
  if has_error then history
  else
    let history := history ++ [user_entry user_query] in
    let history := history ++ [assistant_entry final_text] in
    if str_truthy (py_strip py final_tool)
    then history ++ [assistant_tool_entry final_tool]
    else history.

(** The main script after [process_basic_query]. *)
Definition keep_basic_turn (has_error : bool) (user_query final_text : string)
    (history : list HistoryEntry) : list HistoryEntry :=
  if has_error then history
  else (history ++ [user_entry user_query]) ++ [assistant_entry final_text].

(** [len([msg for msg in history if msg["role"] in ["user", "assistant"]]) // 2] *)
Definition conversation_turns (history : list HistoryEntry) : nat :=
  length (List.filter is_user_or_assistant history) / 2.

(** *** The streamed answer and the final text of a turn *)

(** [accumulated_text] and [accumulated_tool] of [get_streaming_callback]. *)
Record StreamBuffers : Type := {
  accumulated_text : list string;
  accumulated_tool : list string
}.

Definition empty_buffers : StreamBuffers :=
  {| accumulated_text := []; accumulated_tool := [] |}.

Definition json_fence (content : string) : string :=
  newline +:+ "```json" +:+ newline +:+ content +:+ newline +:+ "```" +:+ newline.

(** [callback_func] on the messages of a graph state (the branch for
    streamed chunks is for a message type the state never holds). *)
Definition callback_func (b : StreamBuffers) (message_content : BaseMessage)
  : StreamBuffers :=
  match message_content with
  | AIMessage content calls =>
      if str_truthy content && negb (has_tool_calls message_content)
      then {| accumulated_text := accumulated_text b ++ [content];
              accumulated_tool := accumulated_tool b |}
      else b
  | ToolMessage content _ =>
      {| accumulated_text := accumulated_text b;
         accumulated_tool := accumulated_tool b ++ [json_fence content] |}
  | _ => b
  end.

(** [isinstance(message, AIMessage) and message.content and not message.tool_calls] *)
Definition is_answer (m : BaseMessage) : bool :=
  match m with
  | AIMessage c [] => str_truthy c
  | _ => false
  end.

Definition no_answer_text : string := "죄송합니다. 응답을 생성하는 중 오류가 발생했습니다.".

(** Step 6 of [process_query_smart]: the final text, from the final state
    the graph returned ([None] when it returned nothing) and the streamed
    text. *)
Definition final_text_of (response : option AgentState) (streaming_text : string) : string :=
  match response with
  | None => streaming_text
  | Some st =>
      match List.find is_answer (rev (messages st)) with
      | Some last_ai_message => msg_content last_ai_message
      | None =>
          if str_truthy streaming_text then streaming_text else no_answer_text
      end
  end.

(** *** Session initialisation *)

Definition set_session_initialized (b : bool) (s : SessionState) : SessionState :=
  {| session_initialized := b; history := history s;
     server_status := server_status s; connection_logs := connection_logs s;
     conversation_memory_turns := conversation_memory_turns s;
     recursion_limit := recursion_limit s;
     available_tools := available_tools s; mcp_config := mcp_config s |}.

Definition set_available_tools (tools : list Tool) (s : SessionState) : SessionState :=
  {| session_initialized := session_initialized s; history := history s;
     server_status := server_status s; connection_logs := connection_logs s;
     conversation_memory_turns := conversation_memory_turns s;
     recursion_limit := recursion_limit s;
     available_tools := tools; mcp_config := mcp_config s |}.

Definition set_mcp_config (cfg : McpConfig) (s : SessionState) : SessionState :=
  {| session_initialized := session_initialized s; history := history s;
     server_status := server_status s; connection_logs := connection_logs s;
     conversation_memory_turns := conversation_memory_turns s;
     recursion_limit := recursion_limit s;
     available_tools := available_tools s; mcp_config := cfg |}.

(** [for server_name in mcp_config.keys(): update_server_status(server_name, ...)] *)
Definition mark_all (status_ error_message_ : string) (cfg : McpConfig)
    (s : SessionState) : SessionState :=
  foldl (fun s item => update_server_status item.1 status_ error_message_ 0 s) s cfg.

(** The loop of the handler of [initialize_session]: a server is marked
    failed unless its record says connected. *)
Definition mark_unconnected (error_message_ : string) (cfg : McpConfig)
    (s : SessionState) : SessionState :=
  foldl (fun s item =>
           let current_status :=
             match server_status s !! item.1 with
             | Some r => status r
             | None => "unknown"
             end in
           if String.eqb current_status "connected" then s
           else update_server_status item.1 "failed" error_message_ 0 s)
        s cfg.

(** [initialize_session(mcp_config)] for a given configuration.
    [model_setup] is the outcome of constructing the chat models and the
    classifier (the [ChatOpenAI] constructors can raise).  The session
    fields the record does not carry (the agent, the models, the tool
    count) are left out. *)
Definition initialize_session (servers : McpServers) (model_setup : option Exn)
    (cfg : McpConfig) (w : World) : bool * World :=
  let w := on_session (set_session_initialized false) w in
  let w := on_session (mark_all "connecting" "서버 연결 시도 중..." cfg) w in
  match get_tools_with_retry servers cfg default_max_retries w with
  | (Ok [], w') =>
      (false, on_session (mark_all "failed" "도구 로드 실패 - 연결된 도구 없음" cfg) w')
  | (Ok (tool :: tools), w') =>
      let w' := on_session (set_available_tools (tool :: tools)) w' in
      let w' := on_session (set_mcp_config cfg) w' in
      match model_setup with
      | Some e =>
          (false, on_session (mark_unconnected ("초기화 중 오류: " +:+ str_exn e) cfg) w')
      | None => (true, on_session (set_session_initialized true) w')
      end
  | (Raise e, w') =>
      (false, on_session (mark_unconnected ("초기화 중 오류: " +:+ str_exn e) cfg) w')
  end.

(** *** Vocabulary for the properties of the further functions *)

(** A node function whose update, when it returns, is one AIMessage. *)
Definition appends_ai (f : Node) : Prop :=
  forall st w u w', f st w = (Ok u, w') -> exists c tcs, u = Some [AIMessage c tcs].

(** ... one AIMessage without tool-call requests. *)
Definition appends_answer (f : Node) : Prop :=
  forall st w u w', f st w = (Ok u, w') -> exists c, u = Some [AIMessage c []].

(** ... one AIMessage without tool-call requests, or no message. *)
Definition appends_answer_or_nothing (f : Node) : Prop :=
  forall st w u w', f st w = (Ok u, w') ->
    u = Some [] \/ exists c, u = Some [AIMessage c []].

(** The newest message of the state is an AIMessage without tool-call
    requests. *)
Definition ends_with_answer (st : AgentState) : Prop :=
  exists c, last (messages st) = Some (AIMessage c []).

Definition translation_error_text (e : Exn) : string :=
  "번역 중 오류가 발생했습니다: " +:+ str_exn e.

Definition nothing_to_translate_text : string :=
  "죄송합니다. 번역할 내용을 찾을 수 없습니다. 다시 시도해 주세요.".

Definition cannot_answer_text : string := "죄송합니다. 응답을 생성할 수 없습니다.".

(** A tool node that raises. *)
Definition failing_tool_node (e : Exn) : ToolNode := fun _ _ => Raise e.

(** The fields of the session no connection touches. *)
Definition same_conversation (s s' : SessionState) : Prop :=
  session_initialized s' = session_initialized s /\
  history s' = history s /\
  conversation_memory_turns s' = conversation_memory_turns s /\
  recursion_limit s' = recursion_limit s /\
  available_tools s' = available_tools s /\
  mcp_config s' = mcp_config s.

(** A classification the rest of the program can act on. *)
Definition well_formed_result (r : ClassificationResult) : Prop :=
  (workflow r = "medical" \/ workflow r = "general") /\
  (method r = "llm" \/ method r = "fallback" \/ method r = "error").

Definition well_formed_cache (self : LLMWorkflowClassifier) : Prop :=
  forall key r, cache self !! key = Some r -> well_formed_result r.

Fixpoint has_char (c : Ascii.ascii) (s : string) : bool :=
  match s with
  | EmptyString => false
  | String c' rest => Ascii.eqb c' c || has_char c rest
  end.

(** What [format_korean_response] answers with in a state with the given
    messages. *)
Definition newest_final_content (msgs : list BaseMessage) : string :=
  match List.find is_final_content (rev msgs) with
  | Some m => msg_content m
  | None => cannot_answer_text
  end.

(** A session in its second turn. *)
Definition second_turn_session : SessionState :=
  {| session_initialized := true;
     history := [user_entry "q1"; assistant_entry "a1"];
     server_status := ∅; connection_logs := [];
     conversation_memory_turns := 8; recursion_limit := 100;
     available_tools := [search_tool]; mcp_config := [("pubmed", pubmed_config)] |}.

(** The text shown in a bubble. *)
Definition bubble_text (b : ChatBubble) : string :=
  match b with
  | UserBubble content => content
  | AssistantBubble content _ => content
  end.

(** *** Runs that end at a node *)

(** The run ended with exception [e], raised by node function [f] of the
    node [node], the last one it started, in the state the run ends in. *)
Definition aborted_at (f : Node) (node : string) (r : Run) (e : Exn) : Prop :=
  outcome r = Failed e /\
  last (executed r) = Some node /\
  exists w0 w1, f (final_state r) w0 = (Raise e, w1).

(** * Properties *)

(** ** Stepping a run *)

Lemma run_from_END g limit st w done :
  run_from g limit END st w done =
  {| outcome := ReachedEnd; executed := done; final_state := st; final_world := w |}.
Proof. destruct limit; reflexivity. Qed.

Lemma run_from_step g limit node st w done :
  node <> END ->
  run_from g (S limit) node st w done =
  match dict_get node (nodes g) with
  | None => {| outcome := Failed (key_error node); executed := done;
               final_state := st; final_world := w |}
  | Some action =>
      match action st w with
      | (Raise e, w') =>
          {| outcome := Failed e; executed := done ++ [node];
             final_state := st; final_world := w' |}
      | (Ok u, w') =>
          match next_node g node (apply_update st u) with
          | Raise e =>
              {| outcome := Failed e; executed := done ++ [node];
                 final_state := apply_update st u; final_world := w' |}
          | Ok node' =>
              run_from g limit node' (apply_update st u) w' (done ++ [node])
          end
      end
  end.
Proof.
  intros H. cbn [run_from].
  destruct (String.eqb_spec node END); [contradiction|reflexivity].
Qed.

Lemma create_medical_workflow_topology py servers tool_node tools model translator cfg :
  create_medical_workflow py servers tool_node tools model translator cfg =
  medical_topology (translate_to_english py translator)
    (call_model (bind_tools model tools))
    (safe_tool_node servers tool_node cfg)
    (translate_to_korean py translator)
    (korean_direct_answer py translator).
Proof. reflexivity. Qed.

Lemma create_general_workflow_topology py servers tool_node tools model translator cfg :
  create_general_workflow py servers tool_node tools model translator cfg =
  general_topology (korean_agent tools model)
    (simple_tool_node servers tool_node cfg)
    format_korean_response
    (korean_direct_answer py translator).
Proof. reflexivity. Qed.

Ltac graph_eval :=
  cbn [dict_get nodes edges entry_point medical_topology general_topology next_node
       after_action_medical String.eqb Ascii.eqb Bool.eqb app].

(** One node execution of a run whose current node is a literal. *)
Ltac run_node :=
  rewrite run_from_step by discriminate; graph_eval;
  match goal with
  | |- context [match ?f ?st ?w with (_, _) => _ end] =>
      let u := fresh "u" in let e := fresh "e" in let w' := fresh "w" in
      destruct (f st w) as [[u|e] w'] eqn:?
  end; graph_eval.

(** The conditional edge after [agent]. *)
Ltac route_agent :=
  match goal with
  | |- context [should_continue_or_answer_medical ?st] =>
      let m := fresh "m" in
      unfold should_continue_or_answer_medical;
      destruct (last (messages st)) as [m|] eqn:?; [destruct (has_tool_calls m) eqn:?|]
  | |- context [should_continue_or_answer_general ?st] =>
      let m := fresh "m" in
      unfold should_continue_or_answer_general;
      destruct (last (messages st)) as [m|] eqn:?; [destruct (has_tool_calls m) eqn:?|]
  end; graph_eval.

Ltac trace_done := cbn; auto 10.
Ltac out_of_steps l := destruct l as [|l]; [trace_done|].

(** ** Runs of the two topologies, whatever the node functions do *)

Section Runs.
Variables f_english f_agent f_action f_korean f_direct f_format : Node.

Let medical := medical_topology f_english f_agent f_action f_korean f_direct.
Let general := general_topology f_agent f_action f_format f_direct.

Lemma medical_run_trace limit inputs w :
  In (executed (run_graph medical limit inputs w)) medical_traces.
Proof.
  unfold run_graph, medical. graph_eval.
  out_of_steps limit.
  out_of_steps limit. run_node; [|trace_done].
  out_of_steps limit. run_node; [|trace_done].
  route_agent; [| |trace_done].
  - out_of_steps limit. run_node; [|trace_done].
    out_of_steps limit. run_node; [|trace_done].
    rewrite run_from_END. trace_done.
  - out_of_steps limit. run_node; [|trace_done].
    rewrite run_from_END. trace_done.
Qed.

Lemma general_run_trace limit inputs w :
  In (executed (run_graph general limit inputs w)) general_traces.
Proof.
  unfold run_graph, general. graph_eval.
  out_of_steps limit.
  out_of_steps limit. run_node; [|trace_done].
  route_agent; [| |trace_done].
  - out_of_steps limit. run_node; [|trace_done].
    out_of_steps limit. run_node; [|trace_done].
    rewrite run_from_END. trace_done.
  - out_of_steps limit. run_node; [|trace_done].
    rewrite run_from_END. trace_done.
Qed.

Lemma medical_run_within_limit limit inputs w :
  5 <= limit -> outcome (run_graph medical limit inputs w) <> GraphRecursionError.
Proof.
  intros Hl. unfold run_graph, medical. graph_eval.
  destruct limit as [|[|[|[|[|limit]]]]]; try lia.
  run_node; [|discriminate].
  run_node; [|discriminate].
  route_agent; [| |discriminate].
  - run_node; [|discriminate]. run_node; [|discriminate].
    rewrite run_from_END. discriminate.
  - run_node; [|discriminate]. rewrite run_from_END. discriminate.
Qed.

Lemma general_run_within_limit limit inputs w :
  4 <= limit -> outcome (run_graph general limit inputs w) <> GraphRecursionError.
Proof.
  intros Hl. unfold run_graph, general. graph_eval.
  destruct limit as [|[|[|[|limit]]]]; try lia.
  run_node; [|discriminate].
  route_agent; [| |discriminate].
  - run_node; [|discriminate]. run_node; [|discriminate].
    rewrite run_from_END. discriminate.
  - run_node; [|discriminate]. rewrite run_from_END. discriminate.
Qed.

(** A node function that returns and appends one message leaves a
    non-empty state behind, so the router after it does not raise. *)
Lemma last_after_append st m :
  last (messages (apply_update st (Some [m]))) = Some m.
Proof. cbn. unfold messages_reducer. apply last_snoc. Qed.

Ltac use_total H :=
  match goal with
  | |- context [match ?f ?st ?w with (_, _) => _ end] =>
      let u := fresh "u" in let w' := fresh "w" in let E := fresh "E" in
      destruct (H st w) as (u & w' & E); rewrite E
  end; graph_eval.

Lemma medical_run_reaches_end limit inputs w :
  never_raises f_english -> never_raises f_agent -> appends_one f_agent ->
  never_raises f_action -> never_raises f_korean -> never_raises f_direct ->
  5 <= limit ->
  outcome (run_graph medical limit inputs w) = ReachedEnd.
Proof.
  intros He Ha Ha1 Hx Hk Hd Hl. unfold run_graph, medical. graph_eval.
  destruct limit as [|[|[|[|[|limit]]]]]; try lia.
  rewrite run_from_step by discriminate; graph_eval. use_total He.
  rewrite run_from_step by discriminate; graph_eval.
  match goal with
  | |- context [match f_agent ?st ?w with (_, _) => _ end] =>
      destruct (Ha st w) as (u2 & w2 & E2); rewrite E2;
      destruct (Ha1 _ _ _ _ E2) as [m ->]
  end.
  graph_eval. unfold should_continue_or_answer_medical.
  rewrite last_after_append.
  destruct (has_tool_calls m); graph_eval.
  - rewrite run_from_step by discriminate; graph_eval. use_total Hx.
    rewrite run_from_step by discriminate; graph_eval. use_total Hk.
    rewrite run_from_END. reflexivity.
  - rewrite run_from_step by discriminate; graph_eval. use_total Hd.
    rewrite run_from_END. reflexivity.
Qed.

Lemma general_run_reaches_end limit inputs w :
  never_raises f_agent -> appends_one f_agent ->
  never_raises f_action -> never_raises f_format -> never_raises f_direct ->
  4 <= limit ->
  outcome (run_graph general limit inputs w) = ReachedEnd.
Proof.
  intros Ha Ha1 Hx Hf Hd Hl. unfold run_graph, general. graph_eval.
  destruct limit as [|[|[|[|limit]]]]; try lia.
  rewrite run_from_step by discriminate; graph_eval.
  match goal with
  | |- context [match f_agent ?st ?w with (_, _) => _ end] =>
      destruct (Ha st w) as (u2 & w2 & E2); rewrite E2;
      destruct (Ha1 _ _ _ _ E2) as [m ->]
  end.
  graph_eval. unfold should_continue_or_answer_general.
  rewrite last_after_append.
  destruct (has_tool_calls m); graph_eval.
  - rewrite run_from_step by discriminate; graph_eval. use_total Hx.
    rewrite run_from_step by discriminate; graph_eval. use_total Hf.
    rewrite run_from_END. reflexivity.
  - rewrite run_from_step by discriminate; graph_eval. use_total Hd.
    rewrite run_from_END. reflexivity.
Qed.

Ltac no_action H :=
  exfalso; cbn in H; repeat (destruct H as [H|H]; [discriminate H|]); exact H.

(** Once [action] has run, the rest of the run is fixed. *)
Lemma medical_run_after_action limit inputs w :
  never_raises f_action -> never_raises f_korean ->
  5 <= limit ->
  In "action" (executed (run_graph medical limit inputs w)) ->
  executed (run_graph medical limit inputs w) =
    ["translate_to_english"; "agent"; "action"; "translate_to_korean"] /\
  outcome (run_graph medical limit inputs w) = ReachedEnd.
Proof.
  intros Hx Hk Hl. unfold run_graph, medical. graph_eval.
  destruct limit as [|[|[|[|[|limit]]]]]; try lia.
  run_node; [|intros H; no_action H].
  run_node; [|intros H; no_action H].
  route_agent; [| |intros H; no_action H].
  - rewrite run_from_step by discriminate; graph_eval. use_total Hx.
    rewrite run_from_step by discriminate; graph_eval. use_total Hk.
    rewrite run_from_END. intros _. split; reflexivity.
  - run_node; [|intros H; no_action H].
    rewrite run_from_END. intros H; no_action H.
Qed.
(** A run ends at END, or at one of the three nodes that can raise, with
    the exception that node function raised. *)
Lemma medical_run_ends_or_aborts limit inputs w :
  appends_one f_agent -> never_raises f_action -> never_raises f_korean ->
  5 <= limit ->
  outcome (run_graph medical limit inputs w) = ReachedEnd \/
  exists e,
    aborted_at f_english "translate_to_english" (run_graph medical limit inputs w) e \/
    aborted_at f_agent "agent" (run_graph medical limit inputs w) e \/
    aborted_at f_direct "direct_answer" (run_graph medical limit inputs w) e.
Proof.
  intros Ha1 Hx Hk Hl. unfold run_graph, medical, aborted_at. graph_eval.
  destruct limit as [|[|[|[|[|limit]]]]]; try lia.
  run_node; [|right; exists e; left; cbn; eauto 6].
  rewrite !run_from_step by discriminate; graph_eval.
  match goal with
  | |- context [match f_agent ?st ?w with (_, _) => _ end] =>
      destruct (f_agent st w) as [[u2|e2] w2] eqn:E2;
      [destruct (Ha1 _ _ _ _ E2) as [m ->]|right; exists e2; right; left; cbn; eauto 6]
  end.
  graph_eval. unfold should_continue_or_answer_medical.
  rewrite last_after_append.
  destruct (has_tool_calls m); graph_eval.
  - rewrite !run_from_step by discriminate; graph_eval. use_total Hx.
    rewrite !run_from_step by discriminate; graph_eval. use_total Hk.
    rewrite !run_from_END. left. reflexivity.
  - run_node; [|right; exists e; right; right; cbn; eauto 6].
    rewrite !run_from_END. left. reflexivity.
Qed.

Lemma general_run_ends_or_aborts limit inputs w :
  appends_one f_agent -> never_raises f_action -> never_raises f_format ->
  4 <= limit ->
  outcome (run_graph general limit inputs w) = ReachedEnd \/
  exists e,
    aborted_at f_agent "agent" (run_graph general limit inputs w) e \/
    aborted_at f_direct "direct_answer" (run_graph general limit inputs w) e.
Proof.
  intros Ha1 Hx Hf Hl. unfold run_graph, general, aborted_at. graph_eval.
  destruct limit as [|[|[|[|limit]]]]; try lia.
  rewrite !run_from_step by discriminate; graph_eval.
  match goal with
  | |- context [match f_agent ?st ?w with (_, _) => _ end] =>
      destruct (f_agent st w) as [[u2|e2] w2] eqn:E2;
      [destruct (Ha1 _ _ _ _ E2) as [m ->]|right; exists e2; left; cbn; eauto 6]
  end.
  graph_eval. unfold should_continue_or_answer_general.
  rewrite last_after_append.
  destruct (has_tool_calls m); graph_eval.
  - rewrite !run_from_step by discriminate; graph_eval. use_total Hx.
    rewrite !run_from_step by discriminate; graph_eval. use_total Hf.
    rewrite !run_from_END. left. reflexivity.
  - run_node; [|right; exists e; right; cbn; eauto 6].
    rewrite !run_from_END. left. reflexivity.
Qed.
End Runs.

(** The three node functions without a handler raise only what their
    model invocation raises. *)
Lemma translate_to_english_raise py translator st w e w' :
  translate_to_english py translator st w = (Raise e, w') ->
  exists prompt, ainvoke translator [HumanMessage prompt] = Raise e.
Proof.
  unfold translate_to_english. intros H.
  destruct (last_human (messages st)); [|discriminate H].
  match type of H with
  | context [ainvoke translator [HumanMessage ?p]] =>
      exists p; destruct (ainvoke translator [HumanMessage p]) as [[c tcs]|e0]
  end; inversion H. reflexivity.
Qed.

Lemma korean_direct_answer_raise py translator st w e w' :
  korean_direct_answer py translator st w = (Raise e, w') ->
  exists prompt, ainvoke translator [HumanMessage prompt] = Raise e.
Proof.
  unfold korean_direct_answer. intros H.
  destruct (last_human (messages st)); [|discriminate H].
  match type of H with
  | context [ainvoke translator [HumanMessage ?p]] =>
      exists p; destruct (ainvoke translator [HumanMessage p]) as [[c tcs]|e0]
  end; inversion H. reflexivity.
Qed.

Lemma call_model_raise model st w e w' :
  call_model model st w = (Raise e, w') -> ainvoke model (messages st) = Raise e.
Proof.
  unfold call_model. intros H.
  destruct (ainvoke model (messages st)) as [[c tcs]|e0]; inversion H. reflexivity.
Qed.

Lemma korean_agent_raise tools model st w e w' :
  korean_agent tools model st w = (Raise e, w') ->
  ainvoke (bind_tools model tools) (korean_agent_messages (messages st)) = Raise e.
Proof. unfold korean_agent. intros H. apply call_model_raise in H. exact H. Qed.

Lemma last_human_exists (msgs : list BaseMessage) :
  existsb is_human msgs = true -> exists m, last_human msgs = Some m.
Proof.
  intros H. apply existsb_exists in H as (m & Hin & Hm).
  unfold last_human.
  destruct (List.find is_human (rev msgs)) as [m'|] eqn:Hfind; [eauto|].
  apply List.in_rev in Hin.
  rewrite (List.find_none _ _ Hfind m Hin) in Hm. discriminate Hm.
Qed.

(** ** What the node functions of the source do *)

Lemma answers_bind_tools model tools : answers model -> answers (bind_tools model tools).
Proof. intros H ts input. apply H. Qed.

Lemma call_model_appends_one model : appends_one (call_model model).
Proof.
  intros st w u w' H. unfold call_model in H.
  destruct (ainvoke model (messages st)) as [[c tcs]|e]; inversion H; eauto.
Qed.

Lemma call_model_never_raises model : answers model -> never_raises (call_model model).
Proof.
  intros H st w. unfold call_model, ainvoke.
  destruct (H (bound model) (messages st)) as [[c tcs] ->]. eauto.
Qed.

Lemma korean_agent_appends_one tools model : appends_one (korean_agent tools model).
Proof. intros st w u w' H. unfold korean_agent in H. eapply call_model_appends_one, H. Qed.

Lemma korean_agent_never_raises tools model :
  answers model -> never_raises (korean_agent tools model).
Proof.
  intros H st w. unfold korean_agent.
  apply call_model_never_raises, answers_bind_tools, H.
Qed.

Lemma translate_to_english_never_raises py translator :
  answers translator -> never_raises (translate_to_english py translator).
Proof.
  intros H st w. unfold translate_to_english.
  destruct (last_human (messages st)); [|eauto].
  unfold ainvoke.
  match goal with
  | |- context [respond translator ?ts ?input] =>
      destruct (H ts input) as [[c tcs] ->]
  end. eauto.
Qed.

Lemma korean_direct_answer_never_raises py translator :
  answers translator -> never_raises (korean_direct_answer py translator).
Proof.
  intros H st w. unfold korean_direct_answer.
  destruct (last_human (messages st)); [|eauto].
  unfold ainvoke.
  match goal with
  | |- context [respond translator ?ts ?input] =>
      destruct (H ts input) as [[c tcs] ->]
  end. eauto.
Qed.

(** The translation back to Korean has its own handler. *)
Lemma translate_to_korean_never_raises py translator :
  never_raises (translate_to_korean py translator).
Proof.
  intros st w. unfold translate_to_korean.
  destruct (nonempty_content (List.find is_tool_message (rev (messages st))));
    [|destruct (nonempty_content (List.find is_plain_ai (rev (messages st))))];
    try (match goal with
         | |- context [ainvoke ?m ?input] => destruct (ainvoke m input) as [[c tcs]|e]
         end); eauto.
Qed.

Lemma format_korean_response_never_raises : never_raises format_korean_response.
Proof.
  intros st w. unfold format_korean_response.
  destruct (option_map msg_content
              (List.find is_final_content (rev (messages st)))); eauto.
Qed.

(** Both action nodes catch every exception. *)
Lemma safe_tool_node_never_raises servers tool_node cfg :
  never_raises (safe_tool_node servers tool_node cfg).
Proof.
  intros st w. unfold safe_tool_node.
  match goal with
  | |- context [connect_all_mcp_servers ?s ?c ?b ?w] =>
      destruct (connect_all_mcp_servers s c b w) as [[u|e] w']
  end; eauto.
Qed.

Lemma simple_tool_node_never_raises servers tool_node cfg :
  never_raises (simple_tool_node servers tool_node cfg).
Proof.
  intros st w. unfold simple_tool_node.
  match goal with
  | |- context [connect_all_mcp_servers ?s ?c ?b ?w] =>
      destruct (connect_all_mcp_servers s c b w) as [[u|e] w']
  end; eauto.
Qed.

(** ** Acyclicity: every edge the routing can take climbs in rank *)

Lemma has_tool_calls_pending m : has_tool_calls m = true <-> pending_tool_calls m.
Proof.
  split.
  - destruct m as [c|c|c [|tc tcs]|c i]; try discriminate. intros _.
    exists c, tc, tcs. reflexivity.
  - intros (c & tc & tcs & ->). reflexivity.
Qed.

Ltac by_name n lit :=
  destruct (String.eqb_spec lit n) as [<-|?].

Lemma routes_medical_rank f1 f2 f3 f4 f5 n n' :
  routes (medical_topology f1 f2 f3 f4 f5) n n' -> medical_rank n < medical_rank n'.
Proof.
  intros [Hne [st H]]. unfold next_node in H.
  cbn [edges medical_topology dict_get] in H.
  by_name n "translate_to_english"; [inversion H; subst; vm_compute; lia|].
  by_name n "agent".
  { unfold should_continue_or_answer_medical in H.
    destruct (last (messages st)) as [m|]; [|discriminate].
    destruct (has_tool_calls m); cbn in H; inversion H; subst; vm_compute; lia. }
  by_name n "action"; [cbn in H; inversion H; subst; vm_compute; lia|].
  by_name n "translate_to_korean"; [inversion H; subst; vm_compute; lia|].
  by_name n "direct_answer"; [inversion H; subst; vm_compute; lia|].
  inversion H; subst. unfold medical_rank.
  repeat match goal with
         | |- context [String.eqb n ?lit] =>
             destruct (String.eqb_spec n lit); [congruence|]
         end.
  vm_compute; lia.
Qed.

Lemma routes_general_rank f1 f2 f3 f4 n n' :
  routes (general_topology f1 f2 f3 f4) n n' -> general_rank n < general_rank n'.
Proof.
  intros [Hne [st H]]. unfold next_node in H.
  cbn [edges general_topology dict_get] in H.
  by_name n "agent".
  { unfold should_continue_or_answer_general in H.
    destruct (last (messages st)) as [m|]; [|discriminate].
    destruct (has_tool_calls m); cbn in H; inversion H; subst; vm_compute; lia. }
  by_name n "action"; [inversion H; subst; vm_compute; lia|].
  by_name n "format_response"; [inversion H; subst; vm_compute; lia|].
  by_name n "direct_answer"; [inversion H; subst; vm_compute; lia|].
  inversion H; subst. unfold general_rank.
  repeat match goal with
         | |- context [String.eqb n ?lit] =>
             destruct (String.eqb_spec n lit); [congruence|]
         end.
  vm_compute; lia.
Qed.

(** A path whose every edge climbs in rank visits no node twice. *)
Lemma ranked_path_above g (rank : string -> nat) :
  (forall n n', routes g n n' -> rank n < rank n') ->
  forall p, edge_path g p ->
  match p with
  | [] => True
  | n :: rest => Forall (fun x => rank n < rank x) rest
  end.
Proof.
  intros Hrank p Hp. induction Hp as [|n|n n' p Hr Hp IH]; auto.
  constructor.
  - apply Hrank, Hr.
  - eapply Forall_impl; [exact IH|].
    intros x Hx. cbn in Hx. specialize (Hrank _ _ Hr). lia.
Qed.

Lemma ranked_path_NoDup g (rank : string -> nat) :
  (forall n n', routes g n n' -> rank n < rank n') ->
  forall p, edge_path g p -> NoDup p.
Proof.
  intros Hrank p Hp. induction Hp as [|n|n n' p Hr Hp IH].
  - constructor.
  - repeat constructor. intros H; inversion H.
  - constructor; [|exact IH].
    pose proof (ranked_path_above g rank Hrank _ (edge_path_cons g n n' p Hr Hp)) as Ha.
    cbn in Ha. intros Hin.
    rewrite Forall_forall in Ha. specialize (Ha n Hin). lia.
Qed.

Lemma NoDup_of_trace (traces : list (list string)) (t : list string) :
  forallb (fun t : list string => bool_decide (NoDup t)) traces = true ->
  In t traces -> NoDup t.
Proof.
  intros H Hin. rewrite forallb_forall in H. specialize (H t Hin).
  apply bool_decide_eq_true in H. exact H.
Qed.

Lemma length_of_trace (bound : nat) (traces : list (list string)) (t : list string) :
  forallb (fun t : list string => (length t <=? bound)%nat) traces = true ->
  In t traces -> length t <= bound.
Proof.
  intros H Hin. rewrite forallb_forall in H. specialize (H t Hin).
  apply Nat.leb_le in H. exact H.
Qed.

Lemma trace_property (P : list string -> bool) (traces : list (list string))
    (t : list string) :
  forallb P traces = true -> In t traces -> P t = true.
Proof. intros H Hin. rewrite forallb_forall in H. apply H, Hin. Qed.

(** ** Graph termination (C4) *)

(** C4 (the code departs from it): [translate_to_english] has no handler
    around its model invocation (its sibling [translate_to_korean] has
    one), so when the translator raises, the run of the medical graph ends
    in the first node with that exception and does not reach END.  What
    holds: with a recursion limit of at least 5, a run ends at END or at
    one of the nodes translate_to_english, agent, direct_answer with the
    exception the model invocation of that node raised; it reaches END
    when the models answer; it executes at most 5 nodes (medical) or 4
    (general), none of them twice, and never runs out of steps; and no
    sequence of edges the routing can take revisits a node. *)
Theorem graph_run_aborts_when_translator_raises
    py servers tool_node tools model translator cfg limit inputs w :
  5 <= limit ->
  let medical := create_medical_workflow py servers tool_node tools model translator cfg in
  let general := create_general_workflow py servers tool_node tools model translator cfg in
  (forall e,
     existsb is_human inputs = true ->
     (forall input, ainvoke translator input = Raise e) ->
     outcome (run_graph medical limit inputs w) = Failed e /\
     executed (run_graph medical limit inputs w) = ["translate_to_english"] /\
     final_state (run_graph medical limit inputs w) = initial_state inputs) /\
  (outcome (run_graph medical limit inputs w) = ReachedEnd \/
   exists e,
     outcome (run_graph medical limit inputs w) = Failed e /\
     ((last (executed (run_graph medical limit inputs w)) = Some "translate_to_english" /\
       exists prompt, ainvoke translator [HumanMessage prompt] = Raise e) \/
      (last (executed (run_graph medical limit inputs w)) = Some "agent" /\
       ainvoke (bind_tools model tools)
         (messages (final_state (run_graph medical limit inputs w))) = Raise e) \/
      (last (executed (run_graph medical limit inputs w)) = Some "direct_answer" /\
       exists prompt, ainvoke translator [HumanMessage prompt] = Raise e))) /\
  (outcome (run_graph general limit inputs w) = ReachedEnd \/
   exists e,
     outcome (run_graph general limit inputs w) = Failed e /\
     ((last (executed (run_graph general limit inputs w)) = Some "agent" /\
       ainvoke (bind_tools model tools)
         (korean_agent_messages
            (messages (final_state (run_graph general limit inputs w)))) = Raise e) \/
      (last (executed (run_graph general limit inputs w)) = Some "direct_answer" /\
       exists prompt, ainvoke translator [HumanMessage prompt] = Raise e))) /\
  (answers model -> answers translator ->
   outcome (run_graph medical limit inputs w) = ReachedEnd /\
   outcome (run_graph general limit inputs w) = ReachedEnd) /\
  (length (executed (run_graph medical limit inputs w)) <= 5 /\
   NoDup (executed (run_graph medical limit inputs w)) /\
   outcome (run_graph medical limit inputs w) <> GraphRecursionError) /\
  (length (executed (run_graph general limit inputs w)) <= 4 /\
   NoDup (executed (run_graph general limit inputs w)) /\
   outcome (run_graph general limit inputs w) <> GraphRecursionError) /\
  (forall p, edge_path medical p -> NoDup p) /\
  (forall p, edge_path general p -> NoDup p).
Proof.
  intros Hl medical general. subst medical general.
  rewrite create_medical_workflow_topology, create_general_workflow_topology.
  split; [|split; [|split; [|split; [|split; [|split; [|split]]]]]].
  - intros e Hhuman Hraise.
    destruct (last_human_exists inputs Hhuman) as [m Hm].
    unfold run_graph. graph_eval.
    destruct limit as [|limit]; [lia|].
    destruct limit as [|limit]; [lia|].
    rewrite run_from_step by discriminate. graph_eval.
    assert (E : translate_to_english py translator
                  (apply_update {| messages := [] |} (Some inputs)) w = (Raise e, w)).
    { unfold translate_to_english. cbn [apply_update messages]. unfold messages_reducer.
      cbn [app]. rewrite Hm, Hraise. reflexivity. }
    rewrite E. repeat split; reflexivity.
  - destruct (medical_run_ends_or_aborts
                (translate_to_english py translator) (call_model (bind_tools model tools))
                (safe_tool_node servers tool_node cfg) (translate_to_korean py translator)
                (korean_direct_answer py translator) limit inputs w)
      as [Hend|[e Habort]];
      auto using call_model_appends_one, safe_tool_node_never_raises,
        translate_to_korean_never_raises.
    right. exists e.
    destruct Habort as [(Ho & Hn & w0 & w1 & Hf)|[(Ho & Hn & w0 & w1 & Hf)
                                                  |(Ho & Hn & w0 & w1 & Hf)]].
    + split; [exact Ho|]. left. split; [exact Hn|].
      eapply translate_to_english_raise, Hf.
    + split; [exact Ho|]. right. left. split; [exact Hn|].
      eapply call_model_raise, Hf.
    + split; [exact Ho|]. right. right. split; [exact Hn|].
      eapply korean_direct_answer_raise, Hf.
  - destruct (general_run_ends_or_aborts
                (korean_agent tools model) (simple_tool_node servers tool_node cfg)
                (korean_direct_answer py translator) format_korean_response
                limit inputs w)
      as [Hend|[e Habort]];
      auto using korean_agent_appends_one, simple_tool_node_never_raises,
        format_korean_response_never_raises; [lia|].
    right. exists e.
    destruct Habort as [(Ho & Hn & w0 & w1 & Hf)|(Ho & Hn & w0 & w1 & Hf)].
    + split; [exact Ho|]. left. split; [exact Hn|].
      eapply korean_agent_raise, Hf.
    + split; [exact Ho|]. right. split; [exact Hn|].
      eapply korean_direct_answer_raise, Hf.
  - intros Hmodel Htranslator. split.
    + apply medical_run_reaches_end; try lia;
        auto using translate_to_english_never_raises, call_model_never_raises,
          answers_bind_tools, call_model_appends_one, safe_tool_node_never_raises,
          translate_to_korean_never_raises, korean_direct_answer_never_raises.
    + apply general_run_reaches_end; try lia;
        auto using korean_agent_never_raises, korean_agent_appends_one,
          simple_tool_node_never_raises, format_korean_response_never_raises,
          korean_direct_answer_never_raises.
  - split; [|split].
    + apply (length_of_trace 5 medical_traces); [reflexivity|apply medical_run_trace].
    + apply (NoDup_of_trace medical_traces); [reflexivity|apply medical_run_trace].
    + apply medical_run_within_limit. lia.
  - split; [|split].
    + apply (length_of_trace 4 general_traces); [reflexivity|apply general_run_trace].
    + apply (NoDup_of_trace general_traces); [reflexivity|apply general_run_trace].
    + apply general_run_within_limit. lia.
  - apply ranked_path_NoDup with (rank := medical_rank).
    intros n n'. apply routes_medical_rank.
  - apply ranked_path_NoDup with (rank := general_rank).
    intros n n'. apply routes_general_rank.
Qed.

Lemma medical_run_aborted_by_translator :
  5 <= 100 /\
  outcome (run_graph (sample_medical_graph (failing_model (Exception "Connection error.")))
             100 sample_inputs fresh_world) = Failed (Exception "Connection error.") /\
  executed (run_graph (sample_medical_graph (failing_model (Exception "Connection error.")))
              100 sample_inputs fresh_world) = ["translate_to_english"].
Proof.
  split; [lia|].
  destruct (graph_run_aborts_when_translator_raises ascii_runtime healthy_servers
              sample_tool_node [search_tool] (constant_model "" [search_call])
              (failing_model (Exception "Connection error.")) sample_config 100
              sample_inputs fresh_world) as [Hdeparts _]; [lia|].
  destruct (Hdeparts (Exception "Connection error.")) as (Ho & He & _).
  - reflexivity.
  - intros input. reflexivity.
  - split; [exact Ho|exact He].
Defined.

(** ** One tool round per turn in the medical graph (C5) *)

(** C5: in the medical graph the edge out of [action] leads to
    [translate_to_korean] in every state, and the edge out of that node to
    END; [action] is never followed by [agent].  So [action] runs at most
    once in a run, and, with a recursion limit of at least 5 (one step is
    spent on the start of the run), a run in which it has run consists of
    the four nodes translate_to_english, agent, action,
    translate_to_korean and ends at END. *)
Theorem medical_single_tool_round
    py servers tool_node tools model translator cfg :
  let medical := create_medical_workflow py servers tool_node tools model translator cfg in
  (forall st, next_node medical "action" st = Ok "translate_to_korean") /\
  (forall st, next_node medical "translate_to_korean" st = Ok END) /\
  (forall st, next_node medical "action" st <> Ok "agent") /\
  (forall limit inputs w,
     count_occ String.string_dec (executed (run_graph medical limit inputs w)) "action" <= 1 /\
     (5 <= limit ->
      In "action" (executed (run_graph medical limit inputs w)) ->
      executed (run_graph medical limit inputs w) =
        ["translate_to_english"; "agent"; "action"; "translate_to_korean"] /\
      outcome (run_graph medical limit inputs w) = ReachedEnd)).
Proof.
  intros medical. subst medical. rewrite create_medical_workflow_topology.
  split; [reflexivity|]. split; [reflexivity|]. split; [discriminate|].
  intros limit inputs w. split.
  - apply Nat.leb_le.
    apply (trace_property
             (fun t => (count_occ String.string_dec t "action" <=? 1)%nat)
             medical_traces); [reflexivity|apply medical_run_trace].
  - apply medical_run_after_action;
      auto using safe_tool_node_never_raises, translate_to_korean_never_raises.
Qed.

Lemma medical_tool_round_example :
  executed (run_graph (sample_medical_graph (constant_model "diabetes" []))
              100 sample_inputs fresh_world) =
    ["translate_to_english"; "agent"; "action"; "translate_to_korean"] /\
  outcome (run_graph (sample_medical_graph (constant_model "diabetes" []))
             100 sample_inputs fresh_world) = ReachedEnd.
Proof.
  apply (medical_single_tool_round ascii_runtime healthy_servers sample_tool_node
           [search_tool] (constant_model "" [search_call])
           (constant_model "diabetes" []) sample_config).
  - lia.
  - vm_compute. auto.
Defined.

(** ** The conditional edge after the agent node (C9) *)

(** C9: in both topologies the agent node, when it returns, has appended
    one message to the state; with [m] the most recent message, the run
    goes on to [action] exactly when [m] is an Assistant message with one
    or more pending tool-call requests, and to [direct_answer] otherwise. *)
Theorem agent_routing py servers tool_node tools model translator cfg :
  let medical := create_medical_workflow py servers tool_node tools model translator cfg in
  let general := create_general_workflow py servers tool_node tools model translator cfg in
  (forall st w u w',
     call_model (bind_tools model tools) st w = (Ok u, w') \/
     korean_agent tools model st w = (Ok u, w') ->
     exists m, messages (apply_update st u) = messages st ++ [m]) /\
  (forall prev m,
     let st := {| messages := prev ++ [m] |} in
     (next_node medical "agent" st = Ok "action" <-> pending_tool_calls m) /\
     (~ pending_tool_calls m -> next_node medical "agent" st = Ok "direct_answer") /\
     (next_node general "agent" st = Ok "action" <-> pending_tool_calls m) /\
     (~ pending_tool_calls m -> next_node general "agent" st = Ok "direct_answer")).
Proof.
  intros medical general. subst medical general.
  rewrite create_medical_workflow_topology, create_general_workflow_topology.
  split.
  - intros st w u w' [H|H].
    + destruct (call_model_appends_one _ _ _ _ _ H) as [m ->]. exists m. reflexivity.
    + destruct (korean_agent_appends_one _ _ _ _ _ _ H) as [m ->]. exists m. reflexivity.
  - intros prev m st. subst st. unfold next_node. graph_eval.
    unfold should_continue_or_answer_medical, should_continue_or_answer_general.
    cbn [messages]. rewrite last_snoc.
    rewrite <- has_tool_calls_pending.
    destruct (has_tool_calls m); cbn; repeat split;
      try discriminate; try reflexivity; try congruence;
      intros H; exfalso; apply H; reflexivity.
Qed.

(** ** The English translation step (C2) *)

Lemma last_human_snoc prev c :
  last_human (prev ++ [HumanMessage c]) = Some (HumanMessage c).
Proof. unfold last_human. rewrite rev_unit. reflexivity. Qed.

(** C2 (the code departs from it): [translate_to_english] returns the
    message list without its last element, followed by the translation,
    and the reducer of the [messages] channel appends this update to the
    list already in the state.  After the node the working sequence is the
    old sequence, a second copy of all but its last message, and the
    translation: the earlier messages are unchanged, but the original
    Korean message is still there. *)
Theorem translate_to_english_keeps_original py translator prev korean english calls w :
  (forall input, ainvoke translator input = Ok (english, calls)) ->
  let st := {| messages := prev ++ [HumanMessage korean] |} in
  let translated := HumanMessage (py_strip py english) in
  state_after (translate_to_english py translator) st w =
    Some {| messages := (prev ++ [HumanMessage korean]) ++ (prev ++ [translated]) |} /\
  (forall st', state_after (translate_to_english py translator) st w = Some st' ->
     In (HumanMessage korean) (messages st') /\
     take (length (messages st)) (messages st') = messages st).
Proof.
  intros Hanswer st translated.
  assert (E : state_after (translate_to_english py translator) st w =
              Some {| messages := (prev ++ [HumanMessage korean]) ++ (prev ++ [translated]) |}).
  { unfold state_after, translate_to_english. subst st. cbn [messages].
    rewrite last_human_snoc, Hanswer, removelast_last. reflexivity. }
  split; [exact E|].
  intros st' H. rewrite E in H. inversion H; subst st'. cbn [messages]. split.
  - apply in_or_app. left. apply in_or_app. right. left. reflexivity.
  - subst st. cbn [messages]. apply take_app_length.
Qed.

Lemma translate_to_english_example :
  state_after (translate_to_english ascii_runtime (constant_model "latest diabetes papers" []))
    {| messages := [SystemMessage system_prompt; HumanMessage korean_query] |} fresh_world =
  Some {| messages := [SystemMessage system_prompt; HumanMessage korean_query;
                       SystemMessage system_prompt;
                       HumanMessage "latest diabetes papers"] |}.
Proof.
  apply (translate_to_english_keeps_original ascii_runtime
           (constant_model "latest diabetes papers" [])
           [SystemMessage system_prompt] korean_query "latest diabetes papers" []
           fresh_world).
  intros input. reflexivity.
Defined.

(** ** The system prompt of a turn (C10) *)

Lemma convert_history_starts_with_system history max_turns :
  exists rest,
    convert_history_to_messages history max_turns = SystemMessage system_prompt :: rest.
Proof. unfold convert_history_to_messages. cbn [app]. eauto. Qed.

Ltac run_node_both :=
  rewrite !run_from_step by discriminate; graph_eval;
  match goal with
  | |- context [match ?f ?st ?w with (_, _) => _ end] =>
      let u := fresh "u" in let e := fresh "e" in let w' := fresh "w" in
      destruct (f st w) as [[u|e] w'] eqn:?
  end; graph_eval.

(** Two general graphs whose agent nodes agree on the initial state run
    alike: the agent node is the entry point and never runs again. *)
Lemma general_run_agent_irrelevant f_agent f_agent' f_action f_format f_direct
    limit inputs w :
  f_agent (initial_state inputs) w = f_agent' (initial_state inputs) w ->
  run_graph (general_topology f_agent f_action f_format f_direct) limit inputs w =
  run_graph (general_topology f_agent' f_action f_format f_direct) limit inputs w.
Proof.
  intros H. unfold run_graph. graph_eval. fold (initial_state inputs).
  destruct limit as [|limit]; [reflexivity|].
  destruct limit as [|limit]; [reflexivity|].
  rewrite !run_from_step by discriminate. graph_eval. rewrite H.
  destruct (f_agent' (initial_state inputs) w) as [[u|e] w1]; [|reflexivity].
  graph_eval. route_agent; [| |reflexivity].
  - destruct limit as [|limit]; [reflexivity|]. run_node_both; [|reflexivity].
    destruct limit as [|limit]; [reflexivity|]. run_node_both; [|reflexivity].
    rewrite !run_from_END. reflexivity.
  - destruct limit as [|limit]; [reflexivity|]. run_node_both; [|reflexivity].
    rewrite !run_from_END. reflexivity.
Qed.

Lemma korean_agent_on_inputs tools model s query w :
  korean_agent_messages (messages (initial_state (process_query_smart_inputs s query))) =
    process_query_smart_inputs s query /\
  korean_agent tools model (initial_state (process_query_smart_inputs s query)) w =
    call_model (bind_tools model tools)
      (initial_state (process_query_smart_inputs s query)) w.
Proof.
  assert (Hsame :
    korean_agent_messages (messages (initial_state (process_query_smart_inputs s query))) =
    process_query_smart_inputs s query).
  { unfold process_query_smart_inputs.
    destruct (convert_history_starts_with_system (history s)
                (conversation_memory_turns s)) as [rest ->].
    reflexivity. }
  split; [exact Hsame|].
  unfold korean_agent. rewrite Hsame. reflexivity.
Qed.

Lemma general_run_without_insertion
    py servers tool_node tools model translator cfg s query limit w :
  run_graph (create_general_workflow py servers tool_node tools model translator cfg)
    limit (process_query_smart_inputs s query) w =
  run_graph (general_topology (call_model (bind_tools model tools))
               (simple_tool_node servers tool_node cfg) format_korean_response
               (korean_direct_answer py translator))
    limit (process_query_smart_inputs s query) w.
Proof.
  rewrite create_general_workflow_topology.
  apply general_run_agent_irrelevant, korean_agent_on_inputs.
Qed.

(** C10: for every history, the empty one included, the graph input that
    [process_query_smart] builds begins with the medical system prompt
    that [convert_history_to_messages] puts first.  The agent node of the
    general graph therefore finds a SystemMessage in the state it starts
    in: the message list it gives the model is that state unchanged, the
    node does what [call_model] does, and the whole run is the run of the
    graph whose agent node never inserts the general prompt.  So is every
    run that [process_query_smart] starts on the general graph. *)
Theorem general_prompt_never_inserted
    py servers tool_node tools model translator cfg s query limit w :
  let inputs := process_query_smart_inputs s query in
  (exists rest, inputs = SystemMessage system_prompt :: rest) /\
  (history s = [] -> inputs = [SystemMessage system_prompt; HumanMessage query]) /\
  korean_agent_messages (messages (initial_state inputs)) = inputs /\
  korean_agent tools model (initial_state inputs) w =
    call_model (bind_tools model tools) (initial_state inputs) w /\
  run_graph (create_general_workflow py servers tool_node tools model translator cfg)
    limit inputs w =
  run_graph (general_topology (call_model (bind_tools model tools))
               (simple_tool_node servers tool_node cfg) format_korean_response
               (korean_direct_answer py translator))
    limit inputs w /\
  (forall prompt classifier turn r classifier',
     process_query_smart py prompt servers tool_node model translator classifier
       query turn = (Some r, classifier') ->
     fst (select_workflow_type py prompt classifier query
            (available_tools (session turn))) <> "medical" ->
     r = run_graph
           (general_topology
              (call_model (bind_tools model (available_tools (session turn))))
              (simple_tool_node servers tool_node (mcp_config (session turn)))
              format_korean_response (korean_direct_answer py translator))
           (recursion_limit (session turn))
           (process_query_smart_inputs (session turn) query) turn).
Proof.
  intros inputs. subst inputs.
  split.
  { unfold process_query_smart_inputs.
    destruct (convert_history_starts_with_system (history s)
                (conversation_memory_turns s)) as [rest ->].
    cbn [app]. eauto. }
  split.
  { intros Hh. unfold process_query_smart_inputs.
    rewrite Hh. unfold convert_history_to_messages, recent_entries, py_slice_from_neg.
    cbn [List.filter length].
    repeat match goal with
           | |- context [if ?b then _ else _] => destruct b
           end; rewrite ?drop_nil; reflexivity. }
  split; [exact (proj1 (korean_agent_on_inputs tools model s query w))|].
  split; [exact (proj2 (korean_agent_on_inputs tools model s query w))|].
  split; [apply general_run_without_insertion|].
  intros prompt classifier turn r classifier' Hrun Hgeneral.
  unfold process_query_smart in Hrun.
  destruct (session_initialized (session turn)); [|discriminate Hrun].
  cbn [negb] in Hrun.
  destruct (select_workflow_type py prompt classifier query
              (available_tools (session turn))) as [selected c1].
  cbn [fst] in Hgeneral. unfold select_agent in Hrun.
  destruct (String.eqb_spec selected "medical") as [->|_]; [contradiction|].
  inversion Hrun; subst. apply general_run_without_insertion.
Qed.

(** ** Connecting to the tool providers *)

Lemma comes_up_no_cause b : comes_up b = true <-> failure_cause b = None.
Proof.
  unfold comes_up, failure_cause.
  destruct (stdio_enter b), (session_enter b), (initialize b), (load_mcp_tools b);
    split; intros H; try discriminate; reflexivity.
Qed.

Lemma offered_tools_down b : comes_up b = false -> offered_tools b = [].
Proof.
  unfold offered_tools. intros ->. destruct (load_mcp_tools b); reflexivity.
Qed.

Lemma server_status_update name st msg n s :
  server_status (update_server_status name st msg n s) =
  <[name := {| status := st; tools_count := n; error_message := msg |}]> (server_status s).
Proof. reflexivity. Qed.

(** What [connect_mcp_server] hands to its caller. *)
Lemma connect_mcp_server_result b name s :
  fst (connect_mcp_server b name s) =
  match failure_cause b with
  | Some cause => Raise (Exception (recorded_message b cause))
  | None => Ok (offered_tools b)
  end.
Proof.
  unfold connect_mcp_server, failure_cause, offered_tools, comes_up.
  destruct (stdio_enter b) as [e|]; [reflexivity|].
  destruct (session_enter b) as [e|]; [reflexivity|].
  destruct (initialize b) as [e|]; [destruct e; reflexivity|].
  destruct (load_mcp_tools b) as [tools|e]; [reflexivity|destruct e; reflexivity].
Qed.

(** The status updates of one connection all hit the server's own record;
    the last one stays. *)
Lemma connect_mcp_server_status b name s :
  server_status (snd (connect_mcp_server b name s)) =
  <[name := status_after_connect b]> (server_status s).
Proof.
  unfold connect_mcp_server, status_after_connect, failure_cause, offered_tools, comes_up.
  destruct (stdio_enter b) as [e|].
  { cbn. rewrite !insert_insert_eq. reflexivity. }
  destruct (session_enter b) as [e|].
  { cbn. rewrite !insert_insert_eq. reflexivity. }
  destruct (initialize b) as [e|].
  { destruct e; cbn; rewrite !insert_insert_eq; reflexivity. }
  destruct (load_mcp_tools b) as [tools|e].
  { cbn. rewrite !insert_insert_eq. reflexivity. }
  destruct e; cbn; rewrite !insert_insert_eq; reflexivity.
Qed.

Section ConnectEach.
Variable servers : McpServers.
Variable epoch : nat.

Let behaviour (item : string * ServerConfig) : ServerBehaviour :=
  servers epoch item.1 item.2.

Lemma connect_each_spec items :
  forall acc w,
    let r := connect_each servers epoch items acc w in
    all_tools (fst r) =
      all_tools acc ++ flat_map (fun item => offered_tools (behaviour item)) items /\
    server_sessions (fst r) =
      foldl (insert_some (fun item => session_after_connect (behaviour item)))
        (server_sessions acc) items /\
    exit_stack (fst r) =
      rev (map (fun item => (item.1, behaviour item))
             (List.filter (fun item => comes_up (behaviour item)) items))
      ++ exit_stack acc /\
    server_status (session (snd r)) =
      foldl (insert_some (fun item => Some (status_after_connect (behaviour item))))
        (server_status (session w)) items /\
    connects (snd r) = connects w /\
    slept (snd r) = slept w /\
    dialed (snd r) = dialed w ++ map (fun item => (epoch, item.1)) items.
Proof.
  induction items as [|[server_id config] rest IH]; intros acc w r.
  - subst r. cbn. rewrite !app_nil_r. repeat split; reflexivity.
  - subst r. cbn [connect_each]. unfold behaviour in *.
    cbn [flat_map foldl List.filter map].
    unfold insert_some at 2 4. unfold session_after_connect at 2.
    cbn [fst snd].
    set (b := servers epoch server_id config).
    pose proof (connect_mcp_server_result b server_id
                  (session (record_dial epoch server_id w))) as Hres.
    pose proof (connect_mcp_server_status b server_id
                  (session (record_dial epoch server_id w))) as Hst.
    destruct (connect_mcp_server b server_id
                (session (record_dial epoch server_id w))) as [res s'].
    cbn [fst snd] in Hres, Hst.
    destruct (failure_cause b) as [cause|] eqn:Hc; subst res.
    + assert (Hdown : comes_up b = false).
      { destruct (comes_up b) eqn:Hup; [|reflexivity].
        apply comes_up_no_cause in Hup. congruence. }
      match goal with
      | |- context [connect_each servers epoch rest ?a ?w'] =>
          destruct (IH a w') as (H1 & H2 & H3 & H4 & H5 & H6 & H7)
      end.
      cbn [session connects slept dialed on_session record_dial] in H4, H5, H6, H7.
      rewrite Hst in H4.
      rewrite Hdown, (offered_tools_down _ Hdown). cbn [app].
      split; [exact H1|]. split; [exact H2|]. split; [exact H3|].
      split; [exact H4|]. split; [exact H5|]. split; [exact H6|].
      rewrite H7, <- app_assoc. reflexivity.
    + assert (Hup : comes_up b = true).
      { apply comes_up_no_cause, Hc. }
      match goal with
      | |- context [connect_each servers epoch rest ?a ?w'] =>
          destruct (IH a w') as (H1 & H2 & H3 & H4 & H5 & H6 & H7)
      end.
      cbn [session connects slept dialed on_session record_dial] in H4, H5, H6, H7.
      cbn [all_tools server_sessions exit_stack] in H1, H2, H3.
      rewrite Hst in H4.
      rewrite Hup. cbn [rev map fst snd].
      split; [rewrite H1, <- app_assoc; reflexivity|]. split; [exact H2|].
      split; [rewrite H3, <- app_assoc; reflexivity|].
      split; [exact H4|]. split; [exact H5|]. split; [exact H6|].
      rewrite H7, <- app_assoc. reflexivity.
Qed.
End ConnectEach.

(** Filling a dict from items with distinct keys: each key ends with the
    value of its own item. *)
Lemma foldl_insert_some_other {V : Type} (f : string * ServerConfig -> option V)
    (items : McpConfig) (m : gmap string V) (id : string) :
  ~ In id (map fst items) -> foldl (insert_some f) m items !! id = m !! id.
Proof.
  revert m. induction items as [|item rest IH]; intros m Hnot; [reflexivity|].
  cbn [foldl]. rewrite IH.
  - unfold insert_some. destruct (f item); [|reflexivity].
    apply lookup_insert_ne. intros Heq. apply Hnot. left. exact Heq.
  - intros Hin. apply Hnot. right. exact Hin.
Qed.

Lemma foldl_insert_some_lookup {V : Type} (f : string * ServerConfig -> option V)
    (items : McpConfig) (m : gmap string V) (item : string * ServerConfig) :
  NoDup (map fst items) -> In item items ->
  foldl (insert_some f) m items !! item.1 =
  match f item with
  | Some v => Some v
  | None => m !! item.1
  end.
Proof.
  revert m. induction items as [|first rest IH]; intros m Hnd Hin; [destruct Hin|].
  cbn [map] in Hnd. apply NoDup_cons in Hnd as [Hfresh Hnd].
  cbn [foldl]. destruct Hin as [->|Hin].
  - rewrite foldl_insert_some_other by (rewrite <- list_elem_of_In; exact Hfresh).
    unfold insert_some. destruct (f item); [apply lookup_insert_eq|reflexivity].
  - rewrite (IH _ Hnd Hin). destruct (f item); [reflexivity|].
    unfold insert_some. destruct (f first); [|reflexivity].
    apply lookup_insert_ne. intros Heq. apply Hfresh.
    rewrite list_elem_of_In, Heq. apply in_map, Hin.
Qed.

Lemma filter_length_agree {A B : Type} (g : A -> B) (P : B -> bool) (Q : A -> bool)
    (l : list A) :
  (forall x, In x l -> P (g x) = Q x) ->
  length (List.filter P (map g l)) = length (List.filter Q l).
Proof.
  induction l as [|x l IH]; intros H; [reflexivity|].
  cbn [map List.filter]. rewrite (H x) by (left; reflexivity).
  destruct (Q x); cbn [length]; rewrite IH; auto; intros y Hy; apply H; right; exact Hy.
Qed.

Lemma flat_map_offered (f : string * ServerConfig -> ServerBehaviour) (items : McpConfig) :
  flat_map (fun item => offered_tools (f item)) items =
  flat_map (fun item => offered_tools (f item))
    (List.filter (fun item => comes_up (f item)) items).
Proof.
  induction items as [|item rest IH]; [reflexivity|].
  cbn [flat_map List.filter]. destruct (comes_up (f item)) eqn:Hup.
  - cbn [flat_map]. rewrite IH. reflexivity.
  - rewrite (offered_tools_down _ Hup), IH. reflexivity.
Qed.

Lemma task_group_text_is_not_causal cause :
  "서버 연결 실패: " +:+ task_group_text <> causal_message (InSession, cause).
Proof.
  unfold causal_message, session_error_text, task_group_text.
  destruct (is_timeout cause); intros H; cbv [String.append] in H; discriminate H.
Qed.

(** C7 (the code departs from it): in one multi-server connect over
    servers with distinct identifiers, the catalog handed to the caller is
    the concatenation of the tools of the servers that come up, in
    configuration order; a server that comes up is recorded as connected
    with its tool count; a server whose connection fails has no session
    entry and is left with the status failed; the number of configured
    servers left failed is the number of servers that failed, and the
    records of other servers are untouched.  But the message left in the
    record of a failed server is the text of the exception that reaches
    the outer handler of [connect_mcp_server]: for a failure during
    session initialisation or tool loading that exception has left the
    two library contexts, and when these re-raise as an exception group
    the record holds the group's text, the same for every cause, and not
    the causal message the inner handler had recorded. *)
Theorem partial_connect_loses_cause servers cfg w :
  NoDup (map fst cfg) ->
  let behaviour (item : string * ServerConfig) := servers (connects w) item.1 item.2 in
  let c := fst (connect_all_enter servers cfg w) in
  let s' := session (snd (connect_all_enter servers cfg w)) in
  (forall item cause, In item cfg ->
     failure_cause (behaviour item) = Some (InSession, cause) ->
     wraps_in_task_group (behaviour item) ->
     server_status s' !! item.1 =
       Some {| status := "failed"; tools_count := 0;
               error_message := "서버 연결 실패: " +:+ task_group_text |} /\
     "서버 연결 실패: " +:+ task_group_text <> causal_message (InSession, cause)) /\
  all_tools c =
    flat_map (fun item => offered_tools (behaviour item))
      (List.filter (fun item => comes_up (behaviour item)) cfg) /\
  (forall item, In item cfg ->
     match failure_cause (behaviour item) with
     | Some cause =>
         server_status s' !! item.1 =
           Some {| status := "failed"; tools_count := 0;
                   error_message := recorded_message (behaviour item) cause |} /\
         server_sessions c !! item.1 = None
     | None =>
         server_status s' !! item.1 =
           Some {| status := "connected";
                   tools_count := length (offered_tools (behaviour item));
                   error_message :=
                     pretty (length (offered_tools (behaviour item)))
                       +:+ "개 도구 연결 성공" |} /\
         server_sessions c !! item.1 = Some (offered_tools (behaviour item))
     end) /\
  length (List.filter (is_failed s') (map fst cfg)) =
    length (List.filter (fun item => negb (comes_up (behaviour item))) cfg) /\
  (forall id, ~ In id (map fst cfg) ->
     server_status s' !! id = server_status (session w) !! id).
Proof.
  intros Hnd behaviour c s'. subst c s'. unfold connect_all_enter.
  match goal with
  | |- context [connect_each servers ?ep cfg ?a ?w'] =>
      destruct (connect_each_spec servers ep cfg a w')
        as (H1 & H2 & _ & H4 & _ & _ & _)
  end.
  cbn [all_tools server_sessions app] in H1, H2.
  cbn [session on_session record_connect server_status set_connection_logs] in H4.
  assert (Hlookup : forall item, In item cfg ->
            server_status
              (session (snd (connect_each servers (connects w) cfg
                 {| all_tools := []; server_sessions := ∅; exit_stack := [] |}
                 (on_session (set_connection_logs []) (record_connect w))))) !! item.1 =
            Some (status_after_connect (behaviour item))).
  { intros item Hin. rewrite H4.
    rewrite (foldl_insert_some_lookup _ cfg _ item Hnd Hin). reflexivity. }
  split; [|split; [rewrite H1; apply flat_map_offered|split; [|split]]].
  - intros item cause Hin Hcause Hwraps. split; [|apply task_group_text_is_not_causal].
    rewrite (Hlookup item Hin). unfold status_after_connect. rewrite Hcause.
    unfold recorded_message, reaches_outer_handler. rewrite Hwraps. reflexivity.
  - intros item Hin. specialize (Hlookup item Hin).
    rewrite H2, (foldl_insert_some_lookup _ cfg _ item Hnd Hin).
    unfold status_after_connect in Hlookup. unfold session_after_connect.
    fold (behaviour item).
    destruct (failure_cause (behaviour item)) as [cause|] eqn:Hc.
    + split; [exact Hlookup|].
      destruct (comes_up (behaviour item)) eqn:Hup; [|apply lookup_empty].
      apply comes_up_no_cause in Hup. congruence.
    + split; [exact Hlookup|].
      apply comes_up_no_cause in Hc. rewrite Hc. reflexivity.
  - apply filter_length_agree. intros item Hin. unfold is_failed.
    rewrite (Hlookup item Hin). unfold status_after_connect.
    destruct (failure_cause (behaviour item)) as [cause|] eqn:Hc; cbn [status].
    + destruct (comes_up (behaviour item)) eqn:Hup; [|reflexivity].
      apply comes_up_no_cause in Hup. congruence.
    + apply comes_up_no_cause in Hc. rewrite Hc. reflexivity.
  - intros id Hnot. rewrite H4. apply foldl_insert_some_other, Hnot.
Qed.

Lemma partial_connect_three_servers :
  NoDup (map fst three_servers) /\
  server_status
    (session (snd (connect_all_enter weather_times_out three_servers fresh_world)))
    !! "weather" =
    Some {| status := "failed"; tools_count := 0;
            error_message := "서버 연결 실패: " +:+ task_group_text |} /\
  all_tools (fst (connect_all_enter weather_times_out three_servers fresh_world)) =
    [search_tool; news_tool] /\
  length (List.filter
            (is_failed (session (snd (connect_all_enter weather_times_out three_servers
                                        fresh_world))))
            (map fst three_servers)) = 1.
Proof.
  assert (Hnd : NoDup (map fst three_servers)).
  { apply (bool_decide_unpack _). vm_compute. exact I. }
  split; [exact Hnd|].
  pose proof (partial_connect_loses_cause weather_times_out three_servers fresh_world Hnd)
    as (Hdeparts & Htools & _ & Hcount & _).
  split; [|split; [exact Htools|exact Hcount]].
  apply (Hdeparts ("weather", pubmed_config) (TimeoutError "")).
  - right. left. reflexivity.
  - reflexivity.
  - intros e. reflexivity.
Defined.

(** ** The action node (C6) *)

(** Whatever goes wrong inside the [try] block reaches the handler: the
    node then returns one ToolMessage that carries the error text and the
    call id [error]. *)
Lemma safe_tool_node_catches servers tool_node cfg st w e w' :
  connect_all_mcp_servers servers cfg
    (fun fresh_tools _ w1 =>
       match fresh_tools with
       | [] => (Ok None, w1)
       | _ :: _ => (tool_node fresh_tools st, w1)
       end) w = (Raise e, w') ->
  safe_tool_node servers tool_node cfg st w =
    (Ok (Some [ToolMessage ("도구 실행 중 오류 발생: " +:+ str_exn e) "error"]), w') /\
  simple_tool_node servers tool_node cfg st w =
    (Ok (Some [ToolMessage ("도구 실행 중 오류 발생: " +:+ str_exn e) "error"]), w').
Proof.
  intros H. unfold safe_tool_node, simple_tool_node, Update in *.
  rewrite H. split; reflexivity.
Qed.

Lemma filter_none {A : Type} (P : A -> bool) (l : list A) :
  (forall x, In x l -> P x = false) -> List.filter P l = [].
Proof.
  induction l as [|x l IH]; intros H; [reflexivity|].
  cbn [List.filter]. rewrite (H x) by (left; reflexivity).
  apply IH. intros y Hy. apply H. right. exact Hy.
Qed.

(** When no provider comes up, the connect yields an empty catalog and
    nothing to tear down. *)
Lemma connect_all_enter_nothing servers cfg w :
  (forall item, In item cfg -> comes_up (servers (connects w) item.1 item.2) = false) ->
  all_tools (fst (connect_all_enter servers cfg w)) = [] /\
  exit_stack (fst (connect_all_enter servers cfg w)) = [].
Proof.
  intros Hdown. unfold connect_all_enter.
  match goal with
  | |- context [connect_each servers ?ep cfg ?a ?w'] =>
      destruct (connect_each_spec servers ep cfg a w') as (H1 & _ & H3 & _)
  end.
  cbn [all_tools exit_stack app] in H1, H3.
  rewrite H1, H3, flat_map_offered, (filter_none _ cfg Hdown). split; reflexivity.
Qed.

(** C6 (the code departs from it): when the connections to all configured
    providers fail at dispatch time, [connect_all_mcp_servers] swallows
    the failures and yields an empty catalog; the [if fresh_tools:] of the
    action node has no [else], so the node returns [None]: no synthetic
    ToolMessage is appended and the state is left as it was.  Both action
    nodes behave so. *)
Theorem action_node_returns_none_without_tools servers tool_node cfg st w :
  (forall item, In item cfg -> comes_up (servers (connects w) item.1 item.2) = false) ->
  fst (safe_tool_node servers tool_node cfg st w) = Ok None /\
  fst (simple_tool_node servers tool_node cfg st w) = Ok None /\
  state_after (safe_tool_node servers tool_node cfg) st w = Some st /\
  state_after (simple_tool_node servers tool_node cfg) st w = Some st.
Proof.
  intros Hdown.
  destruct (connect_all_enter_nothing servers cfg w Hdown) as [Htools Hstack].
  unfold state_after, safe_tool_node, simple_tool_node, connect_all_mcp_servers.
  destruct (connect_all_enter servers cfg w) as [c w1].
  cbn [fst snd] in Htools, Hstack. rewrite Htools, Hstack.
  cbn. repeat split; reflexivity.
Qed.

Lemma action_node_unreachable_servers :
  (forall item, In item sample_config ->
     comes_up (unreachable_servers (connects fresh_world) item.1 item.2) = false) /\
  fst (safe_tool_node unreachable_servers sample_tool_node sample_config
         {| messages := [HumanMessage "diabetes"; AIMessage "" [search_call]] |}
         fresh_world) = Ok None.
Proof.
  assert (H : forall item, In item sample_config ->
                comes_up (unreachable_servers (connects fresh_world) item.1 item.2) = false).
  { intros item _. reflexivity. }
  split; [exact H|].
  apply (action_node_returns_none_without_tools unreachable_servers sample_tool_node
           sample_config _ fresh_world H).
Defined.

(** ** The retry wrapper (C8) *)

(** C8, as stated, fails: here every provider fails its handshake, the
    catalog comes back empty, and the wrapper returns it after a single
    connect, without sleeping and without a second attempt. *)
Lemma empty_catalog_is_not_retried :
  fst (get_tools_with_retry unreachable_servers sample_config default_max_retries
         fresh_world) = Ok [] /\
  connects (snd (get_tools_with_retry unreachable_servers sample_config
                   default_max_retries fresh_world)) = 1 /\
  slept (snd (get_tools_with_retry unreachable_servers sample_config
                default_max_retries fresh_world)) = [].
Proof. vm_compute. repeat split; reflexivity. Qed.

(** One attempt is one full connect: it dials every configured server
    once, in order, and does not sleep. *)
Lemma connect_attempt_accounting servers cfg w :
  connects (snd (connect_attempt servers cfg w)) = S (connects w) /\
  slept (snd (connect_attempt servers cfg w)) = slept w /\
  dialed (snd (connect_attempt servers cfg w)) =
    dialed w ++ map (fun item => (connects w, item.1)) cfg.
Proof.
  unfold connect_attempt, connect_all_mcp_servers, connect_all_enter.
  match goal with
  | |- context [connect_each servers ?ep cfg ?a ?w'] =>
      destruct (connect_each_spec servers ep cfg a w') as (_ & _ & _ & _ & H5 & H6 & H7);
      destruct (connect_each servers ep cfg a w') as [c w1]
  end.
  cbn [fst snd connects slept dialed on_session record_connect] in H5, H6, H7.
  destruct (unwind (exit_stack c) None (session w1)) as [[e|] s3];
    cbn [fst snd connects slept dialed on_session]; auto.
Qed.

Lemma full_connects_S cfg first k :
  full_connects cfg first (S k) =
  map (fun item => (first, item.1)) cfg ++ full_connects cfg (S first) k.
Proof. reflexivity. Qed.

Lemma retry_attempts_accounting servers cfg n :
  forall w,
    let r := retry_attempts servers cfg n w in
    let attempts := connects (snd r) - connects w in
    connects w <= connects (snd r) /\
    attempts <= n /\
    (0 < n -> 1 <= attempts) /\
    slept (snd r) = slept w ++ repeat 1 (attempts - 1) /\
    dialed (snd r) = dialed w ++ full_connects cfg (connects w) attempts.
Proof.
  induction n as [|n IH]; intros w r attempts.
  - subst r attempts. cbn [retry_attempts fst snd]. rewrite Nat.sub_diag.
    cbn. rewrite !app_nil_r. repeat split; lia.
  - subst r attempts. cbn [retry_attempts].
    fold (connect_attempt servers cfg w).
    destruct (connect_attempt_accounting servers cfg w) as (Hc & Hs & Hd).
    destruct (connect_attempt servers cfg w) as [[tools|e] w1]; cbn [fst snd] in *.
    + rewrite Hc, Hs, Hd.
      replace (S (connects w) - connects w) with 1 by lia.
      rewrite full_connects_S. cbn. rewrite !app_nil_r. repeat split; lia.
    + destruct n as [|n].
      * cbn [fst snd]. rewrite Hc, Hs, Hd.
        replace (S (connects w) - connects w) with 1 by lia.
        rewrite full_connects_S. cbn. rewrite !app_nil_r. repeat split; lia.
      * specialize (IH (asyncio_sleep 1 w1)).
        cbn [connects slept dialed asyncio_sleep] in IH.
        destruct IH as (I1 & I2 & I3 & I4 & I5).
        set (r := retry_attempts servers cfg (S n) (asyncio_sleep 1 w1)) in *.
        assert (Hk : connects r.2 - connects w = S (connects r.2 - connects w1)) by lia.
        assert (Hk1 : 1 <= connects r.2 - connects w1) by (apply I3; lia).
        rewrite Hk. split; [lia|]. split; [lia|]. split; [lia|]. split.
        -- rewrite I4, Hs, <- app_assoc. f_equal.
           replace (S (connects r.2 - connects w1) - 1)
             with (S (connects r.2 - connects w1 - 1)) by lia.
           reflexivity.
        -- rewrite I5, Hd, Hc, <- app_assoc, full_connects_S. reflexivity.
Qed.

(** C8 (amended): the wrapper runs the full multi-server connect up to
    [max_retries] times (2 by default).  It goes on to a further attempt,
    after sleeping 1 time-unit, exactly when an attempt raises an
    exception and attempts are left; the exception of the last attempt is
    raised again.  A catalog that comes back, empty or not, is returned
    at once.  Every attempt dials each configured server once, in
    configuration order, so no server is retried on its own. *)
Theorem retry_wrapper_retries_on_exception servers cfg max_retries w :
  (0 < max_retries)%Z ->
  let first := connect_attempt servers cfg w in
  let r := get_tools_with_retry servers cfg max_retries w in
  let attempts := connects (snd r) - connects w in
  (forall tools, fst first = Ok tools -> r = first) /\
  (forall e, fst first = Raise e ->
     if (max_retries =? 1)%Z then r = first
     else r = get_tools_with_retry servers cfg (max_retries - 1)
                (asyncio_sleep 1 (snd first))) /\
  1 <= attempts <= Z.to_nat max_retries /\
  slept (snd r) = slept w ++ repeat 1 (attempts - 1) /\
  dialed (snd r) = dialed w ++ full_connects cfg (connects w) attempts /\
  Z.to_nat default_max_retries = 2.
Proof.
  intros Hpos first r attempts. subst first r attempts. unfold get_tools_with_retry.
  destruct (retry_attempts_accounting servers cfg (Z.to_nat max_retries) w)
    as (A1 & A2 & A3 & A4 & A5).
  split; [|split; [|split; [|split; [|split]]]].
  - intros tools Hfirst.
    destruct (Z.to_nat max_retries) as [|n] eqn:Hn; [lia|].
    cbn [retry_attempts]. fold (connect_attempt servers cfg w).
    destruct (connect_attempt servers cfg w) as [[tools'|e] w1]; [reflexivity|].
    discriminate Hfirst.
  - intros e Hfirst.
    destruct (Z.eqb_spec max_retries 1) as [->|Hne].
    + change (Z.to_nat 1) with 1. cbn [retry_attempts].
      fold (connect_attempt servers cfg w).
      destruct (connect_attempt servers cfg w) as [[tools|e'] w1];
        [discriminate Hfirst|reflexivity].
    + replace (Z.to_nat max_retries) with (S (Z.to_nat (max_retries - 1))) by lia.
      destruct (Z.to_nat (max_retries - 1)) as [|n] eqn:Hn; [lia|].
      cbn [retry_attempts]. fold (connect_attempt servers cfg w).
      destruct (connect_attempt servers cfg w) as [[tools|e'] w1];
        [discriminate Hfirst|reflexivity].
  - split; [apply A3; lia|exact A2].
  - exact A4.
  - exact A5.
  - reflexivity.
Qed.

Lemma retry_wrapper_default_example :
  (0 < default_max_retries)%Z /\
  fst (get_tools_with_retry flaky_servers sample_config default_max_retries fresh_world) =
    Ok [search_tool] /\
  slept (snd (get_tools_with_retry flaky_servers sample_config default_max_retries
                fresh_world)) = [1] /\
  dialed (snd (get_tools_with_retry flaky_servers sample_config default_max_retries
                 fresh_world)) = [(0, "pubmed"); (1, "pubmed")].
Proof.
  split; [reflexivity|].
  pose proof (retry_wrapper_retries_on_exception flaky_servers sample_config
                default_max_retries fresh_world eq_refl) as H.
  destruct H as (_ & _ & _ & Hs & Hd & _).
  split; [vm_compute; reflexivity|].
  split; [rewrite Hs|rewrite Hd]; vm_compute; reflexivity.
Defined.

(** ** The workflow classifier (C1, C3) *)

Lemma text_parse_result_cases response_content :
  method (text_parse_result response_content) = "fallback" /\
  (workflow (text_parse_result response_content) = "medical" \/
   workflow (text_parse_result response_content) = "general") /\
  (workflow (text_parse_result response_content) = "medical" <->
   str_contains "medical" (str_lower response_content) = true).
Proof.
  unfold text_parse_result.
  destruct (str_contains "medical" (str_lower response_content)); cbn;
    repeat split; auto; discriminate.
Qed.

(** What [parse_llm_response] returns when the answer holds no acceptable
    JSON object. *)
Lemma parse_llm_response_fallback py response_content :
  no_accepted_json py response_content ->
  parse_llm_response py response_content =
    if json_text_rejected py response_content then parse_failure_result
    else text_parse_result response_content.
Proof.
  unfold no_accepted_json, parse_llm_response, json_text_rejected.
  destruct (re_search_braces response_content) as [json_str|]; [|reflexivity].
  destruct (json_loads py json_str) as [result|]; [|reflexivity].
  intros ->. reflexivity.
Qed.

(** C1, as stated, fails: the answer below holds no JSON object at all,
    and the classifier returns the workflow medical for it, because the
    text fallback looks for the word in the raw answer. *)
Lemma text_fallback_selects_medical :
  no_accepted_json ascii_runtime undecided_answer /\
  workflow (fst (classify_workflow ascii_runtime sample_prompt
                   (new_classifier undecided_llm) korean_query [search_tool]))
  <> "general".
Proof. split; [exact I|]. vm_compute. discriminate. Qed.

(** C1 (amended): when the model is invoked (no cached result) and its
    invocation raises or times out, the result is workflow general with
    the tag fallback.  When it returns an answer from which no JSON object
    with a workflow field in medical, general can be extracted, the tag
    is one of the two fallback tags of the code (fallback, error), and the
    workflow is general, except that it is medical when the lower-cased
    answer contains the word medical and [json.loads] did not raise on
    the answer's brace-delimited part. *)
Theorem classifier_fallback_results py prompt self query tools :
  cache self !! cache_key py query tools = None ->
  let answer := llm self (invocations self) (classification_prompt prompt query tools) in
  let r := fst (classify_workflow py prompt self query tools) in
  (forall e, answer = Raise e ->
     workflow r = "general" /\ method r = "fallback") /\
  (forall response_content,
     answer = Ok response_content -> no_accepted_json py response_content ->
     fallback_tag (method r) /\
     (workflow r = "medical" \/ workflow r = "general") /\
     (workflow r = "medical" <->
      json_text_rejected py response_content = false /\
      str_contains "medical" (str_lower response_content) = true)).
Proof.
  intros Hmiss answer r. subst answer r.
  unfold classify_workflow, classification_prompt. rewrite Hmiss. split.
  - intros e ->. destruct e; split; reflexivity.
  - intros response_content -> Hno. cbn [fst].
    rewrite (parse_llm_response_fallback _ _ Hno).
    destruct (json_text_rejected py response_content).
    + cbn. split; [right; reflexivity|]. split; [right; reflexivity|].
      split; [discriminate|intros [H _]; discriminate H].
    + destruct (text_parse_result_cases response_content) as (Hm & Hw & Hiff).
      split; [left; exact Hm|]. split; [exact Hw|].
      rewrite Hiff. split; [intros H; split; [reflexivity|exact H]|intros [_ H]; exact H].
Qed.

Lemma classifier_fallback_example :
  cache (new_classifier undecided_llm) !! cache_key ascii_runtime korean_query [search_tool]
    = None /\
  fallback_tag (method (fst (classify_workflow ascii_runtime sample_prompt
                               (new_classifier undecided_llm) korean_query [search_tool]))).
Proof.
  assert (Hmiss : cache (new_classifier undecided_llm)
                    !! cache_key ascii_runtime korean_query [search_tool] = None).
  { apply lookup_empty. }
  split; [exact Hmiss|].
  apply (classifier_fallback_results ascii_runtime sample_prompt
           (new_classifier undecided_llm) korean_query [search_tool] Hmiss)
    with (response_content := undecided_answer).
  - reflexivity.
  - exact I.
Defined.

(** C3, as stated, fails: the first invocation of the model raises, the
    fallback result is returned without being cached, and a second call
    with the same query and catalog invokes the model again and returns a
    different result. *)
Lemma failed_classification_is_not_cached :
  let first := classify_workflow ascii_runtime sample_prompt
                 (new_classifier recovering_llm) korean_query [search_tool] in
  let second := classify_workflow ascii_runtime sample_prompt (snd first)
                  korean_query [search_tool] in
  cache (snd first) !! cache_key ascii_runtime korean_query [search_tool] = None /\
  workflow (fst first) = "general" /\
  workflow (fst second) = "medical" /\
  invocations (snd second) = S (invocations (snd first)).
Proof. vm_compute. repeat split; reflexivity. Qed.

Lemma cache_key_same_names py query tools tools' :
  map tool_name tools' = map tool_name tools ->
  cache_key py query tools' = cache_key py query tools.
Proof.
  intros H. unfold cache_key. rewrite H.
  replace (length tools') with (length tools); [reflexivity|].
  rewrite <- (length_map tool_name tools), <- (length_map tool_name tools'), H.
  reflexivity.
Qed.

(** C3 (amended): a call that is served from the cache, or whose model
    invocation returns an answer, leaves its result in the cache under the
    computed key, and a second call with the same query and a catalog of
    the same tool names returns the same result and leaves the classifier
    as it was, the count of model invocations included.  A call whose
    model invocation raises or times out returns the fallback result and
    stores nothing. *)
Theorem classification_cached_when_model_answers py prompt self query tools tools' :
  map tool_name tools' = map tool_name tools ->
  let key := cache_key py query tools in
  let answer := llm self (invocations self) (classification_prompt prompt query tools) in
  let r1 := fst (classify_workflow py prompt self query tools) in
  let self1 := snd (classify_workflow py prompt self query tools) in
  (is_Some (cache self !! key) \/ (exists response_content, answer = Ok response_content) ->
   cache self1 !! key = Some r1 /\
   classify_workflow py prompt self1 query tools' = (r1, self1) /\
   invocations (snd (classify_workflow py prompt self1 query tools')) = invocations self1) /\
  (cache self !! key = None -> forall e, answer = Raise e ->
   cache self1 = cache self /\ r1 = get_fallback_classification query
                                      (extract_tool_descriptions tools)).
Proof.
  intros Hnames key answer r1 self1. subst key answer r1 self1.
  unfold classification_prompt. split.
  - intros Hserved.
    assert (Hcached :
      cache (snd (classify_workflow py prompt self query tools))
        !! cache_key py query tools =
      Some (fst (classify_workflow py prompt self query tools))).
    { unfold classify_workflow.
      destruct (cache self !! cache_key py query tools) as [cached|] eqn:Hhit;
        [exact Hhit|].
      destruct Hserved as [[x Hx]|[response_content Hanswer]]; [discriminate Hx|].
      rewrite Hanswer. cbn [fst snd cache cache_store]. apply lookup_insert_eq. }
    assert (Hsecond :
      classify_workflow py prompt
        (snd (classify_workflow py prompt self query tools)) query tools' =
      (fst (classify_workflow py prompt self query tools),
       snd (classify_workflow py prompt self query tools))).
    { unfold classify_workflow at 1.
      rewrite (cache_key_same_names py query tools tools' Hnames), Hcached.
      reflexivity. }
    split; [exact Hcached|]. split; [exact Hsecond|].
    rewrite Hsecond. reflexivity.
  - intros Hmiss e Hanswer. unfold classify_workflow. rewrite Hmiss, Hanswer.
    destruct e; split; reflexivity.
Qed.

Lemma classification_cached_example :
  map tool_name [search_tool] = map tool_name [search_tool] /\
  classify_workflow ascii_runtime sample_prompt
    (snd (classify_workflow ascii_runtime sample_prompt (new_classifier undecided_llm)
            korean_query [search_tool]))
    korean_query [search_tool] =
  (fst (classify_workflow ascii_runtime sample_prompt (new_classifier undecided_llm)
          korean_query [search_tool]),
   snd (classify_workflow ascii_runtime sample_prompt (new_classifier undecided_llm)
          korean_query [search_tool])).
Proof.
  split; [reflexivity|].
  apply (classification_cached_when_model_answers ascii_runtime sample_prompt
           (new_classifier undecided_llm) korean_query [search_tool] [search_tool]
           eq_refl).
  right. exists undecided_answer. reflexivity.
Defined.

(** ** The history window handed to the model *)

Lemma recent_entries_positive (turns : Z) (l : list HistoryEntry) :
  (0 < turns)%Z ->
  recent_entries turns l = drop (length l - Z.to_nat (2 * turns)) l.
Proof.
  intros Hpos. unfold recent_entries, py_slice_from_neg.
  replace (turns * 2)%Z with (2 * turns)%Z by lia.
  destruct (Z.ltb_spec (2 * turns) (Z.of_nat (length l))) as [Hlt|Hge].
  - destruct (Z.ltb_spec 0 (2 * turns)) as [_|Hneg]; [reflexivity|lia].
  - replace (length l - Z.to_nat (2 * turns)) with 0 by lia. reflexivity.
Qed.

Lemma recent_entries_nonpositive (turns : Z) (l : list HistoryEntry) :
  (turns <= 0)%Z ->
  recent_entries turns l = drop (Z.to_nat (- (2 * turns))) l.
Proof.
  intros Hneg. unfold recent_entries, py_slice_from_neg.
  replace (turns * 2)%Z with (2 * turns)%Z by lia.
  destruct (Z.ltb_spec (2 * turns) (Z.of_nat (length l))) as [Hlt|Hge].
  - destruct (Z.ltb_spec 0 (2 * turns)) as [Hpos|_]; [lia|reflexivity].
  - assert (E : length l = 0) by lia.
    apply length_zero_iff_nil in E. subst l. rewrite drop_nil. reflexivity.
Qed.

Lemma entry_message_of_turn_entry e :
  is_user_or_assistant e = true ->
  exists m, history_entry_to_messages e = [m] /\
            is_system m = false /\ is_tool_message m = false.
Proof.
  unfold is_user_or_assistant, history_entry_to_messages. intros H.
  destruct (String.eqb (role e) "user"); [eexists; repeat split; reflexivity|].
  destruct (String.eqb (role e) "assistant"); [eexists; repeat split; reflexivity|].
  discriminate H.
Qed.

Lemma converted_entries (l : list HistoryEntry) :
  Forall (fun e => is_user_or_assistant e = true) l ->
  length (concat (map history_entry_to_messages l)) = length l /\
  Forall (fun m => is_system m = false /\ is_tool_message m = false)
    (concat (map history_entry_to_messages l)).
Proof.
  induction 1 as [|e l He Hl [IHlen IHall]]; [split; [reflexivity|constructor]|].
  destruct (entry_message_of_turn_entry e He) as (m & Em & Hm).
  cbn [map concat]. rewrite Em. cbn [app length]. split.
  - rewrite IHlen. reflexivity.
  - constructor; assumption.
Qed.

Lemma filtered_entries (history : list HistoryEntry) :
  Forall (fun e => is_user_or_assistant e = true) (List.filter is_user_or_assistant history).
Proof.
  apply List.Forall_forall. intros e He. apply List.filter_In in He. apply He.
Qed.

Lemma Forall_drop_turn_entries (n : nat) (l : list HistoryEntry) :
  Forall (fun e => is_user_or_assistant e = true) l ->
  Forall (fun e => is_user_or_assistant e = true) (drop n l).
Proof. apply Forall_drop. Qed.

Lemma convert_history_positive history max_turns :
  (0 < max_turns)%Z ->
  convert_history_to_messages history max_turns =
    SystemMessage system_prompt ::
      concat (map history_entry_to_messages
                (drop (length (List.filter is_user_or_assistant history)
                       - Z.to_nat (2 * max_turns))
                   (List.filter is_user_or_assistant history))).
Proof.
  intros Hpos. unfold convert_history_to_messages.
  rewrite recent_entries_positive by exact Hpos. reflexivity.
Qed.

(** X1: with a positive number of turns to remember, the messages built
    from the history are the system prompt followed by the conversions of
    the last [2 * max_turns] user and assistant entries (of all of them
    when there are fewer); so there are [1 + min (entries, 2 * max_turns)]
    messages, and after the first none is a system or a tool message. *)
Theorem convert_history_window history max_turns :
  (0 < max_turns)%Z ->
  let filtered := List.filter is_user_or_assistant history in
  let window := Z.to_nat (2 * max_turns) in
  convert_history_to_messages history max_turns =
    SystemMessage system_prompt ::
      concat (map history_entry_to_messages (drop (length filtered - window) filtered)) /\
  length (convert_history_to_messages history max_turns) =
    1 + Nat.min (length filtered) window /\
  Forall (fun m => is_system m = false /\ is_tool_message m = false)
    (tail (convert_history_to_messages history max_turns)).
Proof.
  intros Hpos filtered window.
  assert (E : convert_history_to_messages history max_turns =
              SystemMessage system_prompt ::
                concat (map history_entry_to_messages
                          (drop (length filtered - window) filtered))).
  { apply convert_history_positive, Hpos. }
  destruct (converted_entries (drop (length filtered - window) filtered)) as [Hlen Hall].
  { apply Forall_drop_turn_entries, filtered_entries. }
  rewrite E. cbn [length tail]. split; [reflexivity|]. split; [|exact Hall].
  rewrite Hlen, length_drop. lia.
Qed.

Lemma convert_history_window_example :
  (0 < 1)%Z /\
  convert_history_to_messages
    [user_entry "q1"; assistant_entry "a1"; assistant_tool_entry "t1";
     user_entry "q2"; assistant_entry "a2"] 1 =
  [SystemMessage system_prompt; HumanMessage "q2"; AIMessage "a2" []].
Proof.
  split; [lia|].
  apply (convert_history_window
           [user_entry "q1"; assistant_entry "a1"; assistant_tool_entry "t1";
            user_entry "q2"; assistant_entry "a2"] 1).
  lia.
Defined.

(** X2: a window of zero turns does not empty the context: the slice
    [filtered_history[-0:]] is the whole list, so every user and assistant
    entry is converted; a negative [max_turns] drops the first
    [2 * |max_turns|] entries and keeps the rest. *)
Theorem convert_history_nonpositive_window history max_turns :
  (max_turns <= 0)%Z ->
  let filtered := List.filter is_user_or_assistant history in
  convert_history_to_messages history max_turns =
    SystemMessage system_prompt ::
      concat (map history_entry_to_messages
                (drop (Z.to_nat (- (2 * max_turns))) filtered)) /\
  (max_turns = 0%Z ->
   length (convert_history_to_messages history max_turns) = 1 + length filtered).
Proof.
  intros Hneg filtered.
  assert (E : convert_history_to_messages history max_turns =
              SystemMessage system_prompt ::
                concat (map history_entry_to_messages
                          (drop (Z.to_nat (- (2 * max_turns))) filtered))).
  { unfold convert_history_to_messages. fold filtered.
    rewrite recent_entries_nonpositive by exact Hneg. reflexivity. }
  split; [exact E|].
  intros ->. rewrite E.
  change (drop (Z.to_nat (- (2 * 0))) filtered) with filtered.
  cbn [length].
  destruct (converted_entries filtered (filtered_entries history)) as [-> _].
  reflexivity.
Qed.

Lemma convert_history_zero_window_example :
  (0 <= 0)%Z /\
  convert_history_to_messages
    [user_entry "q1"; assistant_entry "a1"; user_entry "q2"; assistant_entry "a2"] 0 =
  [SystemMessage system_prompt; HumanMessage "q1"; AIMessage "a1" [];
   HumanMessage "q2"; AIMessage "a2" []].
Proof.
  split; [lia|].
  apply (convert_history_nonpositive_window
           [user_entry "q1"; assistant_entry "a1"; user_entry "q2"; assistant_entry "a2"] 0).
  lia.
Defined.

(** ** The context summary of the translation prompts *)

Lemma filter_nil_existsb {A : Type} (P : A -> bool) (l : list A) :
  existsb P l = match List.filter P l with [] => false | _ :: _ => true end.
Proof.
  induction l as [|x l IH]; [reflexivity|].
  cbn [existsb List.filter]. destruct (P x); [reflexivity|exact IH].
Qed.

Lemma str_join_truthy (sep : string) (parts : list string) (first : string) :
  str_truthy first = true -> str_truthy (str_join sep (first :: parts)) = true.
Proof.
  intros H. destruct first as [|c first]; [discriminate H|].
  destruct parts; reflexivity.
Qed.

Lemma context_line_of_turn_entry py e :
  is_user_or_assistant e = true ->
  exists line, context_line py e = [line] /\ str_truthy line = true.
Proof.
  unfold is_user_or_assistant, context_line. intros H.
  destruct (String.eqb (role e) "user"); [eexists; split; reflexivity|].
  destruct (String.eqb (role e) "assistant"); [eexists; split; reflexivity|].
  discriminate H.
Qed.

Lemma recent_entries_nonempty (turns : Z) (l : list HistoryEntry) :
  (0 <= turns)%Z -> l <> [] -> recent_entries turns l <> [].
Proof.
  intros Hk Hl Hnil. apply (f_equal length) in Hnil.
  destruct (Z.eq_dec turns 0%Z) as [->|Hne].
  - rewrite recent_entries_nonpositive in Hnil by lia.
    cbn in Hnil. destruct l; [congruence|discriminate Hnil].
  - rewrite recent_entries_positive in Hnil by lia.
    rewrite length_drop in Hnil. cbn [length] in Hnil.
    destruct l; [congruence|]. cbn [length] in Hnil. lia.
Qed.

Lemma recent_entries_nil (turns : Z) : recent_entries turns [] = [].
Proof.
  unfold recent_entries, py_slice_from_neg.
  destruct (turns * 2 <? Z.of_nat (length ([] : list HistoryEntry)))%Z; [|reflexivity].
  destruct (0 <? turns * 2)%Z; apply drop_nil.
Qed.

Lemma recent_entries_turn_entries (turns : Z) (l : list HistoryEntry) :
  Forall (fun e => is_user_or_assistant e = true) l ->
  Forall (fun e => is_user_or_assistant e = true) (recent_entries turns l).
Proof.
  intros H. unfold recent_entries, py_slice_from_neg.
  destruct (turns * 2 <? Z.of_nat (length l))%Z; [|exact H].
  destruct (0 <? turns * 2)%Z; apply Forall_drop_turn_entries, H.
Qed.

Lemma context_summary_truthy py hist max_context_turns :
  (0 <= max_context_turns)%Z ->
  str_truthy (get_conversation_context_summary py hist max_context_turns) =
  existsb is_user_or_assistant hist.
Proof.
  intros Hk. rewrite filter_nil_existsb. unfold get_conversation_context_summary.
  destruct hist as [|first rest]; [reflexivity|].
  set (filtered := List.filter is_user_or_assistant (first :: rest)).
  pose proof (filtered_entries (first :: rest)) as Hall. fold filtered in Hall.
  destruct filtered as [|e filtered'] eqn:Ef.
  - rewrite recent_entries_nil. reflexivity.
  - pose proof (recent_entries_nonempty max_context_turns (e :: filtered') Hk) as Hne.
    pose proof (recent_entries_turn_entries max_context_turns _ Hall) as Hrec.
    destruct (recent_entries max_context_turns (e :: filtered')) as [|r recent].
    + exfalso. apply Hne; [discriminate|reflexivity].
    + apply Forall_cons in Hrec as [Hr _].
      destruct (context_line_of_turn_entry py r Hr) as (line & El & Hl).
      cbn [map concat]. rewrite El. cbn [app].
      apply str_join_truthy, Hl.
Qed.

(** X3: for a window of zero or more turns, the context summary is the
    empty string exactly when the history holds no user and no assistant
    entry (tool transcripts alone give no context).  So, in a state with a
    HumanMessage, [translate_to_english] sends the translator the prompt
    with the context part (the summary of 3 turns) exactly when the
    session history has such an entry, and the plain prompt otherwise;
    [korean_direct_answer] does the same with the summary of 5 turns. *)
Theorem context_summary_empty_iff py hist max_context_turns :
  (0 <= max_context_turns)%Z ->
  str_truthy (get_conversation_context_summary py hist max_context_turns) =
    existsb is_user_or_assistant hist /\
  (forall translator st w m,
     last_human (messages st) = Some m ->
     translate_to_english py translator st w =
       match
         ainvoke translator
           [HumanMessage
              (if existsb is_user_or_assistant (history (session w))
               then translation_prompt_with_context
                      (get_conversation_context_summary py (history (session w)) 3)
                      (msg_content m)
               else translation_prompt_plain (msg_content m))]
       with
       | Raise e => (Raise e, w)
       | Ok (response_content, _) =>
           (Ok (Some (removelast (messages st)
                        ++ [HumanMessage (py_strip py response_content)])), w)
       end) /\
  (forall translator st w m,
     last_human (messages st) = Some m ->
     korean_direct_answer py translator st w =
       match
         ainvoke translator
           [HumanMessage
              (if existsb is_user_or_assistant (history (session w))
               then korean_prompt_with_context
                      (get_conversation_context_summary py (history (session w)) 5)
                      (msg_content m)
               else korean_prompt_plain (msg_content m))]
       with
       | Raise e => (Raise e, w)
       | Ok (response_content, _) =>
           (Ok (Some [AIMessage (py_strip py response_content) []]), w)
       end).
Proof.
  intros Hk. split; [apply context_summary_truthy, Hk|]. split.
  - intros translator st w m Hm. unfold translate_to_english.
    rewrite Hm, context_summary_truthy by lia.
    destruct (ainvoke translator _) as [[response_content tcs]|e]; reflexivity.
  - intros translator st w m Hm. unfold korean_direct_answer.
    rewrite Hm, context_summary_truthy by lia.
    destruct (ainvoke translator _) as [[response_content tcs]|e]; reflexivity.
Qed.

Lemma context_summary_example :
  (0 <= 3)%Z /\
  str_truthy (get_conversation_context_summary ascii_runtime
                [assistant_tool_entry "PMID: 12345"] 3) = false.
Proof.
  split; [lia|].
  apply (context_summary_empty_iff ascii_runtime [assistant_tool_entry "PMID: 12345"] 3).
  lia.
Defined.

(** ** Keeping and rendering a turn *)

Lemma turn_entries_after_turn py user_query final_text final_tool history :
  List.filter is_user_or_assistant
    (keep_agent_turn py false user_query final_text final_tool history) =
  List.filter is_user_or_assistant history ++
    [user_entry user_query; assistant_entry final_text].
Proof.
  unfold keep_agent_turn.
  destruct (str_truthy (py_strip py final_tool));
    rewrite !List.filter_app; cbn; rewrite <- ?app_assoc, ?app_nil_r; reflexivity.
Qed.

Lemma turn_entries_after_basic_turn user_query final_text history :
  List.filter is_user_or_assistant
    (keep_basic_turn false user_query final_text history) =
  List.filter is_user_or_assistant history ++
    [user_entry user_query; assistant_entry final_text].
Proof.
  unfold keep_basic_turn.
  rewrite !List.filter_app; cbn; rewrite <- ?app_assoc; reflexivity.
Qed.

(** X4: keeping a finished turn raises the turn count shown in the
    interface by exactly one, with or without a tool transcript, on the
    agent path and on the basic-model path, whatever the history held
    before; a turn that ended in an error leaves the history as it was. *)
Theorem kept_turn_counts_once py user_query final_text final_tool history :
  conversation_turns (keep_agent_turn py false user_query final_text final_tool history) =
    S (conversation_turns history) /\
  conversation_turns (keep_basic_turn false user_query final_text history) =
    S (conversation_turns history) /\
  keep_agent_turn py true user_query final_text final_tool history = history /\
  keep_basic_turn true user_query final_text history = history.
Proof.
  unfold conversation_turns.
  rewrite turn_entries_after_turn, turn_entries_after_basic_turn, !length_app.
  cbn [length].
  assert (E : forall n, (n + 2) / 2 = S (n / 2)).
  { intros n. replace (n + 2) with (n + 1 * 2) by lia.
    rewrite Nat.div_add by lia. lia. }
  rewrite E. repeat split; reflexivity.
Qed.

Lemma print_message_before_user_bounded (n : nat) :
  forall history content rest,
    length history <= n ->
    print_message (history ++ user_entry content :: rest) =
    print_message history ++ print_message (user_entry content :: rest).
Proof.
  induction n as [|n IH]; intros history content rest Hlen.
  - destruct history; [reflexivity|cbn in Hlen; lia].
  - destruct history as [|message history]; [reflexivity|].
    cbn [length] in Hlen.
    cbn [app]. cbn [print_message].
    destruct (String.eqb (role message) "user").
    { rewrite <- app_comm_cons. f_equal. apply IH. lia. }
    destruct (String.eqb (role message) "assistant"); [|apply IH; lia].
    destruct history as [|next history].
    { reflexivity. }
    cbn [app]. cbn [length] in Hlen.
    destruct (String.eqb (role next) "assistant_tool").
    + rewrite <- app_comm_cons. f_equal. apply IH. lia.
    + rewrite <- app_comm_cons. f_equal.
      apply (IH (next :: history)). cbn [length]. lia.
Qed.

Lemma print_message_before_user history content rest :
  print_message (history ++ user_entry content :: rest) =
  print_message history ++ print_message (user_entry content :: rest).
Proof. apply (print_message_before_user_bounded (length history)). lia. Qed.

(** X5: a kept turn is rendered as one user bubble and one assistant
    bubble after the bubbles of the earlier history, whatever that history
    is; the assistant bubble carries the tool transcript exactly when the
    transcript is not blank. *)
Theorem kept_turn_is_rendered py user_query final_text final_tool history :
  print_message (keep_agent_turn py false user_query final_text final_tool history) =
    print_message history ++
    [UserBubble user_query;
     AssistantBubble final_text
       (if str_truthy (py_strip py final_tool) then Some final_tool else None)] /\
  print_message (keep_basic_turn false user_query final_text history) =
    print_message history ++
    [UserBubble user_query; AssistantBubble final_text None].
Proof.
  unfold keep_agent_turn, keep_basic_turn.
  destruct (str_truthy (py_strip py final_tool));
    rewrite <- ?app_assoc; cbn [app];
    rewrite !print_message_before_user; split; reflexivity.
Qed.

Lemma print_message_texts_bounded (n : nat) :
  forall history,
    length history <= n ->
    map bubble_text (print_message history) =
    map entry_content (List.filter is_user_or_assistant history).
Proof.
  induction n as [|n IH]; intros history Hlen.
  - destruct history; [reflexivity|cbn in Hlen; lia].
  - destruct history as [|message history]; [reflexivity|].
    cbn [length] in Hlen.
    cbn [print_message List.filter]. unfold is_user_or_assistant at 1.
    destruct (String.eqb (role message) "user").
    { cbn [orb map bubble_text]. f_equal. apply IH. lia. }
    destruct (String.eqb (role message) "assistant"); cbn [orb]; [|apply IH; lia].
    destruct history as [|next history]; [reflexivity|].
    cbn [length] in Hlen.
    destruct (String.eqb_spec (role next) "assistant_tool") as [Hrole|_].
    + cbn [map bubble_text List.filter]. unfold is_user_or_assistant at 1.
      rewrite Hrole. cbn [String.eqb Ascii.eqb Bool.eqb orb andb].
      f_equal. apply IH. lia.
    + cbn [map bubble_text]. f_equal. apply (IH (next :: history)). cbn [length]. lia.
Qed.

(** X22: the bubbles on the screen are, in order, the user and assistant
    entries of the history, each shown once with its content; a tool
    transcript is never a bubble of its own (it is shown under the
    assistant entry it follows, or not at all).  So the number of bubbles
    is the number of user and assistant entries, and the turn count shown
    is half of it. *)
Theorem rendered_bubbles_are_turn_entries history :
  map bubble_text (print_message history) =
    map entry_content (List.filter is_user_or_assistant history) /\
  length (print_message history) =
    length (List.filter is_user_or_assistant history) /\
  conversation_turns history = length (print_message history) / 2.
Proof.
  assert (E : map bubble_text (print_message history) =
              map entry_content (List.filter is_user_or_assistant history)).
  { apply (print_message_texts_bounded (length history)). lia. }
  assert (L : length (print_message history) =
              length (List.filter is_user_or_assistant history)).
  { apply (f_equal length) in E. rewrite !length_map in E. exact E. }
  split; [exact E|]. split; [exact L|].
  unfold conversation_turns. rewrite L. reflexivity.
Qed.

(** X6: with a positive number of turns to remember, the messages built
    for the next turn end with the query and the answer of the turn just
    kept; the tool transcript kept with the turn is not among them. *)
Theorem kept_turn_reaches_next_context
    py user_query final_text final_tool history max_turns :
  (0 < max_turns)%Z ->
  let next := convert_history_to_messages
                (keep_agent_turn py false user_query final_text final_tool history)
                max_turns in
  (exists earlier,
     next = SystemMessage system_prompt :: earlier ++
              [HumanMessage user_query; AIMessage final_text []]) /\
  Forall (fun m => is_tool_message m = false) next.
Proof.
  intros Hpos next. subst next.
  rewrite (convert_history_positive _ _ Hpos), turn_entries_after_turn. split.
  - rewrite drop_app_le by (rewrite length_app; cbn [length]; lia).
    rewrite map_app, concat_app. eexists. reflexivity.
  - constructor; [reflexivity|].
    match goal with
    | |- Forall _ (concat (map _ ?l)) =>
        destruct (converted_entries l) as [_ Hall]
    end.
    + apply Forall_drop_turn_entries.
      apply Forall_app. split; [apply filtered_entries|repeat constructor].
    + eapply Forall_impl; [exact Hall|]. intros m [_ Hm]. exact Hm.
Qed.

Lemma kept_turn_next_context_example :
  (0 < 8)%Z /\
  Forall (fun m => is_tool_message m = false)
    (convert_history_to_messages
       (keep_agent_turn ascii_runtime false "q2" "a2" "PMID: 12345"
          [user_entry "q1"; assistant_entry "a1"]) 8).
Proof.
  split; [lia|].
  apply (kept_turn_reaches_next_context ascii_runtime "q2" "a2" "PMID: 12345"
           [user_entry "q1"; assistant_entry "a1"] 8).
  lia.
Defined.

(** ** Searching a message list from its newest message *)

Lemma find_none_prefix {A : Type} (P : A -> bool) (l rest : list A) :
  Forall (fun y => P y = false) l -> List.find P (l ++ rest) = List.find P rest.
Proof.
  induction 1 as [|y l Hy _ IH]; [reflexivity|].
  cbn [app List.find]. rewrite Hy. exact IH.
Qed.

Lemma find_newest {A : Type} (P : A -> bool) (prev later : list A) (x : A) :
  P x = true -> Forall (fun y => P y = false) later ->
  List.find P (rev (prev ++ x :: later)) = Some x.
Proof.
  intros Hx Hlater. rewrite rev_app_distr. cbn [rev]. rewrite <- app_assoc.
  rewrite find_none_prefix.
  - cbn [app List.find]. rewrite Hx. reflexivity.
  - apply List.Forall_forall. intros y Hy. apply List.in_rev in Hy.
    rewrite List.Forall_forall in Hlater. apply Hlater, Hy.
Qed.

Lemma find_nothing {A : Type} (P : A -> bool) (l : list A) :
  Forall (fun y => P y = false) l -> List.find P (rev l) = None.
Proof.
  intros H. destruct (List.find P (rev l)) as [x|] eqn:Hfind; [|reflexivity].
  apply List.find_some in Hfind as [Hin Hx]. apply List.in_rev in Hin.
  rewrite List.Forall_forall in H. rewrite (H x Hin) in Hx. discriminate Hx.
Qed.

(** ** The final text of a turn and the streamed buffers *)

(** X7: when the graph returned a state, the final text of the turn is
    never empty: it is the content of the newest AIMessage with content
    and without tool calls, wherever in the state that message is and
    whatever was streamed; when the state has no such message it is the
    streamed text if there is some, else the fixed apology. *)
Theorem final_text_never_empty st streaming_text :
  str_truthy (final_text_of (Some st) streaming_text) = true /\
  (forall prev m later,
     messages st = prev ++ m :: later ->
     is_answer m = true -> Forall (fun m' => is_answer m' = false) later ->
     final_text_of (Some st) streaming_text = msg_content m) /\
  (Forall (fun m => is_answer m = false) (messages st) ->
   final_text_of (Some st) streaming_text =
     if str_truthy streaming_text then streaming_text else no_answer_text).
Proof.
  unfold final_text_of. split; [|split].
  - destruct (List.find is_answer (rev (messages st))) as [m|] eqn:Hfind.
    + apply List.find_some in Hfind as [_ Hm].
      destruct m as [c|c|c [|tc tcs]|c i]; try discriminate Hm. exact Hm.
    + destruct (str_truthy streaming_text) eqn:Hs; [exact Hs|reflexivity].
  - intros prev m later -> Hm Hlater.
    rewrite (find_newest is_answer prev later m Hm Hlater). reflexivity.
  - intros Hnone. rewrite (find_nothing is_answer _ Hnone). reflexivity.
Qed.

Lemma callback_func_from (msgs : list BaseMessage) :
  forall b,
    accumulated_text (foldl callback_func b msgs) =
      accumulated_text b ++ map msg_content (List.filter is_answer msgs) /\
    accumulated_tool (foldl callback_func b msgs) =
      accumulated_tool b ++
      map (fun m => json_fence (msg_content m)) (List.filter is_tool_message msgs).
Proof.
  induction msgs as [|m msgs IH]; intros b.
  - cbn. rewrite !app_nil_r. split; reflexivity.
  - cbn [foldl]. destruct (IH (callback_func b m)) as [-> ->].
    destruct m as [c|c|c [|tc tcs]|c i]; cbn [callback_func List.filter is_answer
      is_tool_message has_tool_calls negb andb map msg_content accumulated_text
      accumulated_tool];
      try (split; reflexivity).
    + destruct (str_truthy c); cbn [andb accumulated_text accumulated_tool map msg_content];
        rewrite <- ?app_assoc; split; reflexivity.
    + rewrite Bool.andb_false_r. split; reflexivity.
    + rewrite <- app_assoc. split; reflexivity.
Qed.

(** X8: after the streaming callback has seen a sequence of messages, the
    text buffer holds, in order, the contents of the AIMessages that have
    content and no tool calls, and the tool buffer the fenced contents of
    the ToolMessages; system and human messages and tool-call requests
    reach neither buffer. *)
Theorem streamed_buffers (msgs : list BaseMessage) :
  accumulated_text (foldl callback_func empty_buffers msgs) =
    map msg_content (List.filter is_answer msgs) /\
  accumulated_tool (foldl callback_func empty_buffers msgs) =
    map (fun m => json_fence (msg_content m)) (List.filter is_tool_message msgs).
Proof. apply (callback_func_from msgs empty_buffers). Qed.

(** ** Tool descriptions for the settings panel *)

(** X9: a description is returned only for a tool of the session whose
    name matches and whose description is not blank: the first such tool
    in the catalog; the returned text is that description stripped, hence
    never empty.  [None] is returned exactly when no tool of the catalog
    qualifies. *)
Theorem tool_description_is_first_match py lower s name :
  (forall d,
     get_tool_description_from_available_tools py lower s name = Some d ->
     exists before tool after,
       available_tools s = before ++ tool :: after /\
       Forall (fun t => name_matches lower name t && documented py t = false) before /\
       name_matches lower name tool = true /\
       d = py_strip py (tool_description tool) /\
       str_truthy d = true) /\
  (get_tool_description_from_available_tools py lower s name = None <->
   Forall (fun t => name_matches lower name t && documented py t = false)
     (available_tools s)).
Proof.
  assert (E : get_tool_description_from_available_tools py lower s name =
              first_description py lower name (available_tools s)).
  { unfold get_tool_description_from_available_tools.
    destruct (available_tools s); reflexivity. }
  rewrite E. clear E. generalize (available_tools s) as tools.
  intros tools. split.
  - induction tools as [|t tools IH]; intros d H; [discriminate H|].
    cbn [first_description] in H.
    destruct (name_matches lower name t && documented py t) eqn:Ht.
    + inversion H; subst d. exists [], t, tools.
      apply andb_prop in Ht as [Hm Hd]. unfold documented in Hd.
      apply andb_prop in Hd as [_ Hd].
      repeat split; [constructor|exact Hm|exact Hd].
    + destruct (IH d H) as (before & tool & after & -> & Hb & Hrest).
      exists (t :: before), tool, after. split; [reflexivity|].
      split; [constructor; assumption|exact Hrest].
  - induction tools as [|t tools IH]; [split; [constructor|reflexivity]|].
    cbn [first_description].
    destruct (name_matches lower name t && documented py t) eqn:Ht.
    + split; [discriminate|]. intros H. apply Forall_cons in H as [H _]. congruence.
    + rewrite IH. split.
      * intros H. constructor; assumption.
      * intros H. apply Forall_cons in H as [_ H]. exact H.
Qed.

(** ** The node functions at their edges *)

Lemma translate_to_korean_answers py translator st w :
  exists c, translate_to_korean py translator st w = (Ok (Some [AIMessage c []]), w).
Proof.
  unfold translate_to_korean.
  destruct (nonempty_content (List.find is_tool_message (rev (messages st))));
    [|destruct (nonempty_content (List.find is_plain_ai (rev (messages st))))];
    try (match goal with
         | |- context [ainvoke ?m ?input] => destruct (ainvoke m input) as [[c' tcs]|e]
         end); eauto.
Qed.

Lemma format_korean_response_answers st w :
  exists c, format_korean_response st w = (Ok (Some [AIMessage c []]), w) /\
            str_truthy c = true.
Proof.
  unfold format_korean_response.
  destruct (List.find is_final_content (rev (messages st))) as [m|] eqn:Hfind;
    cbn [option_map].
  - apply List.find_some in Hfind as [_ Hm]. exists (msg_content m).
    split; [reflexivity|].
    destruct m as [c|c|c [|tc tcs]|c i]; try discriminate Hm; exact Hm.
  - eexists. split; reflexivity.
Qed.

(** X10: [translate_to_korean] never raises and leaves the world as it
    is; its update is always one AIMessage without tool calls.  When the
    translator raises, that message is the error text with the exception's
    message (or the apology, when there was nothing to translate).  The
    newest ToolMessage, when it has content, is what gets translated, even
    if AIMessages follow it.  When no message is a ToolMessage with content
    or an AIMessage with content and without tool calls, the fixed apology
    is returned without consulting the translator. *)
Theorem translate_to_korean_total py translator st w :
  (exists c, translate_to_korean py translator st w = (Ok (Some [AIMessage c []]), w)) /\
  (forall e,
     (forall input, ainvoke translator input = Raise e) ->
     translate_to_korean py translator st w =
       (Ok (Some [AIMessage (translation_error_text e) []]), w) \/
     translate_to_korean py translator st w =
       (Ok (Some [AIMessage nothing_to_translate_text []]), w)) /\
  (forall prev c id later,
     messages st = prev ++ ToolMessage c id :: later ->
     str_truthy c = true -> Forall (fun m => is_tool_message m = false) later ->
     translate_to_korean py translator st w =
       match ainvoke translator [HumanMessage (korean_translation_prompt c)] with
       | Ok (response_content, _) =>
           (Ok (Some [AIMessage (py_strip py response_content) []]), w)
       | Raise e => (Ok (Some [AIMessage (translation_error_text e) []]), w)
       end) /\
  (Forall (fun m => is_final_content m = false) (messages st) ->
   translate_to_korean py translator st w =
     (Ok (Some [AIMessage nothing_to_translate_text []]), w)).
Proof.
  split; [|split; [|split]].
  - apply translate_to_korean_answers.
  - intros e Hraise. unfold translate_to_korean.
    destruct (nonempty_content (List.find is_tool_message (rev (messages st))));
      [|destruct (nonempty_content (List.find is_plain_ai (rev (messages st))))];
      rewrite ?Hraise; auto.
  - intros prev c id later Hmsgs Hc Hlater. unfold translate_to_korean.
    rewrite Hmsgs, (find_newest is_tool_message prev later (ToolMessage c id))
      by (reflexivity || exact Hlater).
    cbn [nonempty_content msg_content]. rewrite Hc. reflexivity.
  - intros Hnone. unfold translate_to_korean.
    assert (Htool : nonempty_content (List.find is_tool_message (rev (messages st))) = None).
    { destruct (List.find is_tool_message (rev (messages st))) as [m|] eqn:Hfind;
        [|reflexivity].
      apply List.find_some in Hfind as [Hin Hm]. apply List.in_rev in Hin.
      rewrite List.Forall_forall in Hnone. specialize (Hnone m Hin).
      destruct m as [c|c|c tcs|c i]; try discriminate Hm.
      cbn in Hnone |- *. rewrite Hnone. reflexivity. }
    assert (Hai : nonempty_content (List.find is_plain_ai (rev (messages st))) = None).
    { destruct (List.find is_plain_ai (rev (messages st))) as [m|] eqn:Hfind;
        [|reflexivity].
      apply List.find_some in Hfind as [Hin Hm]. apply List.in_rev in Hin.
      rewrite List.Forall_forall in Hnone. specialize (Hnone m Hin).
      destruct m as [c|c|c [|tc tcs]|c i]; try discriminate Hm.
      cbn in Hnone |- *. rewrite Hnone. reflexivity. }
    rewrite Htool, Hai. reflexivity.
Qed.

(** X11: [format_korean_response] never raises, never consults a model and
    leaves the world as it is; its update is one AIMessage without tool
    calls whose content is not empty: the content of the newest message
    that is a ToolMessage with content or an AIMessage with content and
    without tool calls, or the fixed apology when there is none. *)
Theorem format_korean_response_answer st w :
  (exists c, format_korean_response st w = (Ok (Some [AIMessage c []]), w) /\
             str_truthy c = true) /\
  (forall prev m later,
     messages st = prev ++ m :: later ->
     is_final_content m = true -> Forall (fun m' => is_final_content m' = false) later ->
     format_korean_response st w = (Ok (Some [AIMessage (msg_content m) []]), w)) /\
  (Forall (fun m => is_final_content m = false) (messages st) ->
   format_korean_response st w = (Ok (Some [AIMessage cannot_answer_text []]), w)).
Proof.
  split; [|split].
  - apply format_korean_response_answers.
  - intros prev m later Hmsgs Hm Hlater. unfold format_korean_response.
    rewrite Hmsgs, (find_newest is_final_content prev later m Hm Hlater). reflexivity.
  - intros Hnone. unfold format_korean_response.
    rewrite (find_nothing is_final_content _ Hnone). reflexivity.
Qed.

(** X12: in a state without a HumanMessage, [translate_to_english] and
    [korean_direct_answer] return an empty update without invoking the
    translator (so also when it would raise) and leave the world as it is;
    the state after either node is the state before it. *)
Theorem nodes_without_human_message py translator st w :
  Forall (fun m => is_human m = false) (messages st) ->
  translate_to_english py translator st w = (Ok (Some []), w) /\
  korean_direct_answer py translator st w = (Ok (Some []), w) /\
  state_after (translate_to_english py translator) st w = Some st /\
  state_after (korean_direct_answer py translator) st w = Some st.
Proof.
  intros Hnone.
  assert (Hlast : last_human (messages st) = None).
  { apply find_nothing, Hnone. }
  assert (E1 : translate_to_english py translator st w = (Ok (Some []), w)).
  { unfold translate_to_english. rewrite Hlast. reflexivity. }
  assert (E2 : korean_direct_answer py translator st w = (Ok (Some []), w)).
  { unfold korean_direct_answer. rewrite Hlast. reflexivity. }
  unfold state_after. rewrite E1, E2. cbn [apply_update]. unfold messages_reducer.
  rewrite app_nil_r. destruct st. repeat split; reflexivity.
Qed.

Lemma nodes_without_human_message_example :
  Forall (fun m => is_human m = false) [SystemMessage system_prompt] /\
  translate_to_english ascii_runtime (failing_model (Exception "Connection error."))
    {| messages := [SystemMessage system_prompt] |} fresh_world =
  (Ok (Some []), fresh_world).
Proof.
  assert (H : Forall (fun m => is_human m = false) [SystemMessage system_prompt]).
  { repeat constructor. }
  split; [exact H|].
  apply (nodes_without_human_message ascii_runtime
           (failing_model (Exception "Connection error."))
           {| messages := [SystemMessage system_prompt] |} fresh_world H).
Defined.

(** ** What a completed run leaves as its newest message *)

Lemma call_model_appends_ai model : appends_ai (call_model model).
Proof.
  intros st w u w' H. unfold call_model in H.
  destruct (ainvoke model (messages st)) as [[c tcs]|e]; inversion H; eauto.
Qed.

Lemma korean_agent_appends_ai tools model : appends_ai (korean_agent tools model).
Proof. intros st w u w' H. unfold korean_agent in H. eapply call_model_appends_ai, H. Qed.

Lemma translate_to_korean_appends_answer py translator :
  appends_answer (translate_to_korean py translator).
Proof.
  intros st w u w' H.
  destruct (translate_to_korean_answers py translator st w) as [c E].
  rewrite E in H. inversion H. eauto.
Qed.

Lemma format_korean_response_appends_answer : appends_answer format_korean_response.
Proof.
  intros st w u w' H.
  destruct (format_korean_response_answers st w) as [c [E _]].
  rewrite E in H. inversion H. eauto.
Qed.

Lemma korean_direct_answer_appends py translator :
  appends_answer_or_nothing (korean_direct_answer py translator).
Proof.
  intros st w u w' H. unfold korean_direct_answer in H.
  destruct (last_human (messages st)); [|inversion H; auto].
  match type of H with
  | context [ainvoke ?m ?input] => destruct (ainvoke m input) as [[c tcs]|e]
  end; inversion H; eauto.
Qed.

Lemma answer_then_nothing st c :
  ends_with_answer (apply_update (apply_update st (Some [AIMessage c []])) (Some [])).
Proof.
  exists c. cbn. unfold messages_reducer. rewrite app_nil_r. apply last_snoc.
Qed.

Lemma answer_appended st c : ends_with_answer (apply_update st (Some [AIMessage c []])).
Proof. exists c. cbn. unfold messages_reducer. apply last_snoc. Qed.

Section CompletedRuns.
Variables f_english f_agent f_action f_korean f_direct f_format : Node.
Hypothesis agent_appends : appends_ai f_agent.
Hypothesis korean_appends : appends_answer f_korean.
Hypothesis format_appends : appends_answer f_format.
Hypothesis direct_appends : appends_answer_or_nothing f_direct.

Let medical := medical_topology f_english f_agent f_action f_korean f_direct.
Let general := general_topology f_agent f_action f_format f_direct.

Ltac agent_step :=
  rewrite !run_from_step by discriminate; graph_eval;
  match goal with
  | |- context [match f_agent ?st ?w with (_, _) => _ end] =>
      let u := fresh "u" in let e := fresh "e" in let w' := fresh "w" in
      let E := fresh "E" in let c := fresh "c" in let tcs := fresh "tcs" in
      destruct (f_agent st w) as [[u|e] w'] eqn:E; [|discriminate];
      destruct (agent_appends _ _ _ _ E) as (c & tcs & ->);
      graph_eval;
      unfold should_continue_or_answer_medical, should_continue_or_answer_general;
      rewrite !last_after_append;
      destruct tcs; cbn [has_tool_calls]; graph_eval
  end.

Ltac plain_step :=
  rewrite !run_from_step by discriminate; graph_eval;
  match goal with
  | |- context [match ?f ?st ?w with (_, _) => _ end] =>
      let u := fresh "u" in let e := fresh "e" in let w' := fresh "w" in
      let E := fresh "E" in
      destruct (f st w) as [[u|e] w'] eqn:E; [|discriminate]
  end; graph_eval.

Lemma medical_run_ends_with_answer limit inputs w :
  outcome (run_graph medical limit inputs w) = ReachedEnd ->
  ends_with_answer (final_state (run_graph medical limit inputs w)).
Proof.
  unfold run_graph, medical. graph_eval.
  destruct limit as [|limit]; [discriminate|].
  destruct limit as [|limit]; [discriminate|]. plain_step.
  destruct limit as [|limit]; [discriminate|]. agent_step.
  - destruct limit as [|limit]; [discriminate|]. plain_step.
    destruct (direct_appends _ _ _ _ E1) as [->|[k ->]];
      rewrite !run_from_END; intros _; cbn [final_state].
    + apply answer_then_nothing.
    + apply answer_appended.
  - destruct limit as [|limit]; [discriminate|]. plain_step.
    destruct limit as [|limit]; [discriminate|]. plain_step.
    destruct (korean_appends _ _ _ _ E2) as [k ->].
    rewrite !run_from_END. intros _. cbn [final_state]. apply answer_appended.
Qed.

Lemma general_run_ends_with_answer limit inputs w :
  outcome (run_graph general limit inputs w) = ReachedEnd ->
  ends_with_answer (final_state (run_graph general limit inputs w)).
Proof.
  unfold run_graph, general. graph_eval.
  destruct limit as [|limit]; [discriminate|].
  destruct limit as [|limit]; [discriminate|]. agent_step.
  - destruct limit as [|limit]; [discriminate|]. plain_step.
    destruct (direct_appends _ _ _ _ E0) as [->|[k ->]];
      rewrite !run_from_END; intros _; cbn [final_state].
    + apply answer_then_nothing.
    + apply answer_appended.
  - destruct limit as [|limit]; [discriminate|]. plain_step.
    destruct limit as [|limit]; [discriminate|]. plain_step.
    destruct (format_appends _ _ _ _ E1) as [k ->].
    rewrite !run_from_END. intros _. cbn [final_state]. apply answer_appended.
Qed.
End CompletedRuns.

(** X13: whenever a run of the medical or of the general graph reaches
    END, the newest message of its final state is an AIMessage without
    pending tool-call requests: the translation or the formatted answer
    after a tool round, the direct answer, or the agent's own answer when
    the direct-answer node had nothing to add. *)
Theorem completed_run_ends_with_answer
    py servers tool_node tools model translator cfg limit inputs w :
  let medical := create_medical_workflow py servers tool_node tools model translator cfg in
  let general := create_general_workflow py servers tool_node tools model translator cfg in
  (outcome (run_graph medical limit inputs w) = ReachedEnd ->
   ends_with_answer (final_state (run_graph medical limit inputs w))) /\
  (outcome (run_graph general limit inputs w) = ReachedEnd ->
   ends_with_answer (final_state (run_graph general limit inputs w))).
Proof.
  intros medical general. subst medical general.
  rewrite create_medical_workflow_topology, create_general_workflow_topology.
  split.
  - apply medical_run_ends_with_answer;
      auto using call_model_appends_ai, translate_to_korean_appends_answer,
        korean_direct_answer_appends.
  - apply general_run_ends_with_answer;
      auto using korean_agent_appends_ai, format_korean_response_appends_answer,
        korean_direct_answer_appends.
Qed.

Lemma completed_run_example :
  outcome (run_graph (sample_medical_graph (constant_model "diabetes" []))
             100 sample_inputs fresh_world) = ReachedEnd /\
  ends_with_answer
    (final_state (run_graph (sample_medical_graph (constant_model "diabetes" []))
                    100 sample_inputs fresh_world)).
Proof.
  assert (H : outcome (run_graph (sample_medical_graph (constant_model "diabetes" []))
                         100 sample_inputs fresh_world) = ReachedEnd).
  { vm_compute. reflexivity. }
  split; [exact H|].
  apply (completed_run_ends_with_answer ascii_runtime healthy_servers sample_tool_node
           [search_tool] (constant_model "" [search_call])
           (constant_model "diabetes" []) sample_config 100 sample_inputs fresh_world).
  exact H.
Defined.

(** ** What connecting leaves alone *)

Lemma same_conversation_refl s : same_conversation s s.
Proof. repeat split; reflexivity. Qed.

Lemma same_conversation_trans s1 s2 s3 :
  same_conversation s1 s2 -> same_conversation s2 s3 -> same_conversation s1 s3.
Proof.
  unfold same_conversation.
  intros (A1 & A2 & A3 & A4 & A5 & A6) (B1 & B2 & B3 & B4 & B5 & B6).
  repeat split; congruence.
Qed.

Lemma update_server_status_same_conversation name st msg n s :
  same_conversation s (update_server_status name st msg n s).
Proof. repeat split; reflexivity. Qed.

Lemma connect_mcp_server_same_conversation b name s :
  same_conversation s (snd (connect_mcp_server b name s)).
Proof.
  unfold connect_mcp_server, session_failed, connection_failed.
  destruct (stdio_enter b), (session_enter b), (initialize b), (load_mcp_tools b);
    repeat split; reflexivity.
Qed.

Lemma connect_mcp_server_exit_same_conversation b name pending s :
  same_conversation s (snd (connect_mcp_server_exit b name pending s)).
Proof.
  unfold connect_mcp_server_exit, session_failed, connection_failed.
  destruct pending, (teardown b); repeat split; reflexivity.
Qed.

Lemma connect_each_same_conversation servers epoch items :
  forall acc w,
    same_conversation (session w) (session (snd (connect_each servers epoch items acc w))).
Proof.
  induction items as [|[server_id config] rest IH]; intros acc w.
  - apply same_conversation_refl.
  - cbn [connect_each].
    pose proof (connect_mcp_server_same_conversation
                  (servers epoch server_id config) server_id
                  (session (record_dial epoch server_id w))) as Hone.
    destruct (connect_mcp_server (servers epoch server_id config) server_id
                (session (record_dial epoch server_id w))) as [[tools|e] s'];
      cbn [snd] in Hone;
      (eapply same_conversation_trans; [exact Hone|]);
      match goal with
      | |- context [connect_each servers epoch rest ?a ?w'] =>
          exact (IH a w')
      end.
Qed.

Lemma unwind_same_conversation stack :
  forall pending s, same_conversation s (snd (unwind stack pending s)).
Proof.
  induction stack as [|[server_id b] rest IH]; intros pending s.
  - apply same_conversation_refl.
  - cbn [unwind].
    pose proof (connect_mcp_server_exit_same_conversation b server_id pending s) as Hone.
    destruct (connect_mcp_server_exit b server_id pending s) as [pending' s'].
    cbn [snd] in Hone. eapply same_conversation_trans; [exact Hone|apply IH].
Qed.

Lemma connect_all_same_conversation {A : Type} servers cfg
    (body : list Tool -> gmap string (list Tool) -> World -> Result A * World) w :
  (forall tools sessions w1,
     same_conversation (session w1) (session (snd (body tools sessions w1)))) ->
  same_conversation (session w)
    (session (snd (connect_all_mcp_servers servers cfg body w))).
Proof.
  intros Hbody. unfold connect_all_mcp_servers, connect_all_enter.
  match goal with
  | |- context [connect_each servers ?ep cfg ?a ?w'] =>
      pose proof (connect_each_same_conversation servers ep cfg a w') as Henter;
      destruct (connect_each servers ep cfg a w') as [c w1]
  end.
  cbn [snd] in Henter.
  pose proof (Hbody (all_tools c) (server_sessions c) w1) as Hb.
  destruct (body (all_tools c) (server_sessions c) w1) as [r w2]. cbn [snd] in Hb.
  match goal with
  | |- context [unwind ?stack ?p ?s] =>
      pose proof (unwind_same_conversation stack p s) as Hexit;
      destruct (unwind stack p s) as [pending' s3]
  end.
  cbn [snd] in Hexit.
  assert (H : same_conversation (session w) s3).
  { eapply same_conversation_trans; [|exact Hexit].
    eapply same_conversation_trans; [|exact Hb].
    eapply same_conversation_trans; [|exact Henter].
    repeat split; reflexivity. }
  destruct pending'; exact H.
Qed.

Lemma retry_attempts_same_conversation servers cfg n :
  forall w, same_conversation (session w) (session (snd (retry_attempts servers cfg n w))).
Proof.
  induction n as [|n IH]; intros w; [apply same_conversation_refl|].
  cbn [retry_attempts].
  pose proof (connect_all_same_conversation servers cfg
                (fun tools _ w' => (Ok tools, w')) w
                (fun _ _ w1 => same_conversation_refl (session w1))) as Hone.
  destruct (connect_all_mcp_servers servers cfg (fun tools _ w' => (Ok tools, w')) w)
    as [[tools|e] w1]; cbn [snd] in Hone; [exact Hone|].
  destruct n as [|n]; [exact Hone|].
  eapply same_conversation_trans; [exact Hone|].
  apply (IH (asyncio_sleep 1 w1)).
Qed.

Lemma tool_node_body_same_conversation (tool_node : ToolNode) st
    (tools : list Tool) (sessions : gmap string (list Tool)) w1 :
  same_conversation (session w1)
    (session (snd (match tools with
                   | [] => (Ok None, w1)
                   | _ :: _ => (tool_node tools st, w1)
                   end : Result Update * World))).
Proof. destruct tools; apply same_conversation_refl. Qed.

(** X14: no connection activity touches the conversation: after the retry
    wrapper, and after either action node, whatever the servers and the
    tool node do, the session still has the history, the initialised flag,
    the memory and recursion settings, the available tools and the server
    configuration it had before (only the server records and the
    connection log change). *)
Theorem connections_keep_conversation servers tool_node cfg max_retries st w :
  same_conversation (session w)
    (session (snd (get_tools_with_retry servers cfg max_retries w))) /\
  same_conversation (session w)
    (session (snd (safe_tool_node servers tool_node cfg st w))) /\
  same_conversation (session w)
    (session (snd (simple_tool_node servers tool_node cfg st w))).
Proof.
  split; [apply retry_attempts_same_conversation|].
  assert (H : same_conversation (session w)
                (session (snd (connect_all_mcp_servers servers cfg
                   (fun fresh_tools _ w' =>
                      match fresh_tools with
                      | [] => (Ok None, w')
                      | _ :: _ => (tool_node fresh_tools st, w')
                      end) w)))).
  { apply connect_all_same_conversation. intros tools sessions w1.
    apply (tool_node_body_same_conversation tool_node st tools sessions w1). }
  unfold safe_tool_node, simple_tool_node.
  destruct (connect_all_mcp_servers servers cfg
              (fun fresh_tools _ w' =>
                 match fresh_tools with
                 | [] => (Ok None, w')
                 | _ :: _ => (tool_node fresh_tools st, w')
                 end) w) as [[u|e] w']; split; exact H.
Qed.

(** ** A tool node that raises *)

Lemma is_failed_update name msg n s id :
  is_failed (update_server_status name "failed" msg n s) id =
  if String.eqb name id then true else is_failed s id.
Proof.
  unfold is_failed. rewrite server_status_update.
  destruct (String.eqb_spec name id) as [->|Hne].
  - rewrite lookup_insert_eq. reflexivity.
  - rewrite lookup_insert_ne by exact Hne. reflexivity.
Qed.

Lemma is_failed_kept name msg n s id :
  is_failed s id = true ->
  is_failed (update_server_status name "failed" msg n s) id = true.
Proof. intros H. rewrite is_failed_update, H. destruct (String.eqb name id); reflexivity. Qed.

Lemma is_failed_set name msg n s :
  is_failed (update_server_status name "failed" msg n s) name = true.
Proof. rewrite is_failed_update, String.eqb_refl. reflexivity. Qed.

(** Leaving a connection while an exception is in flight: the exception
    reaches the handlers around the [yield]. *)
Lemma exit_with_pending b name e s :
  exists msg s',
    connect_mcp_server_exit b name (Some e) s =
      (Some (Exception ("서버 연결 실패: " +:+ msg)), s') /\
    is_failed s' name = true /\
    (forall id, is_failed s id = true -> is_failed s' id = true).
Proof.
  unfold connect_mcp_server_exit, session_failed, connection_failed.
  eexists. eexists. split; [reflexivity|]. split.
  - apply is_failed_set.
  - intros id H. apply is_failed_kept, is_failed_kept, H.
Qed.

Lemma unwind_pending stack :
  forall e s,
    exists e',
      fst (unwind stack (Some e) s) = Some e' /\
      (stack <> [] -> exists msg, e' = Exception ("서버 연결 실패: " +:+ msg)) /\
      (forall id, In id (map fst stack) \/ is_failed s id = true ->
         is_failed (snd (unwind stack (Some e) s)) id = true).
Proof.
  induction stack as [|[server_id b] rest IH]; intros e s.
  - exists e. split; [reflexivity|]. split; [congruence|].
    intros id [[]|H]. exact H.
  - cbn [unwind].
    destruct (exit_with_pending b server_id e s) as (msg & s' & -> & Hself & Hkeep).
    destruct (IH (Exception ("서버 연결 실패: " +:+ msg)) s') as (e' & He' & Hform & Hall).
    exists e'. split; [exact He'|]. split.
    + intros _. destruct rest as [|next rest'].
      * cbn in He'. inversion He'. eauto.
      * apply Hform. discriminate.
    + intros id [Hin|Hs]; apply Hall.
      * cbn [map fst In] in Hin. destruct Hin as [<-|Hin]; [right; exact Hself|left; exact Hin].
      * right. apply Hkeep, Hs.
Qed.

Lemma connect_all_enter_result servers cfg w :
  all_tools (fst (connect_all_enter servers cfg w)) =
    flat_map (fun item => offered_tools (servers (connects w) item.1 item.2))
      (List.filter (fun item => comes_up (servers (connects w) item.1 item.2)) cfg) /\
  exit_stack (fst (connect_all_enter servers cfg w)) =
    rev (map (fun item => (item.1, servers (connects w) item.1 item.2))
           (List.filter (fun item => comes_up (servers (connects w) item.1 item.2)) cfg)).
Proof.
  unfold connect_all_enter.
  match goal with
  | |- context [connect_each servers ?ep cfg ?a ?w'] =>
      destruct (connect_each_spec servers ep cfg a w') as (H1 & _ & H3 & _)
  end.
  cbn [all_tools exit_stack app] in H1, H3.
  rewrite H1, H3, app_nil_r. split; [apply flat_map_offered|reflexivity].
Qed.

(** X15: when the tool node raises on a non-empty fresh catalog, the
    exception unwinds through every open connection: the action node (of
    either graph) returns one ToolMessage with the call id [error] whose
    text reports a failed server connection, and every server that had
    come up is left with the status failed. *)
Theorem tool_failure_marks_servers_failed servers tool_node cfg st w e :
  let fresh_tools := all_tools (fst (connect_all_enter servers cfg w)) in
  fresh_tools <> [] ->
  tool_node fresh_tools st = Raise e ->
  exists msg w',
    safe_tool_node servers tool_node cfg st w =
      (Ok (Some [ToolMessage ("도구 실행 중 오류 발생: 서버 연결 실패: " +:+ msg) "error"]), w') /\
    simple_tool_node servers tool_node cfg st w =
      (Ok (Some [ToolMessage ("도구 실행 중 오류 발생: 서버 연결 실패: " +:+ msg) "error"]), w') /\
    (forall item, In item cfg ->
       comes_up (servers (connects w) item.1 item.2) = true ->
       is_failed (session w') item.1 = true).
Proof.
  intros fresh_tools Hsome Hraise. subst fresh_tools.
  destruct (connect_all_enter_result servers cfg w) as [Htools Hstack].
  unfold safe_tool_node, simple_tool_node, connect_all_mcp_servers.
  destruct (connect_all_enter servers cfg w) as [c w1]. cbn [fst] in *.
  destruct (all_tools c) as [|tool tools] eqn:Hcat; [congruence|].
  rewrite Hraise.
  destruct (unwind_pending (exit_stack c) e (session w1)) as (e' & He' & Hform & Hall).
  destruct Hform as [msg ->].
  { intros Hnil. rewrite Hnil in Hstack. symmetry in Hstack.
    apply (f_equal (@rev _)) in Hstack. rewrite rev_involutive in Hstack.
    cbn [rev] in Hstack. apply map_eq_nil in Hstack.
    rewrite Hstack in Htools. discriminate Htools. }
  destruct (unwind (exit_stack c) (Some e) (session w1)) as [pending s3].
  cbn [fst snd] in He', Hall. subst pending.
  exists msg. eexists. split; [reflexivity|]. split; [reflexivity|].
  intros item Hin Hup. cbn [session on_session]. apply Hall. left.
  rewrite Hstack, map_rev, <- in_rev, map_map. cbn [fst].
  apply in_map. apply List.filter_In. split; assumption.
Qed.

Lemma tool_failure_example :
  all_tools (fst (connect_all_enter healthy_servers sample_config fresh_world)) <> [] /\
  exists msg w',
    safe_tool_node healthy_servers (failing_tool_node (Exception "boom")) sample_config
      {| messages := [HumanMessage "diabetes"; AIMessage "" [search_call]] |} fresh_world =
      (Ok (Some [ToolMessage ("도구 실행 중 오류 발생: 서버 연결 실패: " +:+ msg) "error"]), w') /\
    is_failed (session w') "pubmed" = true.
Proof.
  assert (H : all_tools (fst (connect_all_enter healthy_servers sample_config fresh_world))
              <> []).
  { vm_compute. discriminate. }
  split; [exact H|].
  destruct (tool_failure_marks_servers_failed healthy_servers
              (failing_tool_node (Exception "boom")) sample_config
              {| messages := [HumanMessage "diabetes"; AIMessage "" [search_call]] |}
              fresh_world (Exception "boom") H eq_refl) as (msg & w' & E & _ & Hall).
  exists msg, w'. split; [exact E|].
  apply (Hall ("pubmed", pubmed_config)); [left; reflexivity|reflexivity].
Defined.

(** ** Session initialisation *)

Lemma foldl_same_conversation {A : Type} (f : SessionState -> A -> SessionState)
    (l : list A) :
  (forall s a, same_conversation s (f s a)) ->
  forall s, same_conversation s (foldl f s l).
Proof.
  intros Hf. induction l as [|a l IH]; intros s; [apply same_conversation_refl|].
  cbn [foldl]. eapply same_conversation_trans; [apply Hf|apply IH].
Qed.

Lemma mark_all_same_conversation st msg cfg s :
  same_conversation s (mark_all st msg cfg s).
Proof.
  apply foldl_same_conversation. intros s' item.
  apply update_server_status_same_conversation.
Qed.

Lemma mark_unconnected_same_conversation msg cfg s :
  same_conversation s (mark_unconnected msg cfg s).
Proof.
  apply foldl_same_conversation. intros s' item. cbv zeta.
  destruct (String.eqb _ "connected");
    [apply same_conversation_refl|apply update_server_status_same_conversation].
Qed.

Lemma mark_all_lookup st msg cfg :
  forall s id,
    server_status (mark_all st msg cfg s) !! id =
    if existsb (String.eqb id) (map fst cfg)
    then Some {| status := st; tools_count := 0; error_message := msg |}
    else server_status s !! id.
Proof.
  unfold mark_all.
  induction cfg as [|[name config] cfg IH]; intros s id; [reflexivity|].
  cbn [foldl map existsb fst]. rewrite IH.
  destruct (existsb (String.eqb id) (map fst cfg)).
  - rewrite Bool.orb_true_r. reflexivity.
  - rewrite Bool.orb_false_r, server_status_update.
    destruct (String.eqb_spec id name) as [->|Hne].
    + apply lookup_insert_eq.
    + apply lookup_insert_ne. congruence.
Qed.

Lemma existsb_configured (cfg : McpConfig) (item : string * ServerConfig) :
  In item cfg -> existsb (String.eqb item.1) (map fst cfg) = true.
Proof.
  intros Hin. apply existsb_exists. exists item.1.
  split; [apply in_map, Hin|apply String.eqb_refl].
Qed.

(** X16: [initialize_session] returns the value it leaves in the
    initialised flag of the session, and never touches the history.  It
    returns true only when the model objects could be built and the tool
    catalog is not empty; the session then holds that catalog and the
    configuration it was called with. *)
Theorem initialize_session_flag servers model_setup cfg w :
  let r := initialize_session servers model_setup cfg w in
  session_initialized (session (snd r)) = fst r /\
  history (session (snd r)) = history (session w) /\
  (fst r = true ->
   model_setup = None /\
   available_tools (session (snd r)) <> [] /\
   mcp_config (session (snd r)) = cfg /\
   exists w', get_tools_with_retry servers cfg default_max_retries
                (on_session (mark_all "connecting" "서버 연결 시도 중..." cfg)
                   (on_session (set_session_initialized false) w)) =
              (Ok (available_tools (session (snd r))), w')).
Proof.
  intros r. subst r. unfold initialize_session.
  set (w0 := on_session (mark_all "connecting" "서버 연결 시도 중..." cfg)
               (on_session (set_session_initialized false) w)).
  assert (H0 : session_initialized (session w0) = false /\
               history (session w0) = history (session w)).
  { subst w0. cbn [session on_session].
    destruct (mark_all_same_conversation "connecting" "서버 연결 시도 중..." cfg
                (set_session_initialized false (session w))) as (A1 & A2 & _).
    rewrite A1, A2. split; reflexivity. }
  destruct H0 as [Hflag Hhist].
  pose proof (retry_attempts_same_conversation servers cfg
                (Z.to_nat default_max_retries) w0) as Hretry.
  fold (get_tools_with_retry servers cfg default_max_retries w0) in Hretry.
  destruct (get_tools_with_retry servers cfg default_max_retries w0)
    as [[[|tool tools]|e] w'] eqn:Eretry; cbn [snd] in Hretry;
    destruct Hretry as (R1 & R2 & _).
  - cbn [fst snd session on_session].
    destruct (mark_all_same_conversation "failed" "도구 로드 실패 - 연결된 도구 없음" cfg
                (session w')) as (A1 & A2 & _).
    rewrite A1, A2, R1, R2, Hflag, Hhist.
    split; [reflexivity|]. split; [reflexivity|]. discriminate.
  - destruct model_setup as [e|]; cbn [fst snd session on_session].
    + match goal with
      | |- context [mark_unconnected ?msg cfg ?s] =>
          destruct (mark_unconnected_same_conversation msg cfg s) as (A1 & A2 & _)
      end.
      rewrite A1, A2. cbn. rewrite R1, R2, Hflag, Hhist.
      split; [reflexivity|]. split; [reflexivity|]. discriminate.
    + cbn. rewrite R2, Hhist.
      split; [reflexivity|]. split; [reflexivity|]. intros _.
      split; [reflexivity|]. split; [discriminate|]. split; [reflexivity|].
      exists w'. reflexivity.
  - cbn [fst snd session on_session].
    match goal with
    | |- context [mark_unconnected ?msg cfg ?s] =>
        destruct (mark_unconnected_same_conversation msg cfg s) as (A1 & A2 & _)
    end.
    rewrite A1, A2, R1, R2, Hflag, Hhist.
    split; [reflexivity|]. split; [reflexivity|]. discriminate.
Qed.

(** X17: when no configured server comes up, [initialize_session]
    returns false after a single connect, without a retry and without
    sleeping, and leaves every configured server with the status failed
    and the message that no tool is connected; the message of the
    exception that made the connection fail is no longer in the record. *)
Theorem initialize_session_without_servers servers model_setup cfg w :
  (forall item, In item cfg -> comes_up (servers (connects w) item.1 item.2) = false) ->
  let r := initialize_session servers model_setup cfg w in
  fst r = false /\
  session_initialized (session (snd r)) = false /\
  connects (snd r) = S (connects w) /\
  slept (snd r) = slept w /\
  (forall item, In item cfg ->
     server_status (session (snd r)) !! item.1 =
       Some {| status := "failed"; tools_count := 0;
               error_message := "도구 로드 실패 - 연결된 도구 없음" |}).
Proof.
  intros Hdown r. subst r. unfold initialize_session.
  set (w0 := on_session (mark_all "connecting" "서버 연결 시도 중..." cfg)
               (on_session (set_session_initialized false) w)).
  assert (Hflag : session_initialized (session w0) = false).
  { subst w0. cbn [session on_session].
    destruct (mark_all_same_conversation "connecting" "서버 연결 시도 중..." cfg
                (set_session_initialized false (session w))) as (A1 & _).
    rewrite A1. reflexivity. }
  assert (Hdown0 : forall item, In item cfg ->
                     comes_up (servers (connects w0) item.1 item.2) = false).
  { exact Hdown. }
  destruct (connect_all_enter_nothing servers cfg w0 Hdown0) as [Htools Hstack].
  pose proof (connect_attempt_accounting servers cfg w0) as (Hc & Hs & _).
  pose proof (connect_all_same_conversation servers cfg
                (fun tools _ w' => (Ok tools, w')) w0
                (fun _ _ w1 => same_conversation_refl (session w1))) as (Hinit & _).
  assert (E : connect_attempt servers cfg w0 =
              (Ok [], snd (connect_attempt servers cfg w0))).
  { unfold connect_attempt, connect_all_mcp_servers.
    destruct (connect_all_enter servers cfg w0) as [c w1].
    cbn [fst] in Htools, Hstack. rewrite Htools, Hstack. reflexivity. }
  unfold get_tools_with_retry. change (Z.to_nat default_max_retries) with 2.
  cbn [retry_attempts]. fold (connect_attempt servers cfg w0).
  fold (connect_attempt servers cfg w0) in Hinit.
  rewrite E. cbn [fst snd session on_session connects slept].
  split; [reflexivity|].
  split.
  { destruct (mark_all_same_conversation "failed" "도구 로드 실패 - 연결된 도구 없음" cfg
                (session (snd (connect_attempt servers cfg w0)))) as (A1 & _).
    rewrite A1, Hinit. exact Hflag. }
  split; [exact Hc|]. split; [exact Hs|].
  intros item Hin. rewrite mark_all_lookup, (existsb_configured cfg item Hin).
  reflexivity.
Qed.

Lemma initialize_session_unreachable_example :
  (forall item, In item sample_config ->
     comes_up (unreachable_servers (connects fresh_world) item.1 item.2) = false) /\
  fst (initialize_session unreachable_servers None sample_config fresh_world) = false /\
  server_status
    (session (snd (initialize_session unreachable_servers None sample_config fresh_world)))
    !! "pubmed" =
  Some {| status := "failed"; tools_count := 0;
          error_message := "도구 로드 실패 - 연결된 도구 없음" |}.
Proof.
  assert (H : forall item, In item sample_config ->
                comes_up (unreachable_servers (connects fresh_world) item.1 item.2) = false).
  { intros item _. reflexivity. }
  split; [exact H|].
  destruct (initialize_session_without_servers unreachable_servers None sample_config
              fresh_world H) as (E & _ & _ & _ & Hall).
  split; [exact E|].
  apply (Hall ("pubmed", pubmed_config)). left. reflexivity.
Defined.

(** ** The classifier's results and its cache *)

Lemma accepted_workflow_values result wf :
  accepted_workflow result = Some wf -> wf = "medical" \/ wf = "general".
Proof.
  unfold accepted_workflow.
  destruct (dict_get "workflow" result) as [[| | | |s| |]|]; try discriminate.
  destruct (String.eqb_spec s "medical") as [->|_].
  { intros H. inversion H. left. reflexivity. }
  destruct (String.eqb_spec s "general") as [->|_]; [|discriminate].
  intros H. inversion H. right. reflexivity.
Qed.

Lemma parse_llm_response_well_formed py response_content :
  well_formed_result (parse_llm_response py response_content).
Proof.
  unfold parse_llm_response, text_parse_result, well_formed_result.
  destruct (re_search_braces response_content) as [json_str|].
  - destruct (json_loads py json_str) as [result|]; [|cbn; auto].
    destruct (accepted_workflow result) as [wf|] eqn:Hwf.
    + cbn. split; [apply (accepted_workflow_values result), Hwf|auto].
    + destruct (str_contains "medical" (str_lower response_content)); cbn; auto.
  - destruct (str_contains "medical" (str_lower response_content)); cbn; auto.
Qed.

Lemma fallback_well_formed query tool_info :
  well_formed_result (get_fallback_classification query tool_info).
Proof. unfold well_formed_result. cbn. auto. Qed.

(** X18: every classification is well formed, as long as the cache holds
    only well-formed results, which is then still the case afterwards (and
    is the case for a new classifier): the workflow is medical or general
    and the method tag is llm, fallback or error.  So
    [select_workflow_type] returns medical or general, nothing else. *)
Theorem classification_well_formed py prompt self query tools :
  well_formed_cache self ->
  well_formed_result (fst (classify_workflow py prompt self query tools)) /\
  well_formed_cache (snd (classify_workflow py prompt self query tools)) /\
  (fst (select_workflow_type py prompt self query tools) = "medical" \/
   fst (select_workflow_type py prompt self query tools) = "general").
Proof.
  intros Hcache.
  assert (H : well_formed_result (fst (classify_workflow py prompt self query tools)) /\
              well_formed_cache (snd (classify_workflow py prompt self query tools))).
  { unfold classify_workflow.
    destruct (cache self !! cache_key py query tools) as [cached|] eqn:Hhit.
    { split; [exact (Hcache _ _ Hhit)|exact Hcache]. }
    destruct (llm self (invocations self) _) as [response_content|[msg|msg]];
      cbn [fst snd].
    - split; [apply parse_llm_response_well_formed|].
      intros key r. cbn [cache cache_store served].
      destruct (String.eqb_spec (cache_key py query tools) key) as [<-|Hne].
      + rewrite lookup_insert_eq. intros Hr. inversion Hr.
        apply parse_llm_response_well_formed.
      + rewrite lookup_insert_ne by exact Hne. apply Hcache.
    - split; [apply fallback_well_formed|exact Hcache].
    - split; [apply fallback_well_formed|exact Hcache]. }
  destruct H as [Hr Hc]. split; [exact Hr|]. split; [exact Hc|].
  unfold select_workflow_type.
  destruct (classify_workflow py prompt self query tools) as [result self'].
  cbn [fst] in Hr.
  destruct (formats_as_float (confidence result)); cbn [fst]; [apply Hr|right; reflexivity].
Qed.

Lemma classification_well_formed_example :
  well_formed_cache (new_classifier undecided_llm) /\
  well_formed_result
    (fst (classify_workflow ascii_runtime sample_prompt (new_classifier undecided_llm)
            korean_query [search_tool])).
Proof.
  assert (H : well_formed_cache (new_classifier undecided_llm)).
  { intros key r Hr. cbn in Hr. rewrite lookup_empty in Hr. discriminate Hr. }
  split; [exact H|].
  apply (classification_well_formed ascii_runtime sample_prompt
           (new_classifier undecided_llm) korean_query [search_tool] H).
Defined.

(** X19: a classification never removes or replaces an entry of the cache
    and never swaps the model; it asks the model at most once, and not at
    all (leaving the classifier as it is) when the cache has an entry for
    the key. *)
Theorem classification_keeps_cache py prompt self query tools :
  let self' := snd (classify_workflow py prompt self query tools) in
  (forall key r, cache self !! key = Some r -> cache self' !! key = Some r) /\
  invocations self <= invocations self' <= S (invocations self) /\
  llm self' = llm self /\
  (forall cached,
     cache self !! cache_key py query tools = Some cached ->
     classify_workflow py prompt self query tools = (cached, self)).
Proof.
  intros self'. subst self'. unfold classify_workflow.
  destruct (cache self !! cache_key py query tools) as [cached|] eqn:Hhit.
  { cbn [snd]. split; [auto|]. split; [lia|]. split; [reflexivity|].
    intros c Hc. inversion Hc. reflexivity. }
  destruct (llm self (invocations self) _) as [response_content|[msg|msg]];
    cbn [fst snd cache cache_store served invocations llm];
    (split; [|split; [lia|split; [reflexivity|discriminate]]]); auto.
  intros key r Hr.
  destruct (String.eqb_spec (cache_key py query tools) key) as [<-|Hne]; [congruence|].
  rewrite lookup_insert_ne by exact Hne. exact Hr.
Qed.

(** ** The JSON candidate in the classifier's answer *)

Lemma append_cons c (a b : string) : String c a +:+ b = String c (a +:+ b).
Proof. reflexivity. Qed.

Lemma append_nil (b : string) : EmptyString +:+ b = b.
Proof. reflexivity. Qed.

Lemma append_snoc (a : string) x (p : string) :
  (a +:+ String x EmptyString) +:+ p = a +:+ String x p.
Proof.
  induction a as [|c a IH]; [reflexivity|].
  rewrite !append_cons, IH. reflexivity.
Qed.

Lemma has_char_app c (a b : string) :
  has_char c (a +:+ b) = has_char c a || has_char c b.
Proof.
  induction a as [|x a IH]; [reflexivity|].
  rewrite append_cons. cbn [has_char]. rewrite IH. apply Bool.orb_assoc.
Qed.

Lemma upto_last_close_spec s :
  match upto_last_close s with
  | Some r =>
      exists body post,
        r = body +:+ String brace_close EmptyString /\ s = r +:+ post /\
        has_char brace_close post = false
  | None => has_char brace_close s = false
  end.
Proof.
  induction s as [|c rest IH]; [reflexivity|].
  cbn [upto_last_close].
  destruct (upto_last_close rest) as [r|].
  - destruct IH as (body & post & -> & -> & Hpost).
    exists (String c body), post.
    split; [reflexivity|]. split; [reflexivity|exact Hpost].
  - destruct (Ascii.eqb c brace_close) eqn:Hc.
    + apply Ascii.eqb_eq in Hc. subst c.
      exists EmptyString, rest.
      split; [reflexivity|]. split; [reflexivity|exact IH].
    + cbn [has_char]. rewrite Hc. exact IH.
Qed.

(** X20: the JSON candidate taken from the classifier's answer runs from
    the first opening brace to the last closing brace after it: the answer
    is some text without an opening brace, the candidate, and some text
    without a closing brace.  There is a candidate exactly when an opening
    brace is followed, somewhere, by a closing brace. *)
Theorem re_search_braces_span s :
  (forall m,
     re_search_braces s = Some m ->
     exists pre body post,
       s = pre +:+ m +:+ post /\
       m = String brace_open (body +:+ String brace_close EmptyString) /\
       has_char brace_open pre = false /\
       has_char brace_close post = false) /\
  ((exists m, re_search_braces s = Some m) <->
   exists a b c,
     s = a +:+ String brace_open (b +:+ String brace_close c)).
Proof.
  split.
  - induction s as [|c rest IH]; intros m H; [discriminate H|].
    cbn [re_search_braces] in H.
    destruct (Ascii.eqb c brace_open) eqn:Hc.
    + apply Ascii.eqb_eq in Hc. subst c.
      pose proof (upto_last_close_spec rest) as Hr.
      destruct (upto_last_close rest) as [r|]; [|discriminate H].
      inversion H; subst m.
      destruct Hr as (body & post & -> & -> & Hpost).
      exists EmptyString, body, post.
      split; [reflexivity|]. split; [reflexivity|]. split; [reflexivity|exact Hpost].
    + destruct (IH m H) as (pre & body & post & -> & -> & Hpre & Hpost).
      exists (String c pre), body, post.
      split; [reflexivity|]. split; [reflexivity|]. split; [|exact Hpost].
      cbn [has_char]. rewrite Hc. exact Hpre.
  - split.
    + intros [m H]. revert m H.
      induction s as [|c rest IH]; intros m H; [discriminate H|].
      cbn [re_search_braces] in H.
      destruct (Ascii.eqb c brace_open) eqn:Hc.
      * apply Ascii.eqb_eq in Hc. subst c.
        pose proof (upto_last_close_spec rest) as Hr.
        destruct (upto_last_close rest) as [r|]; [|discriminate H].
        destruct Hr as (body & post & -> & -> & _).
        exists EmptyString, body, post. rewrite append_nil. f_equal.
        apply append_snoc.
      * destruct (IH m H) as (a & b & c' & ->).
        exists (String c a), b, c'. reflexivity.
    + intros (a & b & c & ->).
      induction a as [|x a IH].
      * rewrite append_nil. cbn [re_search_braces].
        assert (Hb : Ascii.eqb brace_open brace_open = true) by apply Ascii.eqb_refl.
        rewrite Hb.
        pose proof (upto_last_close_spec (b +:+ String brace_close c)) as Hr.
        destruct (upto_last_close (b +:+ String brace_close c)) as [r|]; [eauto|].
        rewrite has_char_app in Hr. cbn [has_char] in Hr.
        rewrite Ascii.eqb_refl, Bool.orb_true_r in Hr. discriminate Hr.
      * rewrite append_cons. cbn [re_search_braces].
        destruct (Ascii.eqb x brace_open); [|exact IH].
        pose proof (upto_last_close_spec
                      (a +:+ String brace_open (b +:+ String brace_close c))) as Hr.
        destruct (upto_last_close
                    (a +:+ String brace_open (b +:+ String brace_close c))) as [r|];
          [eauto|].
        rewrite has_char_app in Hr. cbn [has_char] in Hr.
        rewrite has_char_app in Hr. cbn [has_char] in Hr.
        rewrite Ascii.eqb_refl in Hr.
        rewrite !Bool.orb_true_r in Hr. discriminate Hr.
Qed.

(** ** A tool round of the general graph without servers *)

Lemma simple_tool_node_without_servers servers tool_node cfg st w :
  (forall item, In item cfg -> comes_up (servers (connects w) item.1 item.2) = false) ->
  exists w', simple_tool_node servers tool_node cfg st w = (Ok None, w').
Proof.
  intros Hdown.
  destruct (connect_all_enter_nothing servers cfg w Hdown) as [Htools Hstack].
  unfold simple_tool_node, connect_all_mcp_servers.
  destruct (connect_all_enter servers cfg w) as [c w1].
  cbn [fst snd] in Htools, Hstack. rewrite Htools, Hstack.
  cbn. eexists. reflexivity.
Qed.

(** X21: in the general graph, with a recursion limit of at least 4 (one
    step is spent on the start of the run), when the agent asks for a
    tool and no configured server comes up at that moment, the run still
    reaches END through agent, action and format_response, and the answer
    it ends with
    is not about the query: it is the content of the newest earlier
    message of the input that is a ToolMessage with content or an
    AIMessage with content and without tool calls (the answer of the
    previous turn, when the input comes from a history), or the fixed
    apology when the input has none. *)
Theorem general_run_without_servers
    py servers tool_node tools model translator cfg limit inputs w c tc tcs :
  4 <= limit ->
  respond model tools (korean_agent_messages inputs) = Ok (c, tc :: tcs) ->
  (forall item, In item cfg -> comes_up (servers (connects w) item.1 item.2) = false) ->
  let run := run_graph (create_general_workflow py servers tool_node tools model
                          translator cfg) limit inputs w in
  outcome run = ReachedEnd /\
  executed run = ["agent"; "action"; "format_response"] /\
  messages (final_state run) =
    inputs ++ [AIMessage c (tc :: tcs); AIMessage (newest_final_content inputs) []].
Proof.
  intros Hl Hagent Hdown run. subst run.
  rewrite create_general_workflow_topology. unfold run_graph. graph_eval.
  change (apply_update {| messages := [] |} (Some inputs)) with {| messages := inputs |}.
  destruct limit as [|[|[|[|limit]]]]; try lia.
  rewrite run_from_step by discriminate. graph_eval.
  assert (Ea : korean_agent tools model {| messages := inputs |} w =
               (Ok (Some [AIMessage c (tc :: tcs)]), w)).
  { unfold korean_agent, call_model, ainvoke. cbn [messages bind_tools bound respond].
    rewrite Hagent. reflexivity. }
  rewrite Ea. graph_eval.
  unfold should_continue_or_answer_general. rewrite last_after_append.
  cbn [has_tool_calls]. graph_eval.
  rewrite run_from_step by discriminate. graph_eval.
  destruct (simple_tool_node_without_servers servers tool_node cfg
              (apply_update {| messages := inputs |} (Some [AIMessage c (tc :: tcs)]))
              w Hdown) as [w' ->].
  graph_eval. cbn [apply_update].
  rewrite run_from_step by discriminate. graph_eval.
  match goal with
  | |- context [format_korean_response ?st' w'] =>
      assert (Ef : format_korean_response st' w' =
                   (Ok (Some [AIMessage (newest_final_content inputs) []]), w'))
  end.
  { unfold format_korean_response, newest_final_content.
    cbn [messages apply_update]. unfold messages_reducer.
    rewrite rev_unit. cbn [List.find is_final_content].
    destruct (List.find is_final_content (rev inputs)); reflexivity. }
  rewrite Ef. graph_eval. rewrite run_from_END.
  cbn [outcome executed final_state apply_update messages]. unfold messages_reducer.
  rewrite <- app_assoc. repeat split; reflexivity.
Qed.

Lemma general_run_without_servers_example :
  let run := run_graph (create_general_workflow ascii_runtime unreachable_servers
                          sample_tool_node [search_tool] (constant_model "" [search_call])
                          (constant_model "" []) sample_config)
               100 (process_query_smart_inputs second_turn_session "q2") fresh_world in
  4 <= 100 /\
  outcome run = ReachedEnd /\
  last (messages (final_state run)) = Some (AIMessage "a1" []).
Proof.
  intros run. split; [lia|].
  destruct (general_run_without_servers ascii_runtime unreachable_servers
              sample_tool_node [search_tool] (constant_model "" [search_call])
              (constant_model "" []) sample_config 100
              (process_query_smart_inputs second_turn_session "q2") fresh_world
              "" search_call []) as (Hend & _ & Hmsgs).
  - lia.
  - reflexivity.
  - intros item _. reflexivity.
  - split; [exact Hend|]. subst run. rewrite Hmsgs. reflexivity.
Defined.
